(** * A lossy vertex codec: normalisation, quantisation and error metrics

    Shallow embedding of [normalization.py], of the quantiser of
    [step4_quantize.py] / [step5_reconstruct.py] and of [compute_errors]
    of [step6_metrics.py], followed by the numeric parts of the other
    scripts: [compute_stats] (step 2), the loop bodies of steps 4 and 5,
    the decoding of steps 6 and 7, the figures of the comparison plot and
    the threshold test of [print_metrics]. Reading and writing files,
    plotting and formatting are left out.

    Modelling conventions.
    - A NumPy array is a shape together with its row-major buffer.
    - [float64] values are idealised as real numbers: every statement below
      is about exact arithmetic, rounding is not modelled.
    - [int32] is modelled: [astype_int32] is the identity inside
      [-2^31, 2^31) and yields the x86-64 "integer indefinite" value
      [-2^31] outside of it.
    - A Python exception is a value of [exception]; a call either returns
      [Ok v] or raises. *)

From Stdlib Require Import Reals Lra Lia ZArith String Bool List.
From Stdlib Require Import Zfloor.
Import ListNotations.
Open Scope R_scope.

(** ** Python results *)

Inductive exception : Type :=
| ValueError
| KeyError
| TypeError
| SystemExit.

Inductive result (A : Type) : Type :=
| Ok (a : A)
| Raise (e : exception).

Arguments Ok {A} a.
Arguments Raise {A} e.

Definition bind {A B : Type} (r : result A) (k : A -> result B) : result B :=
  match r with
  | Ok a => k a
  | Raise e => Raise e
  end.

Notation "x <- e ;; k" := (bind e (fun x => k))
  (at level 61, e at next level, right associativity).

(** ** Arrays *)

Record ndarray (A : Type) : Type := mk_ndarray {
  shape : list nat;
  data : list A
}.

Arguments mk_ndarray {A} shape data.
Arguments shape {A} n.
Arguments data {A} n.

Definition ndim {A : Type} (a : ndarray A) : nat := length (shape a).

Definition size_of (sh : list nat) : nat := fold_right Nat.mul 1%nat sh.

(** The buffer holds exactly the elements the shape announces. *)
Definition well_formed {A : Type} (a : ndarray A) : Prop :=
  length (data a) = size_of (shape a).

(** One row of an (N, 3) array. *)
Definition vec3 : Type := (R * R * R)%type.

Inductive axis : Type := AxisX | AxisY | AxisZ.

Definition get (a : axis) (v : vec3) : R :=
  match v with
  | (x, y, z) => match a with AxisX => x | AxisY => y | AxisZ => z end
  end.

Definition vmap (f : R -> R) (v : vec3) : vec3 :=
  match v with (x, y, z) => (f x, f y, f z) end.

Definition vzip (f : R -> R -> R) (u v : vec3) : vec3 :=
  match u, v with (x, y, z), (x', y', z') => (f x x', f y y', f z z') end.

(** Row view of the buffer of an (N, 3) array, and back. *)
Fixpoint rows3 (l : list R) : list vec3 :=
  match l with
  | x :: y :: z :: t => (x, y, z) :: rows3 t
  | _ => []
  end.

Fixpoint flat3 (V : list vec3) : list R :=
  match V with
  | [] => []
  | (x, y, z) :: t => x :: y :: z :: flat3 t
  end.

(** The (N, 3) array whose rows are [V]. *)
Definition array3 (V : list vec3) : ndarray R :=
  mk_ndarray [length V; 3%nat] (flat3 V).

Definition column (a : axis) (V : list vec3) : list R := map (get a) V.

(** [a.ndim != 2 or a.shape[1] != 3] *)
Definition bad_shape {A : Type} (a : ndarray A) : bool :=
  negb (ndim a =? 2)%nat || negb (nth 1 (shape a) 0%nat =? 3)%nat.

(** ** NumPy reductions *)

(** [np.min] / [np.max]: a zero-size array has no minimum, NumPy raises
    [ValueError]. *)
Definition amin (l : list R) : result R :=
  match l with
  | [] => Raise ValueError
  | x :: t => Ok (fold_left Rmin t x)
  end.

Definition amax (l : list R) : result R :=
  match l with
  | [] => Raise ValueError
  | x :: t => Ok (fold_left Rmax t x)
  end.

Definition amin_Z (l : list Z) : result Z :=
  match l with
  | [] => Raise ValueError
  | x :: t => Ok (fold_left Z.min t x)
  end.

Definition amax_Z (l : list Z) : result Z :=
  match l with
  | [] => Raise ValueError
  | x :: t => Ok (fold_left Z.max t x)
  end.

Definition sum (l : list R) : R := fold_right Rplus 0 l.

(** [np.mean]. On a zero-size array NumPy warns and returns nan; here the
    quotient by zero stands for it. *)
Definition mean (l : list R) : R := sum l / INR (length l).

(** [np.std], population standard deviation ([ddof = 0]). *)
Definition std (l : list R) : R :=
  sqrt (mean (map (fun x => Rsqr (Rabs (x - mean l))) l)).

(** [a.min(axis=0)], [a.max(axis=0)], [a.mean(axis=0)] on an (N, 3) array. *)
Definition min_axis0 (V : list vec3) : result vec3 :=
  x <- amin (column AxisX V) ;;
  y <- amin (column AxisY V) ;;
  z <- amin (column AxisZ V) ;;
  Ok (x, y, z).

Definition max_axis0 (V : list vec3) : result vec3 :=
  x <- amax (column AxisX V) ;;
  y <- amax (column AxisY V) ;;
  z <- amax (column AxisZ V) ;;
  Ok (x, y, z).

Definition mean_axis0 (V : list vec3) : vec3 :=
  (mean (column AxisX V), mean (column AxisY V), mean (column AxisZ V)).

(** [np.linalg.norm(a, axis=1)] on one row. *)
Definition norm3 (v : vec3) : R :=
  match v with (x, y, z) => sqrt (Rsqr x + Rsqr y + Rsqr z) end.

(** ** Parameter records

    The normalisers return a Python dict; its values are a string, an
    array of three floats or a float. *)

Inductive pyval : Type :=
| PyStr (s : string)
| PyVec (v : vec3)
| PyFloat (x : R).

Definition dict : Type := list (string * pyval).

Fixpoint getitem (k : string) (d : dict) : result pyval :=
  match d with
  | [] => Raise KeyError
  | (k', v) :: t => if String.eqb k' k then Ok v else getitem k t
  end.

(** [value != s] for a string literal [s]. *)
Definition differs_from (s : string) (v : pyval) : bool :=
  match v with
  | PyStr t => negb (String.eqb t s)
  | _ => true
  end.

(** A numeric dict value used in row arithmetic: an array of three is used
    as it is, a float is broadcast, a string is a type error. *)
Definition as_row (v : pyval) : result vec3 :=
  match v with
  | PyVec u => Ok u
  | PyFloat x => Ok (x, x, x)
  | PyStr _ => Raise TypeError
  end.

(** ** normalization.py *)

(** [range_per_axis[range_per_axis == 0] = 1.0] *)
Definition zero_to_one (r : R) : R :=
  if Req_dec_T r 0 then 1 else r.

Definition norm_minmax (vertices : ndarray R) : result (ndarray R * dict) :=
  if bad_shape vertices then Raise ValueError
  else
    let V := rows3 (data vertices) in
    v_min <- min_axis0 V ;;
    v_max <- max_axis0 V ;;
    let range_per_axis := vmap zero_to_one (vzip Rminus v_max v_min) in
    let normalized :=
      map (fun v => vzip Rdiv (vzip Rminus v v_min) range_per_axis) V in
    let params :=
      [("method", PyStr "minmax"); ("v_min", PyVec v_min);
       ("v_max", PyVec v_max)]%string in
    Ok (mk_ndarray (shape vertices) (flat3 normalized), params).

Definition denorm_minmax (normalized : ndarray R) (params : dict)
  : result (ndarray R) :=
  m <- getitem "method" params ;;
  if differs_from "minmax" m then Raise ValueError
  else if bad_shape normalized then Raise ValueError
  else
    lo <- getitem "v_min" params ;;
    hi <- getitem "v_max" params ;;
    v_min <- as_row lo ;;
    v_max <- as_row hi ;;
    let reconstructed :=
      map (fun n => vzip Rplus (vzip Rmult n (vzip Rminus v_max v_min)) v_min)
          (rows3 (data normalized)) in
    Ok (mk_ndarray (shape normalized) (flat3 reconstructed)).

Definition norm_sphere (vertices : ndarray R) : result (ndarray R * dict) :=
  if bad_shape vertices then Raise ValueError
  else
    let V := rows3 (data vertices) in
    let center := mean_axis0 V in
    let shifted := map (fun v => vzip Rminus v center) V in
    let distances := map norm3 shifted in
    scale <- amax distances ;;
    let scale := zero_to_one scale in
    let normalized := map (vmap (fun x => x / scale)) shifted in
    let params :=
      [("method", PyStr "sphere"); ("center", PyVec center);
       ("scale", PyFloat scale)]%string in
    Ok (mk_ndarray (shape vertices) (flat3 normalized), params).

Definition denorm_sphere (normalized : ndarray R) (params : dict)
  : result (ndarray R) :=
  m <- getitem "method" params ;;
  if differs_from "sphere" m then Raise ValueError
  else if bad_shape normalized then Raise ValueError
  else
    c <- getitem "center" params ;;
    s <- getitem "scale" params ;;
    center <- as_row c ;;
    scale <- as_row s ;;
    let reconstructed :=
      map (fun n => vzip Rplus (vzip Rmult n scale) center)
          (rows3 (data normalized)) in
    Ok (mk_ndarray (shape normalized) (flat3 reconstructed)).

(** ** step4_quantize.py, step5_reconstruct.py *)

Definition BINS : Z := 1024%Z.

Definition int32_min : Z := (-2147483648)%Z.
Definition int32_max : Z := 2147483647%Z.

(** [.astype(np.int32)] applied to an integral float. A value outside the
    int32 range has no int32 representation; the conversion NumPy performs
    yields [-2^31] on x86-64, which is what is written here. The
    properties below rely on that value only through its being an int32. *)
Definition astype_int32 (z : Z) : Z :=
  if ((int32_min <=? z) && (z <=? int32_max))%Z then z else int32_min.

(** [np.clip(q, lo, hi)], that is [minimum(hi, maximum(q, lo))]; a bound
    beyond the int32 range leaves an int32 array unconstrained on that
    side, which the same expression gives. *)
Definition clip (lo hi q : Z) : Z := Z.min hi (Z.max q lo).

Definition quantize (normalized : ndarray R) (bins : Z) (method : string)
  : result (ndarray Z) :=
  if bad_shape normalized then Raise ValueError
  else
    normalized01 <-
      (if String.eqb method "minmax" then Ok (data normalized)
       else if String.eqb method "sphere"
            then Ok (map (fun x => (x + 1) / 2) (data normalized))
            else Raise ValueError) ;;
    let q :=
      map (fun x => astype_int32 (Zfloor (x * IZR (bins - 1)))) normalized01 in
    let q := map (clip 0 (bins - 1)) q in
    Ok (mk_ndarray (shape normalized) q).

Definition dequantize (q : ndarray Z) (bins : Z) (method : string)
  : result (ndarray R) :=
  if bad_shape q then Raise ValueError
  else
    let dequantized01 := map (fun z => IZR z / IZR (bins - 1)) (data q) in
    if String.eqb method "minmax"
    then Ok (mk_ndarray (shape q) dequantized01)
    else if String.eqb method "sphere"
         then Ok (mk_ndarray (shape q)
                    (map (fun x => x * 2 - 1) dequantized01))
         else Raise ValueError.

(** [denormalize] of step5_reconstruct.py dispatches on the record's tag. *)
Definition denormalize (normalized : ndarray R) (params : dict)
  : result (ndarray R) :=
  m <- getitem "method" params ;;
  if negb (differs_from "minmax" m) then denorm_minmax normalized params
  else if negb (differs_from "sphere" m) then denorm_sphere normalized params
  else Raise ValueError.

(** The range test of [process_mesh_file] on the lattice: [q.min()],
    [q.max()], and [sys.exit(1)] when one of them leaves [0, bins). *)
Definition lattice_check (q : ndarray Z) (bins : Z) : result (Z * Z) :=
  q_min <- amin_Z (data q) ;;
  q_max <- amax_Z (data q) ;;
  if ((q_min <? 0) || (q_max >=? bins))%Z then Raise SystemExit
  else Ok (q_min, q_max).

(** The body of the loop of [process_mesh_file] for one method, file
    output left out: normalise, quantise, check the lattice against
    [BINS], dequantise. *)
Definition process_method (vertices : ndarray R) (method_name : string)
    (norm_func : ndarray R -> result (ndarray R * dict))
  : result (Z * Z * dict) :=
  np <- norm_func vertices ;;
  q <- quantize (fst np) BINS method_name ;;
  mm <- lattice_check q BINS ;;
  _ <- dequantize q BINS method_name ;;
  Ok (fst mm, snd mm, snd np).

(** ** step6_metrics.py *)

Fixpoint zip_with {A B C : Type} (f : A -> B -> C) (l : list A) (m : list B)
  : list C :=
  match l, m with
  | a :: l', b :: m' => f a b :: zip_with f l' m'
  | _, _ => []
  end.

Record metrics : Type := mk_metrics {
  mse_total : R;
  mae_total : R;
  mse_per_axis : vec3;
  mae_per_axis : vec3;
  max_error : R;
  min_error : R;
  std_error : R;
  per_vertex_error : list R;
  per_vertex_abs_error : list R
}.

(** The axis-wise reductions read the buffer as rows of three, which is
    what NumPy does for the (N, 3) arrays the callers pass. *)
Definition compute_errors (original reconstructed : ndarray R)
  : result metrics :=
  if list_eq_dec Nat.eq_dec (shape original) (shape reconstructed) then
    let diff := zip_with Rminus (data original) (data reconstructed) in
    let mse_total := mean (map Rsqr diff) in
    let mae_total := mean (map Rabs diff) in
    let mse_per_axis := mean_axis0 (rows3 (map Rsqr diff)) in
    let mae_per_axis := mean_axis0 (rows3 (map Rabs diff)) in
    let per_vertex_error := map norm3 (rows3 diff) in
    let per_vertex_abs_error := map Rabs diff in
    max_error <- amax per_vertex_error ;;
    min_error <- amin per_vertex_error ;;
    let std_error := std per_vertex_error in
    Ok (mk_metrics mse_total mae_total mse_per_axis mae_per_axis
          max_error min_error std_error per_vertex_error
          per_vertex_abs_error)
  else Raise ValueError.

(** The encode/decode chains the claims speak about. *)
Definition roundtrip_minmax (vertices : ndarray R) : result (ndarray R) :=
  np <- norm_minmax vertices ;;
  denorm_minmax (fst np) (snd np).

Definition roundtrip_sphere (vertices : ndarray R) : result (ndarray R) :=
  np <- norm_sphere vertices ;;
  denorm_sphere (fst np) (snd np).

Definition codec (norm_func : ndarray R -> result (ndarray R * dict))
    (method : string) (bins : Z) (vertices : ndarray R)
  : result (ndarray R) :=
  np <- norm_func vertices ;;
  q <- quantize (fst np) bins method ;;
  n <- dequantize q bins method ;;
  denormalize n (snd np).

(** One component of [quantize], after the remap to [0, 1]. *)
Definition quantize_component (bins : Z) (x01 : R) : Z :=
  clip 0 (bins - 1) (astype_int32 (Zfloor (x01 * IZR (bins - 1)))).

(** The remap of [quantize]: the identity for min-max input, [(x + 1) / 2]
    for unit-sphere input. *)
Definition to_unit (method : string) (x : R) : R :=
  if String.eqb method "minmax" then x else (x + 1) / 2.

(** One component of [dequantize]. *)
Definition dequantize_component (bins : Z) (method : string) (z : Z) : R :=
  if String.eqb method "minmax" then IZR z / IZR (bins - 1)
  else IZR z / IZR (bins - 1) * 2 - 1.

(** A normalised component after [quantize] and [dequantize]. *)
Definition snap (bins : Z) (method : string) (x : R) : R :=
  dequantize_component bins method
    (quantize_component bins (to_unit method x)).

(** The rule of the specification for one component, to compare with:
    [floor (x01 * (bins - 1))], then clamp to [0, bins - 1]. *)
Definition spec_quantize_component (bins : Z) (x01 : R) : Z :=
  Z.max 0 (Z.min (bins - 1) (Zfloor (x01 * IZR (bins - 1)))).

(** Row [i] of an (N, 3) array. *)
Definition row {A : Type} (rows_of : list A -> list (A * A * A))
    (a : ndarray A) (i : nat) : option (A * A * A) :=
  nth_error (rows_of (data a)) i.

Fixpoint rows3_Z (l : list Z) : list (Z * Z * Z) :=
  match l with
  | x :: y :: z :: t => (x, y, z) :: rows3_Z t
  | _ => []
  end.


(** The array of the self-test of normalization.py. *)
Definition test_vertices : list vec3 :=
  [(0, 0, 0); (1, 1, 1); (2, 1 / 2, 3 / 2); (-1, 2, 1 / 2)].

(** The error metrics in the words of the specification, on rows. *)
Definition spec_diff (O W : list vec3) : list vec3 :=
  zip_with (vzip Rminus) O W.

Definition spec_mse_total (D : list vec3) : R :=
  sum (map (fun d => Rsqr (get AxisX d) + Rsqr (get AxisY d)
                     + Rsqr (get AxisZ d)) D)
  / INR (3 * length D).

Definition spec_mae_total (D : list vec3) : R :=
  sum (map (fun d => Rabs (get AxisX d) + Rabs (get AxisY d)
                     + Rabs (get AxisZ d)) D)
  / INR (3 * length D).

Definition is_max (m : R) (l : list R) : Prop :=
  In m l /\ forall x, In x l -> x <= m.

Definition is_min (m : R) (l : list R) : Prop :=
  In m l /\ forall x, In x l -> m <= x.

Definition spec_std (l : list R) : R :=
  sqrt (sum (map (fun x => (x - sum l / INR (length l)) ^ 2) l)
        / INR (length l)).

(** One coordinate through the whole chain, given the parameters of its
    axis: [v_min], [v_max] for min-max, [center], [scale] for unit
    sphere. *)
Definition codec_minmax_component (bins : Z) (lo hi x : R) : R :=
  snap bins "minmax" ((x - lo) / zero_to_one (hi - lo)) * (hi - lo) + lo.

Definition codec_sphere_component (bins : Z) (c s x : R) : R :=
  snap bins "sphere" ((x - c) / s) * s + c.

(** One component of a lattice row. *)
Definition get_Z (a : axis) (t : Z * Z * Z) : Z :=
  match t with
  | (x, y, z) => match a with AxisX => x | AxisY => y | AxisZ => z end
  end.

(** ** step2_extract_vertices.py *)




(** ** normalization.py, the self-check *)

(** What [validate_normalization] prints, line by line; the two warnings
    are [OutsideUnitRange] and [OutsideUnitSphere]. *)
Inductive message : Type :=
| Validating
| ShapeMismatch
| ShapesMatch
| NormalizedRange (n_min n_max : vec3)
| OutsideUnitRange
| MaxDistance (d : R)
| OutsideUnitSphere.

(** The tolerance [1e-6] of the self-check. *)
Definition tolerance : R := 1 / 1000000.

(** [np.any(n_min < -1e-6) or np.any(n_max > 1 + 1e-6)] *)
Definition outside_unit_range (n_min n_max : vec3) : bool :=
  match n_min, n_max with
  | (lx, ly, lz), (hx, hy, hz) =>
      (if Rlt_dec lx (- tolerance) then true else
       if Rlt_dec ly (- tolerance) then true else
       if Rlt_dec lz (- tolerance) then true else false)
      || (if Rgt_dec hx (1 + tolerance) then true else
          if Rgt_dec hy (1 + tolerance) then true else
          if Rgt_dec hz (1 + tolerance) then true else false)
  end.

(** The result is the returned flag with the printed lines. As in
    [compute_errors], the buffer is read as rows of three, which is what
    NumPy does for the (N, 3) arrays the caller passes. *)
Definition validate_normalization (vertices normalized : ndarray R)
    (params : dict) (method_name : string) : result (bool * list message) :=
  if list_eq_dec Nat.eq_dec (shape vertices) (shape normalized) then
    if String.eqb method_name "Min-Max" then
      n_min <- min_axis0 (rows3 (data normalized)) ;;
      n_max <- max_axis0 (rows3 (data normalized)) ;;
      Ok (true,
          [Validating; ShapesMatch; NormalizedRange n_min n_max]
          ++ (if outside_unit_range n_min n_max then [OutsideUnitRange]
              else []))
    else if String.eqb method_name "Unit Sphere" then
      max_dist <- amax (map norm3 (rows3 (data normalized))) ;;
      Ok (true,
          [Validating; ShapesMatch; MaxDistance max_dist]
          ++ (if Rgt_dec max_dist (1 + tolerance) then [OutsideUnitSphere]
              else []))
    else Ok (true, [Validating; ShapesMatch])
  else Ok (false, [Validating; ShapeMismatch]).

(** ** step4_quantize.py, what one pass of the loop saves *)

(** The lattice ([.npy]) and the parameter record ([.json]) that
    [process_mesh_file] writes for one method; the files themselves are
    not modelled. *)
Definition process_mesh_file_saved (vertices : ndarray R)
    (method_name : string)
    (norm_func : ndarray R -> result (ndarray R * dict))
  : result (ndarray Z * dict) :=
  np <- norm_func vertices ;;
  q <- quantize (fst np) BINS method_name ;;
  _ <- lattice_check q BINS ;;
  _ <- dequantize q BINS method_name ;;
  Ok (q, snd np).

(** ** step5_reconstruct.py, one pass of the loop *)

(** The body of the loop of [process_mesh_reconstruction] on a loaded
    lattice and parameter record: both shape tests exit the script, the
    progress lines read [params['method']] and reduce the dequantised
    array. *)
Definition process_mesh_reconstruction (original_vertices : ndarray R)
    (q : ndarray Z) (params : dict) (method_name : string)
  : result (ndarray R) :=
  if list_eq_dec Nat.eq_dec (shape q) (shape original_vertices) then
    _ <- getitem "method" params ;;
    normalized <- dequantize q BINS method_name ;;
    _ <- amin (data normalized) ;;
    _ <- amax (data normalized) ;;
    _ <- (if String.eqb method_name "minmax" then Ok 0
          else amax (map norm3 (rows3 (data normalized)))) ;;
    reconstructed <- denormalize normalized params ;;
    if list_eq_dec Nat.eq_dec (shape reconstructed) (shape original_vertices)
    then Ok reconstructed
    else Raise SystemExit
  else Raise SystemExit.

(** ** step6_metrics.py and step7_visualize.py, decoding *)

(** [load_reconstructed_mesh] (step 6) and [load_reconstructed_vertices]
    (step 7) after the two files are read: dequantise with 1024 bins and
    pick the inverse by the method argument. *)
Definition load_reconstructed_mesh (q : ndarray Z) (params : dict)
    (method : string) : result (ndarray R) :=
  normalized <- dequantize q 1024 method ;;
  if String.eqb method "minmax" then denorm_minmax normalized params
  else if String.eqb method "sphere" then denorm_sphere normalized params
  else Raise ValueError.

(** The figures [create_comparison_plot] writes into its text panel:
    MSE, MAE, largest error magnitude and per-axis MAE. *)
Record comparison : Type := mk_comparison {
  cmp_mse : R;
  cmp_mae : R;
  cmp_max_error : R;
  cmp_mae_per_axis : vec3
}.

Definition create_comparison_plot (original_vertices reconstructed_vertices
    : ndarray R) : result comparison :=
  let error :=
    map Rabs (zip_with Rminus (data original_vertices)
                (data reconstructed_vertices)) in
  let error_magnitude := map norm3 (rows3 error) in
  let mse := mean (map Rsqr error) in
  let mae := mean (map Rabs error) in
  max_error <- amax error_magnitude ;;
  Ok (mk_comparison mse mae max_error
        (mean_axis0 (rows3 (map Rabs error)))).

(** One pass of the loop of [visualize_mesh]: a shape mismatch skips the
    method ([continue]). *)
Definition visualize_method (original_vertices reconstructed_vertices
    : ndarray R) : option (result comparison) :=
  if list_eq_dec Nat.eq_dec (shape reconstructed_vertices)
       (shape original_vertices)
  then Some (create_comparison_plot original_vertices reconstructed_vertices)
  else None.

(** [ERROR_THRESHOLD] of step6_metrics.py and the test of [print_metrics]
    that decides between the warning and the confirmation line. *)
Definition ERROR_THRESHOLD : R := 1 / 1000.

Definition exceeds_threshold (m : metrics) : bool :=
  if Rgt_dec (mse_total m) ERROR_THRESHOLD then true else false.

(** Evaluation of nested [Rmin] / [Rmax] on numerals, innermost first. *)
Ltac eval_Rminmax :=
  repeat match goal with
         | |- context [Rmin ?a ?b] =>
             first [ rewrite (Rmin_left a b) by lra
                   | rewrite (Rmin_right a b) by lra ]
         | |- context [Rmax ?a ?b] =>
             first [ rewrite (Rmax_left a b) by lra
                   | rewrite (Rmax_right a b) by lra ]
         end.

(** * Properties *)

(** ** Rows and buffers *)

Lemma rows3_flat3 (V : list vec3) : rows3 (flat3 V) = V.
Proof.
  induction V as [|[[x y] z] V IH]; simpl; [reflexivity|].
  now rewrite IH.
Qed.

Lemma flat3_length (V : list vec3) : length (flat3 V) = (3 * length V)%nat.
Proof.
  induction V as [|[[x y] z] V IH]; simpl; [reflexivity|].
  rewrite IH. lia.
Qed.

Lemma flat3_map (f : R -> R) (V : list vec3) :
  map f (flat3 V) = flat3 (map (vmap f) V).
Proof.
  induction V as [|[[x y] z] V IH]; simpl; [reflexivity|].
  now rewrite IH.
Qed.

Lemma bad_shape_rows {A : Type} (n : nat) (d : list A) :
  bad_shape (mk_ndarray [n; 3%nat] d) = false.
Proof. reflexivity. Qed.

(** A well-formed array passes the shape test exactly when it is the
    array of its rows. *)
Lemma good_shape_array3 (a : ndarray R) :
  well_formed a -> bad_shape a = false -> a = array3 (rows3 (data a)).
Proof.
  destruct a as [sh d]. unfold well_formed, bad_shape, ndim, array3; simpl.
  intros Hwf Hsh.
  apply orb_false_elim in Hsh as [H2 H3].
  apply negb_false_iff, Nat.eqb_eq in H2.
  apply negb_false_iff, Nat.eqb_eq in H3.
  destruct sh as [|n [|m [|k sh]]]; simpl in *; try discriminate.
  subst m. rewrite Nat.mul_1_r in Hwf.
  assert (Hrows : forall (k : nat) (l : list R),
             length l = (k * 3)%nat ->
             flat3 (rows3 l) = l /\ length (rows3 l) = k).
  { clear. induction k as [|k IH]; intros l Hl.
    - destruct l; [now split | discriminate].
    - destruct l as [|x [|y [|z t]]]; simpl in Hl; try discriminate.
      destruct (IH t) as [E1 E2]; [lia|]. simpl. now rewrite E1, E2. }
  destruct (Hrows n d) as [E1 E2]; [lia|]. now rewrite E1, E2.
Qed.

(** ** Reductions *)

Lemma fold_Rmin_spec (l : list R) (x : R) :
  (fold_left Rmin l x = x \/ In (fold_left Rmin l x) l) /\
  fold_left Rmin l x <= x /\
  (forall y, In y l -> fold_left Rmin l x <= y).
Proof.
  revert x. induction l as [|a l IH]; intros x; simpl.
  - repeat split; [now left | lra | tauto].
  - destruct (IH (Rmin x a)) as (Hin & Hle & Hall).
    pose proof (Rmin_l x a). pose proof (Rmin_r x a).
    repeat split.
    + destruct Hin as [E|Hin]; [|now right; right].
      rewrite E. unfold Rmin. destruct (Rle_dec x a); [now left|].
      now right; left.
    + lra.
    + intros y [->|Hy]; [lra | now apply Hall].
Qed.

Lemma fold_Rmax_spec (l : list R) (x : R) :
  (fold_left Rmax l x = x \/ In (fold_left Rmax l x) l) /\
  x <= fold_left Rmax l x /\
  (forall y, In y l -> y <= fold_left Rmax l x).
Proof.
  revert x. induction l as [|a l IH]; intros x; simpl.
  - repeat split; [now left | lra | tauto].
  - destruct (IH (Rmax x a)) as (Hin & Hle & Hall).
    pose proof (Rmax_l x a). pose proof (Rmax_r x a).
    repeat split.
    + destruct Hin as [E|Hin]; [|now right; right].
      rewrite E. unfold Rmax. destruct (Rle_dec x a); [|now left].
      now right; left.
    + lra.
    + intros y [->|Hy]; [lra | now apply Hall].
Qed.

Lemma amin_spec (l : list R) :
  l <> [] ->
  exists m, amin l = Ok m /\ In m l /\ forall y, In y l -> m <= y.
Proof.
  destruct l as [|x l]; [congruence|]. intros _.
  destruct (fold_Rmin_spec l x) as (Hin & Hle & Hall).
  exists (fold_left Rmin l x). simpl. repeat split.
  - destruct Hin as [->|Hin]; [now left | now right].
  - intros y [<-|Hy]; [assumption | now apply Hall].
Qed.

Lemma amax_spec (l : list R) :
  l <> [] ->
  exists m, amax l = Ok m /\ In m l /\ forall y, In y l -> y <= m.
Proof.
  destruct l as [|x l]; [congruence|]. intros _.
  destruct (fold_Rmax_spec l x) as (Hin & Hle & Hall).
  exists (fold_left Rmax l x). simpl. repeat split.
  - destruct Hin as [->|Hin]; [now left | now right].
  - intros y [<-|Hy]; [assumption | now apply Hall].
Qed.

Lemma column_nonempty (a : axis) (V : list vec3) :
  V <> [] -> column a V <> [].
Proof. destruct V; [congruence | discriminate]. Qed.

Lemma min_axis0_spec (V : list vec3) :
  V <> [] ->
  exists v_min, min_axis0 V = Ok v_min /\
    forall a, In (get a v_min) (column a V) /\
              forall v, In v V -> get a v_min <= get a v.
Proof.
  intros HV. unfold min_axis0.
  destruct (amin_spec (column AxisX V)) as (x & -> & Hx & Hxl);
    [now apply column_nonempty|].
  destruct (amin_spec (column AxisY V)) as (y & -> & Hy & Hyl);
    [now apply column_nonempty|].
  destruct (amin_spec (column AxisZ V)) as (z & -> & Hz & Hzl);
    [now apply column_nonempty|].
  exists (x, y, z). split; [reflexivity|].
  intros [| |]; simpl; (split; [assumption|]); intros v Hv;
    [apply Hxl | apply Hyl | apply Hzl]; now apply in_map.
Qed.

Lemma max_axis0_spec (V : list vec3) :
  V <> [] ->
  exists v_max, max_axis0 V = Ok v_max /\
    forall a, In (get a v_max) (column a V) /\
              forall v, In v V -> get a v <= get a v_max.
Proof.
  intros HV. unfold max_axis0.
  destruct (amax_spec (column AxisX V)) as (x & -> & Hx & Hxl);
    [now apply column_nonempty|].
  destruct (amax_spec (column AxisY V)) as (y & -> & Hy & Hyl);
    [now apply column_nonempty|].
  destruct (amax_spec (column AxisZ V)) as (z & -> & Hz & Hzl);
    [now apply column_nonempty|].
  exists (x, y, z). split; [reflexivity|].
  intros [| |]; simpl; (split; [assumption|]); intros v Hv;
    [apply Hxl | apply Hyl | apply Hzl]; now apply in_map.
Qed.

(** ** The normalisers on an (N, 3) array with at least one row *)

Lemma norm_minmax_array3 (V : list vec3) :
  V <> [] ->
  exists v_min v_max,
    min_axis0 V = Ok v_min /\ max_axis0 V = Ok v_max /\
    norm_minmax (array3 V) =
      Ok (array3
            (map (fun v =>
                    vzip Rdiv (vzip Rminus v v_min)
                      (vmap zero_to_one (vzip Rminus v_max v_min))) V),
          [("method", PyStr "minmax"); ("v_min", PyVec v_min);
           ("v_max", PyVec v_max)]%string).
Proof.
  intros HV.
  destruct (min_axis0_spec V HV) as (v_min & Hmin & _).
  destruct (max_axis0_spec V HV) as (v_max & Hmax & _).
  exists v_min, v_max. repeat split; try assumption.
  unfold norm_minmax.
  change (bad_shape (array3 V)) with false.
  change (data (array3 V)) with (flat3 V).
  rewrite rows3_flat3, Hmin, Hmax. cbv [bind].
  unfold array3; simpl. now rewrite length_map.
Qed.

Lemma norm_sphere_array3 (V : list vec3) :
  V <> [] ->
  exists scale,
    amax (map norm3 (map (fun v => vzip Rminus v (mean_axis0 V)) V))
      = Ok scale /\
    norm_sphere (array3 V) =
      Ok (array3
            (map (vmap (fun x => x / zero_to_one scale))
               (map (fun v => vzip Rminus v (mean_axis0 V)) V)),
          [("method", PyStr "sphere"); ("center", PyVec (mean_axis0 V));
           ("scale", PyFloat (zero_to_one scale))]%string).
Proof.
  intros HV.
  destruct (amax_spec
              (map norm3 (map (fun v => vzip Rminus v (mean_axis0 V)) V)))
    as (scale & Hs & _).
  { destruct V; [congruence | discriminate]. }
  exists scale. split; [assumption|].
  unfold norm_sphere.
  change (bad_shape (array3 V)) with false.
  change (data (array3 V)) with (flat3 V).
  cbv beta iota zeta. rewrite rows3_flat3, Hs. cbv [bind].
  unfold array3; simpl. now rewrite !length_map.
Qed.

Lemma zero_to_one_neq (r : R) : zero_to_one r <> 0.
Proof. unfold zero_to_one. destruct (Req_dec_T r 0); lra. Qed.

Lemma minmax_component_roundtrip (x lo hi : R) :
  lo <= x <= hi ->
  (x - lo) / zero_to_one (hi - lo) * (hi - lo) + lo = x.
Proof.
  intros Hx. unfold zero_to_one.
  destruct (Req_dec_T (hi - lo) 0) as [E|N].
  - rewrite E. replace x with lo by lra. lra.
  - field. exact N.
Qed.

(** C2: without quantisation, denormalising the normalised array gives the
    original array back, for both methods and every (N, 3) array with at
    least one row (degenerate axes included). *)
Theorem roundtrip_exact (V : list vec3) :
  V <> [] ->
  roundtrip_minmax (array3 V) = Ok (array3 V) /\
  roundtrip_sphere (array3 V) = Ok (array3 V).
Proof.
  intros HV. split.
  - unfold roundtrip_minmax.
    destruct (norm_minmax_array3 V HV) as (v_min & v_max & Hmin & Hmax & ->).
    destruct (min_axis0_spec V HV) as (v_min' & Hmin' & Hlo).
    destruct (max_axis0_spec V HV) as (v_max' & Hmax' & Hhi).
    rewrite Hmin in Hmin'. injection Hmin' as <-.
    rewrite Hmax in Hmax'. injection Hmax' as <-.
    cbv [bind fst snd]. unfold denorm_minmax.
    cbn [getitem String.eqb Ascii.eqb Bool.eqb bind differs_from negb as_row].
    unfold array3. rewrite bad_shape_rows. cbv [data]. rewrite rows3_flat3, map_map.
    simpl shape. rewrite length_map. do 3 f_equal.
    rewrite <- (map_id V) at 2. apply map_ext_in.
    intros [[x y] z] Hv.
    pose proof (proj2 (Hlo AxisX) _ Hv) as Lx.
    pose proof (proj2 (Hlo AxisY) _ Hv) as Ly.
    pose proof (proj2 (Hlo AxisZ) _ Hv) as Lz.
    pose proof (proj2 (Hhi AxisX) _ Hv) as Ux.
    pose proof (proj2 (Hhi AxisY) _ Hv) as Uy.
    pose proof (proj2 (Hhi AxisZ) _ Hv) as Uz.
    destruct v_min as [[lx ly] lz], v_max as [[hx hy] hz]; simpl in *.
    now rewrite !minmax_component_roundtrip by lra.
  - unfold roundtrip_sphere.
    destruct (norm_sphere_array3 V HV) as (scale & Hs & ->).
    cbv [bind fst snd]. unfold denorm_sphere.
    cbn [getitem String.eqb Ascii.eqb Bool.eqb bind differs_from negb as_row].
    unfold array3. rewrite bad_shape_rows. cbv [data]. rewrite rows3_flat3, !map_map.
    simpl shape. rewrite !length_map. do 3 f_equal.
    rewrite <- (map_id V) at 2. apply map_ext.
    intros [[x y] z]. destruct (mean_axis0 V) as [[cx cy] cz]. simpl.
    pose proof (zero_to_one_neq scale) as Hn.
    f_equal; [f_equal|]; field; exact Hn.
Qed.

(** ** Range invariants *)

Lemma minmax_component_range (x lo hi : R) :
  lo <= x <= hi -> 0 <= (x - lo) / zero_to_one (hi - lo) <= 1.
Proof.
  intros Hx. unfold zero_to_one.
  destruct (Req_dec_T (hi - lo) 0) as [E|N].
  - replace x with lo by lra. lra.
  - assert (0 < hi - lo) by lra.
    split.
    + apply Rmult_le_pos; [lra|]. left. now apply Rinv_0_lt_compat.
    + apply (Rmult_le_reg_r (hi - lo)); [assumption|].
      unfold Rdiv. rewrite Rmult_assoc, Rinv_l by assumption. lra.
Qed.

Lemma norm3_nonneg (v : vec3) : 0 <= norm3 v.
Proof. destruct v as [[x y] z]. apply sqrt_pos. Qed.

Lemma sum_sqr_nonneg (x y z : R) : 0 <= Rsqr x + Rsqr y + Rsqr z.
Proof.
  pose proof (Rle_0_sqr x). pose proof (Rle_0_sqr y).
  pose proof (Rle_0_sqr z). lra.
Qed.

Lemma norm3_sqr (v : vec3) :
  Rsqr (norm3 v) =
  Rsqr (get AxisX v) + Rsqr (get AxisY v) + Rsqr (get AxisZ v).
Proof.
  destruct v as [[x y] z]. simpl. apply Rsqr_sqrt, sum_sqr_nonneg.
Qed.

Lemma component_le_norm3 (a : axis) (v : vec3) : Rabs (get a v) <= norm3 v.
Proof.
  destruct v as [[x y] z]. rewrite <- sqrt_Rsqr_abs.
  apply sqrt_le_1_alt.
  pose proof (Rle_0_sqr x). pose proof (Rle_0_sqr y).
  pose proof (Rle_0_sqr z). destruct a; simpl; lra.
Qed.

Lemma norm3_scaled (s : R) (u : vec3) :
  0 < s -> norm3 u <= s -> norm3 (vmap (fun x => x / s) u) <= 1.
Proof.
  intros Hs Hu.
  assert (Hsq : Rsqr (norm3 u) <= Rsqr s).
  { apply Rsqr_incr_1; [assumption | apply norm3_nonneg | lra]. }
  rewrite norm3_sqr in Hsq.
  destruct u as [[x y] z]. simpl in *.
  rewrite <- sqrt_1. apply sqrt_le_1_alt.
  rewrite !Rsqr_div'.
  assert (Hpos : 0 < Rsqr s) by (apply Rlt_0_sqr; lra).
  apply (Rmult_le_reg_r (Rsqr s)); [assumption|].
  replace ((Rsqr x / Rsqr s + Rsqr y / Rsqr s + Rsqr z / Rsqr s) * Rsqr s)
    with (Rsqr x + Rsqr y + Rsqr z) by (field; lra).
  lra.
Qed.

(** The scale kept by [norm_sphere] dominates every distance. *)
Lemma zero_to_one_scale (scale d : R) :
  0 <= d <= scale -> 0 < zero_to_one scale /\ d <= zero_to_one scale.
Proof.
  intros Hd. unfold zero_to_one. destruct (Req_dec_T scale 0); lra.
Qed.

(** C4: after min-max normalisation every component lies in [0, 1] (on
    every axis, in particular on those whose source range is positive);
    after unit-sphere normalisation every row has Euclidean norm at most 1
    (whatever the scale, in particular when it was not zero). *)
Theorem normalized_ranges (V : list vec3) :
  V <> [] ->
  (exists N p, norm_minmax (array3 V) = Ok (array3 N, p) /\
     forall n a, In n N -> 0 <= get a n <= 1) /\
  (exists N p, norm_sphere (array3 V) = Ok (array3 N, p) /\
     forall n, In n N -> norm3 n <= 1).
Proof.
  intros HV. split.
  - destruct (norm_minmax_array3 V HV) as (v_min & v_max & Hmin & Hmax & E).
    destruct (min_axis0_spec V HV) as (v_min' & Hmin' & Hlo).
    destruct (max_axis0_spec V HV) as (v_max' & Hmax' & Hhi).
    rewrite Hmin in Hmin'. injection Hmin' as <-.
    rewrite Hmax in Hmax'. injection Hmax' as <-.
    eexists _, _. split; [exact E|].
    intros n a Hn. apply in_map_iff in Hn as (v & <- & Hv).
    pose proof (proj2 (Hlo a) _ Hv) as L.
    pose proof (proj2 (Hhi a) _ Hv) as U.
    destruct v as [[x y] z], v_min as [[lx ly] lz], v_max as [[hx hy] hz].
    destruct a; simpl in *; apply minmax_component_range; lra.
  - destruct (norm_sphere_array3 V HV) as (scale & Hs & E).
    eexists _, _. split; [exact E|].
    intros n Hn. apply in_map_iff in Hn as (u & <- & Hu).
    destruct (amax_spec (map norm3 (map (fun v => vzip Rminus v (mean_axis0 V)) V)))
      as (scale' & Hs' & _ & Hall).
    { destruct V; [congruence | discriminate]. }
    rewrite Hs in Hs'. injection Hs' as <-.
    assert (Hd : 0 <= norm3 u <= scale).
    { split; [apply norm3_nonneg|]. apply Hall. now apply in_map. }
    destruct (zero_to_one_scale _ _ Hd).
    now apply norm3_scaled.
Qed.

(** ** Shape errors *)

(** C5: on a NumPy array that is not an (N, 3) array with N >= 1 (the
    (0, 3) array included) both normalisers raise [ValueError]; on every
    (N, 3) array with N >= 1 they return. *)
Theorem normalize_shape_error (a : ndarray R) :
  well_formed a ->
  ((exists V, V <> [] /\ a = array3 V) ->
     (exists r, norm_minmax a = Ok r) /\ (exists r, norm_sphere a = Ok r)) /\
  (~ (exists V, V <> [] /\ a = array3 V) ->
     norm_minmax a = Raise ValueError /\ norm_sphere a = Raise ValueError).
Proof.
  intros Hwf. split.
  - intros (V & HV & ->). split.
    + destruct (norm_minmax_array3 V HV) as (? & ? & _ & _ & E).
      eexists; exact E.
    + destruct (norm_sphere_array3 V HV) as (? & _ & E).
      eexists; exact E.
  - intros Hno. unfold norm_minmax, norm_sphere.
    destruct (bad_shape a) eqn:Hsh; [now split|].
    pose proof (good_shape_array3 a Hwf Hsh) as E.
    destruct (rows3 (data a)) as [|v V] eqn:Hrows.
    + now split.
    + exfalso. apply Hno. exists (v :: V). split; [discriminate | exact E].
Qed.

(** ** Degenerate inputs *)

Lemma sum_constant (c : R) (l : list R) :
  (forall x, In x l -> x = c) -> sum l = c * INR (length l).
Proof.
  induction l as [|x l IH]; intros H.
  - simpl. lra.
  - change (sum (x :: l)) with (x + sum l).
    rewrite IH by (intros y Hy; apply H; now right).
    rewrite (H x) by now left.
    cbn [length]. rewrite S_INR. lra.
Qed.

Lemma mean_constant (c : R) (l : list R) :
  l <> [] -> (forall x, In x l -> x = c) -> mean l = c.
Proof.
  intros Hl H. unfold mean. rewrite (sum_constant c) by assumption.
  field. apply not_0_INR. destruct l; [congruence | discriminate].
Qed.


Lemma mean_axis0_coincident (V : list vec3) (v0 : vec3) :
  In v0 V -> (forall u v, In u V -> In v V -> u = v) -> mean_axis0 V = v0.
Proof.
  intros H0 Hsame.
  assert (HV : V <> []) by (destruct V; [contradiction | discriminate]).
  assert (Hc : forall a, mean (column a V) = get a v0).
  { intros a. apply mean_constant; [now apply column_nonempty|].
    intros x Hx. apply in_map_iff in Hx as (v & <- & Hv).
    f_equal. now apply Hsame. }
  unfold mean_axis0. rewrite !Hc. now destruct v0 as [[x y] z].
Qed.

Lemma norm3_zero : norm3 (0, 0, 0) = 0.
Proof. simpl. rewrite Rsqr_0, !Rplus_0_r. apply sqrt_0. Qed.

(** C6, unit sphere: when all rows coincide, the call returns, the zero
    scale is replaced by 1 and every normalised row is [v - center], which
    is the zero row. *)
Lemma degenerate_sphere (V : list vec3) :
  V <> [] ->
  (forall u v, In u V -> In v V -> u = v) ->
  exists N center,
    norm_sphere (array3 V) =
      Ok (array3 N, [("method", PyStr "sphere"); ("center", PyVec center);
                     ("scale", PyFloat 1)]%string) /\
    amax (map norm3 (map (fun v => vzip Rminus v center) V)) = Ok 0 /\
    length N = length V /\
    forall i v n, nth_error V i = Some v -> nth_error N i = Some n ->
      n = vzip Rminus v center /\ n = (0, 0, 0).
Proof.
  intros HV Hsame.
  destruct (norm_sphere_array3 V HV) as (scale & Hs & E).
  assert (Hzero : forall v, In v V -> vzip Rminus v (mean_axis0 V) = (0, 0, 0)).
  { intros v Hv. rewrite (mean_axis0_coincident V v Hv Hsame).
    destruct v as [[x y] z]. simpl. now rewrite !Rminus_diag. }
  assert (Hscale : scale = 0).
  { destruct (amax_spec
                (map norm3 (map (fun v => vzip Rminus v (mean_axis0 V)) V)))
      as (s & Hs' & Hin & _).
    { destruct V; [congruence | discriminate]. }
    rewrite Hs in Hs'. injection Hs' as <-.
    apply in_map_iff in Hin as (u & <- & Hu).
    apply in_map_iff in Hu as (v & <- & Hv).
    rewrite Hzero by assumption. apply norm3_zero. }
  subst scale.
  assert (Hone : zero_to_one 0 = 1).
  { unfold zero_to_one. destruct (Req_dec_T 0 0); lra. }
  rewrite Hone in E.
  eexists _, (mean_axis0 V). split; [exact E|].
  split; [exact Hs|]. split; [now rewrite !length_map|].
  intros i v n Hv Hn.
  rewrite !nth_error_map, Hv in Hn. injection Hn as <-.
  pose proof (Hzero v (nth_error_In _ _ Hv)) as Hz.
  rewrite Hz. simpl. split; f_equal; try f_equal; lra.
Qed.


(** ** Method mismatch *)

Lemma differs_from_neq (s : string) (m : pyval) :
  m <> PyStr s -> differs_from s m = true.
Proof.
  intros H. destruct m as [t| |]; simpl; try reflexivity.
  apply negb_true_iff, String.eqb_neq. congruence.
Qed.

(** C9: a parameter record whose method tag is not the expected one makes
    the inverse raise [ValueError], whatever the normalised array is. *)
Theorem method_mismatch (normalized : ndarray R) (params : dict) (m : pyval) :
  getitem "method" params = Ok m ->
  (m <> PyStr "minmax" -> denorm_minmax normalized params = Raise ValueError) /\
  (m <> PyStr "sphere" -> denorm_sphere normalized params = Raise ValueError).
Proof.
  intros Hm. split; intros Hne.
  - unfold denorm_minmax. rewrite Hm. cbv [bind].
    now rewrite differs_from_neq.
  - unfold denorm_sphere. rewrite Hm. cbv [bind].
    now rewrite differs_from_neq.
Qed.

(** ** The quantiser *)

Lemma clip_range (bins q : Z) :
  (1 <= bins)%Z -> (0 <= clip 0 (bins - 1) q <= bins - 1)%Z.
Proof. unfold clip. lia. Qed.

Lemma quantize_component_range (bins : Z) (x01 : R) :
  (1 <= bins)%Z -> (0 <= quantize_component bins x01 <= bins - 1)%Z.
Proof. intros H. now apply clip_range. Qed.

Lemma astype_int32_id (z : Z) :
  (int32_min <= z <= int32_max)%Z -> astype_int32 z = z.
Proof.
  intros [H1 H2]. unfold astype_int32.
  apply Z.leb_le in H1, H2. now rewrite H1, H2.
Qed.

Lemma astype_int32_range (z : Z) :
  (int32_min <= astype_int32 z <= int32_max)%Z.
Proof.
  unfold astype_int32.
  destruct (int32_min <=? z)%Z eqn:E1; destruct (z <=? int32_max)%Z eqn:E2;
    simpl; try (unfold int32_min, int32_max; lia).
  apply Z.leb_le in E1, E2. lia.
Qed.

(** Whatever the lattice size, a bin is an int32 value. *)
Lemma quantize_component_int32 (bins : Z) (x01 : R) :
  (1 <= bins)%Z -> (0 <= quantize_component bins x01 <= int32_max)%Z.
Proof.
  intros Hb. unfold quantize_component, clip.
  pose proof (astype_int32_range (Zfloor (x01 * IZR (bins - 1)))).
  unfold int32_max in *. lia.
Qed.

(** Inside the int32 range the code's component is the specification's. *)
Lemma quantize_component_spec (bins : Z) (x01 : R) :
  (1 <= bins)%Z ->
  (int32_min <= Zfloor (x01 * IZR (bins - 1)) <= int32_max)%Z ->
  quantize_component bins x01 = spec_quantize_component bins x01.
Proof.
  intros Hb Hf. unfold quantize_component, spec_quantize_component, clip.
  rewrite astype_int32_id by assumption. lia.
Qed.

(** On [0, 1] with at most [2^31] bins the floor itself is the bin. *)
Lemma floor_bin (bins : Z) (x01 : R) :
  (2 <= bins)%Z -> 0 <= x01 <= 1 ->
  (0 <= Zfloor (x01 * IZR (bins - 1)) <= bins - 1)%Z.
Proof.
  intros Hb Hx.
  assert (Hn : 1 <= IZR (bins - 1)) by (apply IZR_le; lia).
  split.
  - apply Zfloor_lub. apply Rmult_le_pos; lra.
  - rewrite <- (ZfloorZ (bins - 1)) at 2. apply Zfloor_le.
    rewrite <- (Rmult_1_l (IZR (bins - 1))) at 2.
    apply Rmult_le_compat_r; lra.
Qed.

Lemma quantize_component_floor (bins : Z) (x01 : R) :
  (2 <= bins <= int32_max + 1)%Z -> 0 <= x01 <= 1 ->
  quantize_component bins x01 = Zfloor (x01 * IZR (bins - 1)).
Proof.
  intros Hb Hx. pose proof (floor_bin bins x01 (proj1 Hb) Hx) as Hf.
  unfold quantize_component, clip.
  rewrite astype_int32_id by (unfold int32_min, int32_max in *; lia). lia.
Qed.

Lemma quantize_good_shape (n : ndarray R) (bins : Z) (method : string) :
  bad_shape n = false ->
  method = "minmax"%string \/ method = "sphere"%string ->
  quantize n bins method =
    Ok (mk_ndarray (shape n)
          (map (fun x => quantize_component bins (to_unit method x))
               (data n))).
Proof.
  intros Hsh [-> | ->]; unfold quantize; rewrite Hsh;
    cbn [String.eqb Ascii.eqb Bool.eqb bind]; cbv beta iota;
    rewrite ?map_map; reflexivity.
Qed.

Lemma dequantize_good_shape (q : ndarray Z) (bins : Z) (method : string) :
  bad_shape q = false ->
  method = "minmax"%string \/ method = "sphere"%string ->
  dequantize q bins method =
    Ok (mk_ndarray (shape q) (map (dequantize_component bins method) (data q))).
Proof.
  intros Hsh [-> | ->]; unfold dequantize, dequantize_component; rewrite Hsh;
    cbn [String.eqb Ascii.eqb Bool.eqb]; rewrite ?map_map; reflexivity.
Qed.

Lemma fold_Zmin_range (lo hi : Z) (l : list Z) (x : Z) :
  (lo <= x <= hi)%Z -> (forall z, In z l -> (lo <= z <= hi)%Z) ->
  (lo <= fold_left Z.min l x <= hi)%Z.
Proof.
  revert x. induction l as [|a l IH]; intros x Hx Hl; simpl; [assumption|].
  apply IH.
  - pose proof (Hl a (or_introl eq_refl)). lia.
  - intros z Hz. apply Hl. now right.
Qed.

Lemma fold_Zmax_range (lo hi : Z) (l : list Z) (x : Z) :
  (lo <= x <= hi)%Z -> (forall z, In z l -> (lo <= z <= hi)%Z) ->
  (lo <= fold_left Z.max l x <= hi)%Z.
Proof.
  revert x. induction l as [|a l IH]; intros x Hx Hl; simpl; [assumption|].
  apply IH.
  - pose proof (Hl a (or_introl eq_refl)). lia.
  - intros z Hz. apply Hl. now right.
Qed.

(** A lattice inside [0, bins - 1] never takes the exit branch. *)
Lemma lattice_check_passes (q : ndarray Z) (bins : Z) :
  (forall z, In z (data q) -> (0 <= z <= bins - 1)%Z) ->
  lattice_check q bins <> Raise SystemExit /\
  (data q <> [] -> exists lo hi, lattice_check q bins = Ok (lo, hi)).
Proof.
  intros H. unfold lattice_check. destruct (data q) as [|x l].
  - split; [discriminate | congruence].
  - cbn [amin_Z amax_Z bind].
    assert (Hx : (0 <= x <= bins - 1)%Z) by (apply H; now left).
    assert (Hl : forall z, In z l -> (0 <= z <= bins - 1)%Z)
      by (intros z Hz; apply H; now right).
    pose proof (fold_Zmin_range _ _ l x Hx Hl) as Hmin.
    pose proof (fold_Zmax_range _ _ l x Hx Hl) as Hmax.
    assert (E : ((fold_left Z.min l x <? 0) || (fold_left Z.max l x >=? bins))%Z
                = false).
    { apply orb_false_intro; [apply Z.ltb_ge; lia|].
      rewrite Z.geb_leb. apply Z.leb_gt. lia. }
    rewrite E. split; [discriminate | intros _; eauto].
Qed.

Lemma quantize_lattice (n : ndarray R) (bins : Z) (method : string) :
  (2 <= bins)%Z -> bad_shape n = false ->
  method = "minmax"%string \/ method = "sphere"%string ->
  exists q, quantize n bins method = Ok q /\
    shape q = shape n /\
    length (data q) = length (data n) /\
    (forall z, In z (data q) -> (0 <= z <= bins - 1)%Z) /\
    (forall i x z,
        nth_error (data n) i = Some x -> nth_error (data q) i = Some z ->
        (int32_min <= Zfloor (to_unit method x * IZR (bins - 1)) <= int32_max)%Z ->
        z = spec_quantize_component bins (to_unit method x)) /\
    (forall i x z,
        nth_error (data n) i = Some x -> nth_error (data q) i = Some z ->
        (bins <= int32_max + 1)%Z -> 0 <= to_unit method x <= 1 ->
        z = spec_quantize_component bins (to_unit method x)) /\
    lattice_check q bins <> Raise SystemExit.
Proof.
  intros Hb Hsh Hm.
  eexists. split; [now apply quantize_good_shape|]. cbn [shape data].
  assert (Hrange : forall z,
             In z (map (fun x => quantize_component bins (to_unit method x))
                       (data n)) -> (0 <= z <= bins - 1)%Z).
  { intros z Hz. apply in_map_iff in Hz as (x & <- & _).
    apply quantize_component_range. lia. }
  split; [reflexivity|]. split; [now rewrite length_map|].
  split; [exact Hrange|]. split; [|split].
  - intros i x z Hx Hz Hfit. rewrite nth_error_map, Hx in Hz.
    injection Hz as <-. apply quantize_component_spec; [lia | assumption].
  - intros i x z Hx Hz Hbins H01. rewrite nth_error_map, Hx in Hz.
    injection Hz as <-. apply quantize_component_spec; [lia|].
    pose proof (floor_bin bins (to_unit method x) Hb H01).
    unfold int32_min, int32_max in *. lia.
  - now apply lattice_check_passes.
Qed.

Lemma norm_shape (vertices : ndarray R) (np : ndarray R * dict) :
  norm_minmax vertices = Ok np \/ norm_sphere vertices = Ok np ->
  bad_shape (fst np) = false.
Proof.
  unfold norm_minmax, norm_sphere.
  destruct (bad_shape vertices) eqn:Hsh; [intros [H|H]; discriminate|].
  intros [H|H].
  - destruct (min_axis0 _); [|discriminate].
    destruct (max_axis0 _); [|discriminate].
    cbv [bind] in H. injection H as <-. exact Hsh.
  - destruct (amax _); [|discriminate].
    cbv [bind] in H. injection H as <-. exact Hsh.
Qed.

Lemma process_method_no_exit (vertices : ndarray R) :
  process_method vertices "minmax" norm_minmax <> Raise SystemExit /\
  process_method vertices "sphere" norm_sphere <> Raise SystemExit.
Proof.
  assert (Hnorm : forall f, (f = norm_minmax \/ f = norm_sphere) ->
            f vertices <> Raise SystemExit).
  { intros f [-> | ->]; unfold norm_minmax, norm_sphere;
      destruct (bad_shape vertices); try discriminate.
    - unfold min_axis0, max_axis0.
      repeat match goal with
             | |- context [amin ?l] => destruct l; cbn [amin amax bind]
             | |- context [amax ?l] => destruct l; cbn [amin amax bind]
             end; discriminate.
    - destruct (map norm3 _); cbn [amax bind]; discriminate. }
  assert (Hgen : forall m f,
            (m = "minmax"%string /\ f = norm_minmax) \/
            (m = "sphere"%string /\ f = norm_sphere) ->
            process_method vertices m f <> Raise SystemExit).
  { intros m f Hmf. unfold process_method.
    destruct (f vertices) as [np|e] eqn:Hf.
    - cbn [bind].
      assert (Hsh : bad_shape (fst np) = false).
      { apply (norm_shape vertices). destruct Hmf as [[_ ->]|[_ ->]]; tauto. }
      assert (Hm : m = "minmax"%string \/ m = "sphere"%string) by tauto.
      destruct (quantize_lattice (fst np) BINS m) as
        (q & -> & Hq & _ & Hr & _ & _ & Hchk); [unfold BINS; lia | assumption..|].
      cbn [bind].
      destruct (lattice_check q BINS) as [mm|e] eqn:Hc.
      + cbn [bind]. rewrite dequantize_good_shape; [discriminate| |assumption].
        unfold bad_shape, ndim in *. now rewrite Hq.
      + cbn [bind]. congruence.
    - cbn [bind]. intros E. injection E as ->. apply (Hnorm f); [|exact Hf].
      destruct Hmf as [[_ ->]|[_ ->]]; tauto. }
  split; apply Hgen; tauto.
Qed.

(** C3 (as amended): for every (N, 3) input and [bins >= 2], [quantize]
    returns a lattice of the same shape whose components all lie in
    [0, bins - 1]; the exit branch of the range test is never taken, neither
    on that lattice nor in [process_mesh_file]; each component is
    [floor (x01 * (bins - 1))] clamped to [0, bins - 1] whenever that floor
    fits in int32, which it does for [x01] in [0, 1] and [bins <= 2^31]. *)
Theorem quantize_range (n : ndarray R) (bins : Z) (method : string) :
  (2 <= bins)%Z -> bad_shape n = false ->
  method = "minmax"%string \/ method = "sphere"%string ->
  (exists q, quantize n bins method = Ok q /\
    shape q = shape n /\
    length (data q) = length (data n) /\
    (forall z, In z (data q) -> (0 <= z <= bins - 1)%Z) /\
    (forall i x z,
        nth_error (data n) i = Some x -> nth_error (data q) i = Some z ->
        (int32_min <= Zfloor (to_unit method x * IZR (bins - 1)) <= int32_max)%Z ->
        z = spec_quantize_component bins (to_unit method x)) /\
    (forall i x z,
        nth_error (data n) i = Some x -> nth_error (data q) i = Some z ->
        (bins <= int32_max + 1)%Z -> 0 <= to_unit method x <= 1 ->
        z = spec_quantize_component bins (to_unit method x)) /\
    lattice_check q bins <> Raise SystemExit) /\
  (forall vertices,
     process_method vertices "minmax" norm_minmax <> Raise SystemExit /\
     process_method vertices "sphere" norm_sphere <> Raise SystemExit).
Proof.
  intros Hb Hsh Hm. split.
  - now apply quantize_lattice.
  - apply process_method_no_exit.
Qed.

(** C3, the claim as stated fails: with [bins = 2^31 + 2] the component
    1.0 of a min-max normalised array has floor [2^31 + 1], which does not
    fit in int32; the code returns bin 0, the stated rule gives
    [bins - 1]. *)
Lemma quantize_formula_counterexample :
  exists q z,
    quantize (array3 [(1, 0, 0)]) 2147483650 "minmax" = Ok q /\
    nth_error (data q) 0 = Some z /\
    z = 0%Z /\
    spec_quantize_component 2147483650 (to_unit "minmax" 1) = 2147483649%Z /\
    z <> spec_quantize_component 2147483650 (to_unit "minmax" 1).
Proof.
  assert (Hcode : quantize_component 2147483650 (to_unit "minmax" 1) = 0%Z).
  { unfold quantize_component, to_unit. cbn [String.eqb Ascii.eqb Bool.eqb].
    rewrite Rmult_1_l, ZfloorZ. reflexivity. }
  assert (Hspec : spec_quantize_component 2147483650 (to_unit "minmax" 1)
                  = 2147483649%Z).
  { unfold spec_quantize_component, to_unit.
    cbn [String.eqb Ascii.eqb Bool.eqb].
    rewrite Rmult_1_l, ZfloorZ. reflexivity. }
  eexists _, _. split.
  - apply quantize_good_shape; [reflexivity | now left].
  - cbn [data array3 flat3 map nth_error]. rewrite Hcode, Hspec.
    repeat split. discriminate.
Qed.

(** ** Quantising a dequantised lattice *)

Lemma requantize_component (bins z : Z) (method : string) :
  (2 <= bins)%Z ->
  method = "minmax"%string \/ method = "sphere"%string ->
  to_unit method (dequantize_component bins method z) * IZR (bins - 1)
  = IZR z.
Proof.
  intros Hb Hm.
  assert (Hn : IZR (bins - 1) <> 0) by (apply not_0_IZR; lia).
  destruct Hm as [-> | ->]; unfold to_unit, dequantize_component;
    cbn [String.eqb Ascii.eqb Bool.eqb]; field; exact Hn.
Qed.




(** ** The whole chain: normalise, quantise, dequantise, denormalise *)

Lemma rows3_map_flat3 (f : R -> R) (V : list vec3) :
  rows3 (map f (flat3 V)) = map (vmap f) V.
Proof. now rewrite flat3_map, rows3_flat3. Qed.

Lemma rows3_deq_quant (bins : Z) (method : string) (V : list vec3) :
  rows3 (map (dequantize_component bins method)
           (map (fun x => quantize_component bins (to_unit method x))
                (flat3 V)))
  = map (vmap (snap bins method)) V.
Proof. now rewrite map_map, rows3_map_flat3. Qed.

Lemma codec_minmax_array3 (V : list vec3) (bins : Z) :
  V <> [] ->
  exists v_min v_max,
    min_axis0 V = Ok v_min /\ max_axis0 V = Ok v_max /\
    codec norm_minmax "minmax" bins (array3 V) =
      Ok (array3
            (map (fun v =>
                    vzip Rplus
                      (vzip Rmult
                         (vmap (snap bins "minmax")
                            (vzip Rdiv (vzip Rminus v v_min)
                               (vmap zero_to_one (vzip Rminus v_max v_min))))
                         (vzip Rminus v_max v_min))
                      v_min) V)).
Proof.
  intros HV.
  destruct (norm_minmax_array3 V HV) as (v_min & v_max & Hmin & Hmax & E).
  exists v_min, v_max. split; [assumption|]. split; [assumption|].
  unfold codec. rewrite E. cbn [bind fst snd].
  rewrite quantize_good_shape by (reflexivity || now left). cbn [bind].
  rewrite dequantize_good_shape by (reflexivity || now left). cbn [bind].
  unfold denormalize, denorm_minmax.
  cbn [getitem String.eqb Ascii.eqb Bool.eqb bind differs_from negb as_row].
  cbn [shape data array3]. rewrite bad_shape_rows.
  rewrite rows3_deq_quant, !map_map.
  unfold array3. rewrite !length_map. reflexivity.
Qed.

Lemma codec_sphere_array3 (V : list vec3) (bins : Z) :
  V <> [] ->
  exists scale,
    amax (map norm3 (map (fun v => vzip Rminus v (mean_axis0 V)) V))
      = Ok scale /\
    codec norm_sphere "sphere" bins (array3 V) =
      Ok (array3
            (map (fun v =>
                    vzip Rplus
                      (vzip Rmult
                         (vmap (snap bins "sphere")
                            (vmap (fun x => x / zero_to_one scale)
                               (vzip Rminus v (mean_axis0 V))))
                         (zero_to_one scale, zero_to_one scale,
                          zero_to_one scale))
                      (mean_axis0 V)) V)).
Proof.
  intros HV.
  destruct (norm_sphere_array3 V HV) as (scale & Hs & E).
  exists scale. split; [assumption|].
  unfold codec. rewrite E. cbn [bind fst snd].
  rewrite quantize_good_shape by (reflexivity || now right). cbn [bind].
  rewrite dequantize_good_shape by (reflexivity || now right). cbn [bind].
  unfold denormalize, denorm_sphere.
  cbn [getitem String.eqb Ascii.eqb Bool.eqb bind differs_from negb as_row].
  cbn [shape data array3]. rewrite bad_shape_rows.
  rewrite rows3_deq_quant, !map_map.
  unfold array3. rewrite !length_map. reflexivity.
Qed.

(** [dequantize (quantize x)] is at most one bin width below [x]. *)
Lemma snap_error (bins : Z) (method : string) (x : R) :
  (2 <= bins <= int32_max + 1)%Z ->
  method = "minmax"%string \/ method = "sphere"%string ->
  0 <= to_unit method x <= 1 ->
  0 <= to_unit method x - to_unit method (snap bins method x)
    < 1 / IZR (bins - 1).
Proof.
  intros Hb Hm Hx. unfold snap.
  rewrite quantize_component_floor by assumption.
  set (x01 := to_unit method x) in *.
  assert (Hn : 1 <= IZR (bins - 1)) by (apply IZR_le; lia).
  assert (E : to_unit method
                (dequantize_component bins method
                   (Zfloor (x01 * IZR (bins - 1))))
              = IZR (Zfloor (x01 * IZR (bins - 1))) / IZR (bins - 1)).
  { apply (Rmult_eq_reg_r (IZR (bins - 1))); [|lra].
    rewrite requantize_component by (try lia; assumption).
    field. lra. }
  rewrite E. pose proof (Zfloor_bound (x01 * IZR (bins - 1))) as [Hlo Hhi].
  set (f := IZR (Zfloor (x01 * IZR (bins - 1)))) in *.
  set (n := IZR (bins - 1)) in *.
  assert (Hinv : 0 < / n) by (apply Rinv_0_lt_compat; lra).
  replace (x01 - f / n) with ((x01 * n - f) * / n) by (field; lra).
  replace (1 / n) with (1 * / n) by (field; lra).
  split.
  - apply Rmult_le_pos; lra.
  - apply Rmult_lt_compat_r; lra.
Qed.

Lemma minmax_component_error (bins : Z) (x lo hi : R) :
  (2 <= bins <= int32_max + 1)%Z ->
  lo <= x <= hi ->
  Rabs (snap bins "minmax" ((x - lo) / zero_to_one (hi - lo)) * (hi - lo)
        + lo - x)
  <= (hi - lo) / IZR (bins - 1).
Proof.
  intros Hb Hx.
  pose proof (minmax_component_range x lo hi Hx) as H01.
  pose proof (minmax_component_roundtrip x lo hi Hx) as Hrt.
  pose proof (snap_error bins "minmax" _ Hb (or_introl eq_refl) H01) as Hs.
  unfold to_unit in Hs. cbn [String.eqb Ascii.eqb Bool.eqb] in Hs.
  set (x01 := (x - lo) / zero_to_one (hi - lo)) in *.
  set (s := snap bins "minmax" x01) in *.
  assert (Hn : 1 <= IZR (bins - 1)) by (apply IZR_le; lia).
  set (n := IZR (bins - 1)) in *.
  replace (s * (hi - lo) + lo - x) with (- ((x01 - s) * (hi - lo))) by lra.
  rewrite Rabs_Ropp, Rabs_pos_eq by (apply Rmult_le_pos; lra).
  unfold Rdiv. rewrite (Rmult_comm (hi - lo)).
  apply Rmult_le_compat_r; lra.
Qed.

Lemma sphere_component_error (bins : Z) (x c s : R) :
  (2 <= bins <= int32_max + 1)%Z ->
  0 < s -> Rabs ((x - c) / s) <= 1 ->
  Rabs (snap bins "sphere" ((x - c) / s) * s + c - x)
  <= 2 * s / IZR (bins - 1).
Proof.
  intros Hb Hpos Hx.
  assert (H01 : 0 <= to_unit "sphere" ((x - c) / s) <= 1).
  { unfold to_unit. cbn [String.eqb Ascii.eqb Bool.eqb].
    unfold Rabs in Hx. destruct (Rcase_abs ((x - c) / s)); lra. }
  pose proof (snap_error bins "sphere" _ Hb (or_intror eq_refl) H01) as Hs.
  unfold to_unit in Hs. cbn [String.eqb Ascii.eqb Bool.eqb] in Hs.
  set (xn := (x - c) / s) in *.
  set (sn := snap bins "sphere" xn) in *.
  assert (Hn : 1 <= IZR (bins - 1)) by (apply IZR_le; lia).
  set (n := IZR (bins - 1)) in *.
  assert (Hx' : x = xn * s + c) by (unfold xn; field; lra).
  replace (sn * s + c - x) with (- ((xn - sn) * s)) by lra.
  rewrite Rabs_Ropp, Rabs_pos_eq by (apply Rmult_le_pos; lra).
  replace (2 * s / n) with (2 * (1 / n) * s) by (field; lra).
  apply Rmult_le_compat_r; lra.
Qed.

Lemma sphere_row_bound (V : list vec3) (scale : R) (v : vec3) :
  amax (map norm3 (map (fun v => vzip Rminus v (mean_axis0 V)) V))
    = Ok scale ->
  In v V ->
  0 < zero_to_one scale /\
  norm3 (vmap (fun x => x / zero_to_one scale)
           (vzip Rminus v (mean_axis0 V))) <= 1.
Proof.
  intros Hs Hv.
  destruct (amax_spec
              (map norm3 (map (fun v => vzip Rminus v (mean_axis0 V)) V)))
    as (scale' & Hs' & _ & Hall).
  { destruct V; [contradiction | discriminate]. }
  rewrite Hs in Hs'. injection Hs' as <-.
  assert (Hd : 0 <= norm3 (vzip Rminus v (mean_axis0 V)) <= scale).
  { split; [apply norm3_nonneg|]. apply Hall.
    apply in_map. apply in_map_iff. now exists v. }
  destruct (zero_to_one_scale _ _ Hd). split; [assumption|].
  now apply norm3_scaled.
Qed.

(** C1 (as amended): for every (N, 3) array with at least one row, both
    methods and [2 <= bins <= 2^31], every component of
    [denormalize (dequantize (quantize (normalize V)))] differs from the
    component of [V] by at most [(v_max[a] - v_min[a]) / (bins - 1)]
    (min-max) resp. [2 * scale / (bins - 1)] (unit sphere, [scale] being
    the scale of the parameter record). *)
Theorem codec_error_bound (V : list vec3) (bins : Z) :
  V <> [] ->
  (2 <= bins <= int32_max + 1)%Z ->
  (exists W v_min v_max,
     min_axis0 V = Ok v_min /\ max_axis0 V = Ok v_max /\
     codec norm_minmax "minmax" bins (array3 V) = Ok (array3 W) /\
     length W = length V /\
     forall i v w a, nth_error V i = Some v -> nth_error W i = Some w ->
       Rabs (get a w - get a v)
       <= (get a v_max - get a v_min) / IZR (bins - 1)) /\
  (exists W N p scale,
     norm_sphere (array3 V) = Ok (N, p) /\
     getitem "scale" p = Ok (PyFloat scale) /\
     codec norm_sphere "sphere" bins (array3 V) = Ok (array3 W) /\
     length W = length V /\
     forall i v w a, nth_error V i = Some v -> nth_error W i = Some w ->
       Rabs (get a w - get a v) <= 2 * scale / IZR (bins - 1)).
Proof.
  intros HV Hb. split.
  - destruct (codec_minmax_array3 V bins HV)
      as (v_min & v_max & Hmin & Hmax & E).
    destruct (min_axis0_spec V HV) as (v_min' & Hmin' & Hlo).
    destruct (max_axis0_spec V HV) as (v_max' & Hmax' & Hhi).
    rewrite Hmin in Hmin'. injection Hmin' as <-.
    rewrite Hmax in Hmax'. injection Hmax' as <-.
    eexists _, v_min, v_max.
    split; [assumption|]. split; [assumption|]. split; [exact E|].
    split; [now rewrite length_map|].
    intros i v w a Hv Hw. rewrite nth_error_map, Hv in Hw.
    injection Hw as <-.
    pose proof (nth_error_In _ _ Hv) as Hin.
    pose proof (proj2 (Hlo a) _ Hin) as L.
    pose proof (proj2 (Hhi a) _ Hin) as U.
    destruct v as [[x y] z], v_min as [[lx ly] lz], v_max as [[hx hy] hz].
    destruct a; cbn [get vzip vmap] in *;
      apply minmax_component_error; (assumption || lra).
  - destruct (codec_sphere_array3 V bins HV) as (scale & Hs & E).
    destruct (norm_sphere_array3 V HV) as (scale' & Hs' & En).
    rewrite Hs in Hs'. injection Hs' as <-.
    eexists _, _, _, (zero_to_one scale).
    split; [exact En|]. split; [reflexivity|]. split; [exact E|].
    split; [now rewrite length_map|].
    intros i v w a Hv Hw. rewrite nth_error_map, Hv in Hw.
    injection Hw as <-.
    pose proof (nth_error_In _ _ Hv) as Hin.
    destruct (sphere_row_bound V scale v Hs Hin) as [Hpos Hball].
    pose proof (component_le_norm3 a
                  (vmap (fun x => x / zero_to_one scale)
                     (vzip Rminus v (mean_axis0 V)))) as Hc.
    destruct v as [[x y] z], (mean_axis0 V) as [[cx cy] cz].
    destruct a; cbn [get vzip vmap] in *;
      apply sphere_component_error; (assumption || lra).
Qed.

(** C1, the claim as stated fails: with [bins = 2^31 + 2] the largest
    vertex of a two-point set normalises to 1.0, whose bin does not fit in
    int32; it is reconstructed at the other end of the range. *)
Lemma codec_error_bound_counterexample :
  exists W w,
    min_axis0 [(0, 0, 0); (1, 1, 1)] = Ok (0, 0, 0) /\
    max_axis0 [(0, 0, 0); (1, 1, 1)] = Ok (1, 1, 1) /\
    codec norm_minmax "minmax" 2147483650 (array3 [(0, 0, 0); (1, 1, 1)])
      = Ok (array3 W) /\
    nth_error W 1 = Some w /\
    w = (0, 0, 0) /\
    ~ Rabs (get AxisX w - 1) <= (1 - 0) / IZR (2147483650 - 1).
Proof.
  assert (Hmin : min_axis0 [(0, 0, 0); (1, 1, 1)] = Ok (0, 0, 0)).
  { unfold min_axis0, column. cbn [map get amin fold_left bind].
    now rewrite Rmin_left by lra. }
  assert (Hmax : max_axis0 [(0, 0, 0); (1, 1, 1)] = Ok (1, 1, 1)).
  { unfold max_axis0, column. cbn [map get amax fold_left bind].
    now rewrite Rmax_right by lra. }
  destruct (codec_minmax_array3 [(0, 0, 0); (1, 1, 1)] 2147483650)
    as (v_min & v_max & Hmin' & Hmax' & E); [discriminate|].
  rewrite Hmin in Hmin'. injection Hmin' as <-.
  rewrite Hmax in Hmax'. injection Hmax' as <-.
  assert (Hsnap : snap 2147483650 "minmax" ((1 - 0) / zero_to_one (1 - 0)) = 0).
  { assert (H1 : (1 - 0) / zero_to_one (1 - 0) = 1).
    { unfold zero_to_one. destruct (Req_dec_T (1 - 0) 0); [lra | field]. }
    rewrite H1. unfold snap, quantize_component, to_unit.
    cbn [String.eqb Ascii.eqb Bool.eqb]. rewrite Rmult_1_l, ZfloorZ.
    replace (clip 0 (2147483650 - 1) (astype_int32 (2147483650 - 1))) with 0%Z
      by reflexivity.
    unfold dequantize_component. cbn [String.eqb Ascii.eqb Bool.eqb]. lra. }
  eexists _, _. split; [exact Hmin|]. split; [exact Hmax|].
  split; [exact E|]. cbn [map nth_error vzip vmap]. split; [reflexivity|].
  rewrite Hsnap. split.
  - f_equal; [f_equal|]; lra.
  - cbn [get].
    replace (0 * (1 - 0) + 0 - 1) with (- (1)) by lra.
    rewrite Rabs_Ropp, Rabs_R1.
    assert (1 < IZR (2147483650 - 1)) by (apply IZR_lt; lia).
    intros H1. apply (Rmult_le_compat_r (IZR (2147483650 - 1))) in H1; [|lra].
    unfold Rdiv in H1. rewrite Rmult_assoc, Rinv_l in H1; lra.
Qed.

(** ** The worked example *)

Lemma rows3_Z_map_flat3 (g : R -> Z) (V : list vec3) :
  rows3_Z (map g (flat3 V))
  = map (fun v => (g (get AxisX v), g (get AxisY v), g (get AxisZ v))) V.
Proof.
  induction V as [|[[x y] z] V IH]; [reflexivity|].
  cbn [flat3 map rows3_Z get]. now rewrite IH.
Qed.

Lemma zero_to_one_nonzero (r : R) : r <> 0 -> zero_to_one r = r.
Proof. intros H. unfold zero_to_one. now destruct (Req_dec_T r 0). Qed.

Lemma test_vertices_min : min_axis0 test_vertices = Ok (-1, 0, 0).
Proof.
  unfold min_axis0, column, test_vertices.
  cbn [map get amin fold_left bind]. eval_Rminmax. reflexivity.
Qed.

Lemma test_vertices_max : max_axis0 test_vertices = Ok (2, 2, 3 / 2).
Proof.
  unfold max_axis0, column, test_vertices.
  cbn [map get amax fold_left bind]. eval_Rminmax. reflexivity.
Qed.

Lemma quantize_third : quantize_component BINS (1 / 3) = 341%Z.
Proof.
  rewrite quantize_component_floor
    by (unfold BINS, int32_max; (lia || lra)).
  apply Zfloor_eq. change (BINS - 1)%Z with 1023%Z. lra.
Qed.

Lemma quantize_zero : quantize_component BINS 0 = 0%Z.
Proof.
  rewrite quantize_component_floor
    by (unfold BINS, int32_max; (lia || lra)).
  rewrite Rmult_0_l. apply (ZfloorZ 0).
Qed.

(** C7: the chain on the test array with min-max and 1024 bins. *)
Theorem concrete_scenario :
  exists N params Q D W,
    norm_minmax (array3 test_vertices) = Ok (N, params) /\
    getitem "v_min" params = Ok (PyVec (-1, 0, 0)) /\
    getitem "v_max" params = Ok (PyVec (2, 2, 3 / 2)) /\
    row rows3 N 0 = Some (1 / 3, 0, 0) /\
    quantize N BINS "minmax" = Ok Q /\
    row rows3_Z Q 0 = Some (341, 0, 0)%Z /\
    dequantize Q BINS "minmax" = Ok D /\
    row rows3 D 0 = Some (341 / 1023, 0, 0) /\
    denorm_minmax D params = Ok W /\
    row rows3 W 0 = Some (0, 0, 0).
Proof.
  destruct (norm_minmax_array3 test_vertices)
    as (v_min & v_max & Hmin & Hmax & E); [discriminate|].
  rewrite test_vertices_min in Hmin. injection Hmin as <-.
  rewrite test_vertices_max in Hmax. injection Hmax as <-.
  assert (Hrow0 :
    vzip Rdiv (vzip Rminus (0, 0, 0) (-1, 0, 0))
      (vmap zero_to_one (vzip Rminus (2, 2, 3 / 2) (-1, 0, 0)))
    = (1 / 3, 0, 0)).
  { cbn [vzip vmap]. rewrite !zero_to_one_nonzero by lra.
    f_equal; [f_equal|]; field. }
  eexists _, _, _, _, _.
  split; [exact E|]. split; [reflexivity|]. split; [reflexivity|].
  split.
  { unfold row, array3. cbn [data]. rewrite rows3_flat3.
    unfold test_vertices at 1. cbn [map nth_error]. now rewrite Hrow0. }
  split; [apply quantize_good_shape; [reflexivity | now left]|].
  split.
  { unfold row, array3. cbn [data]. rewrite rows3_Z_map_flat3.
    unfold test_vertices at 1. cbn [map nth_error]. rewrite Hrow0.
    unfold to_unit. cbn [get String.eqb Ascii.eqb Bool.eqb].
    now rewrite quantize_third, quantize_zero. }
  split; [apply dequantize_good_shape; [reflexivity | now left]|].
  split.
  { unfold row, array3. cbn [data]. rewrite rows3_deq_quant.
    unfold test_vertices at 1. cbn [map nth_error]. rewrite Hrow0.
    unfold snap, to_unit, dequantize_component.
    cbn [vmap String.eqb Ascii.eqb Bool.eqb].
    rewrite quantize_third, quantize_zero.
    change (BINS - 1)%Z with 1023%Z. do 2 f_equal; [f_equal|]; lra. }
  unfold denorm_minmax.
  cbn [getitem String.eqb Ascii.eqb Bool.eqb bind differs_from negb as_row].
  cbn [shape data array3]. rewrite bad_shape_rows.
  split; [reflexivity|].
  unfold row. cbn [data]. rewrite rows3_flat3, rows3_deq_quant.
  unfold test_vertices at 1. cbn [map nth_error]. rewrite Hrow0.
  unfold snap, to_unit, dequantize_component.
  cbn [vmap vzip String.eqb Ascii.eqb Bool.eqb].
  rewrite quantize_third, quantize_zero.
  change (BINS - 1)%Z with 1023%Z. do 2 f_equal; [f_equal|]; lra.
Qed.

(** ** Error metrics *)

Lemma zip_with_flat3 (f : R -> R -> R) (O W : list vec3) :
  zip_with f (flat3 O) (flat3 W) = flat3 (zip_with (vzip f) O W).
Proof.
  revert W. induction O as [|[[x y] z] O IH]; intros [|[[x' y'] z'] W];
    try reflexivity.
  cbn [flat3 zip_with vzip]. now rewrite IH.
Qed.

Lemma sum_flat3 (g : R -> R) (D : list vec3) :
  sum (map g (flat3 D))
  = sum (map (fun d => g (get AxisX d) + g (get AxisY d) + g (get AxisZ d)) D).
Proof.
  induction D as [|[[x y] z] D IH]; [reflexivity|].
  cbn [flat3 map get]. unfold sum in *. cbn [fold_right]. rewrite IH. lra.
Qed.

Lemma mean_flat3 (g : R -> R) (D : list vec3) :
  mean (map g (flat3 D))
  = sum (map (fun d => g (get AxisX d) + g (get AxisY d) + g (get AxisZ d)) D)
    / INR (3 * length D).
Proof. unfold mean. now rewrite sum_flat3, length_map, flat3_length. Qed.

Lemma std_spec (l : list R) : std l = spec_std l.
Proof.
  unfold std, spec_std, mean. rewrite length_map. do 3 f_equal.
  apply map_ext. intros x. rewrite <- Rsqr_abs. unfold Rsqr. ring.
Qed.

Lemma compute_errors_array3 (O W : list vec3) :
  O <> [] -> length O = length W ->
  exists m,
    compute_errors (array3 O) (array3 W) = Ok m /\
    mse_total m = spec_mse_total (spec_diff O W) /\
    mae_total m = spec_mae_total (spec_diff O W) /\
    per_vertex_error m = map norm3 (spec_diff O W) /\
    is_max (max_error m) (per_vertex_error m) /\
    is_min (min_error m) (per_vertex_error m) /\
    std_error m = spec_std (per_vertex_error m).
Proof.
  intros HO Hlen.
  assert (Hne : map norm3 (spec_diff O W) <> []).
  { destruct O as [|o O]; [congruence|]. destruct W as [|w W];
      [discriminate|]. discriminate. }
  destruct (amax_spec _ Hne) as (mx & Hmx & Hmx_in & Hmx_le).
  destruct (amin_spec _ Hne) as (mn & Hmn & Hmn_in & Hmn_le).
  unfold compute_errors.
  destruct (list_eq_dec Nat.eq_dec (shape (array3 O)) (shape (array3 W)))
    as [_|Hsh]; [|exfalso; apply Hsh; unfold array3; cbn [shape]; congruence].
  cbn [data array3]. rewrite zip_with_flat3, rows3_flat3.
  fold (spec_diff O W). rewrite Hmx, Hmn. cbn [bind].
  eexists. split; [reflexivity|].
  cbn [mse_total mae_total per_vertex_error max_error min_error std_error].
  split; [apply mean_flat3|]. split; [apply mean_flat3|].
  split; [reflexivity|]. split; [now split|]. split; [now split|].
  apply std_spec.
Qed.

Lemma spec_diff_self (V : list vec3) (d : vec3) :
  In d (spec_diff V V) -> d = (0, 0, 0).
Proof.
  induction V as [|[[x y] z] V IH]; [contradiction|].
  cbn [spec_diff zip_with vzip]. intros [<-|H].
  - now rewrite !Rminus_diag.
  - now apply IH.
Qed.

Lemma sum_zero (l : list R) : (forall x, In x l -> x = 0) -> sum l = 0.
Proof. intros H. rewrite (sum_constant 0) by assumption. lra. Qed.

(** C8 (as amended): on two (N, 3) arrays of the same shape with N >= 1,
    [compute_errors] returns the mean of the squared resp. absolute
    differences over all 3 N entries, the Euclidean norm of every row of
    differences, and the maximum, minimum and population standard
    deviation of these norms; on twice the same array all of them are 0. *)
Theorem compute_errors_spec (O W : list vec3) :
  O <> [] -> length O = length W ->
  (exists m,
     compute_errors (array3 O) (array3 W) = Ok m /\
     mse_total m = spec_mse_total (spec_diff O W) /\
     mae_total m = spec_mae_total (spec_diff O W) /\
     per_vertex_error m = map norm3 (spec_diff O W) /\
     is_max (max_error m) (per_vertex_error m) /\
     is_min (min_error m) (per_vertex_error m) /\
     std_error m = spec_std (per_vertex_error m)) /\
  (exists m,
     compute_errors (array3 O) (array3 O) = Ok m /\
     mse_total m = 0 /\ mae_total m = 0 /\
     max_error m = 0 /\ min_error m = 0 /\ std_error m = 0).
Proof.
  intros HO Hlen. split; [now apply compute_errors_array3|].
  destruct (compute_errors_array3 O O HO eq_refl)
    as (m & E & Hmse & Hmae & Hpve & [Hmax _] & [Hmin _] & Hstd).
  exists m. split; [exact E|].
  assert (Hz : forall e, In e (per_vertex_error m) -> e = 0).
  { intros e He. rewrite Hpve in He.
    apply in_map_iff in He as (d & <- & Hd).
    rewrite (spec_diff_self O d Hd). apply norm3_zero. }
  split; [|split; [|split; [|split]]].
  - rewrite Hmse. unfold spec_mse_total. rewrite sum_zero; [lra|].
    intros x Hx. apply in_map_iff in Hx as (d & <- & Hd).
    rewrite (spec_diff_self O d Hd). cbn [get]. rewrite Rsqr_0. lra.
  - rewrite Hmae. unfold spec_mae_total. rewrite sum_zero; [lra|].
    intros x Hx. apply in_map_iff in Hx as (d & <- & Hd).
    rewrite (spec_diff_self O d Hd). cbn [get]. rewrite Rabs_R0. lra.
  - now apply Hz.
  - now apply Hz.
  - rewrite Hstd. unfold spec_std.
    rewrite (sum_zero (per_vertex_error m)) by assumption.
    rewrite sum_zero.
    + unfold Rdiv. rewrite Rmult_0_l. apply sqrt_0.
    + intros x Hx. apply in_map_iff in Hx as (e & <- & He).
      rewrite (Hz e He). unfold Rdiv. rewrite Rmult_0_l. lra.
Qed.

(** C8, the claim as stated fails on arrays without rows: the two (0, 3)
    arrays have the same shape, and [np.max] of the empty vector of
    per-vertex errors raises. *)
Lemma compute_errors_empty_counterexample :
  shape (array3 []) = shape (array3 []) /\
  compute_errors (array3 []) (array3 []) = Raise ValueError.
Proof.
  split; [reflexivity|]. unfold compute_errors.
  destruct (list_eq_dec Nat.eq_dec (shape (array3 [])) (shape (array3 [])));
    reflexivity.
Qed.

(** ** The theorems at concrete inputs *)

Lemma codec_error_bound_witness :
  test_vertices <> [] /\
  (2 <= BINS <= int32_max + 1)%Z /\
  (exists W v_min v_max,
     min_axis0 test_vertices = Ok v_min /\
     max_axis0 test_vertices = Ok v_max /\
     codec norm_minmax "minmax" BINS (array3 test_vertices) = Ok (array3 W) /\
     length W = length test_vertices /\
     forall i v w a,
       nth_error test_vertices i = Some v -> nth_error W i = Some w ->
       Rabs (get a w - get a v)
       <= (get a v_max - get a v_min) / IZR (BINS - 1)).
Proof.
  assert (H1 : test_vertices <> []) by discriminate.
  assert (H2 : (2 <= BINS <= int32_max + 1)%Z)
    by (unfold BINS, int32_max; lia).
  split; [exact H1|]. split; [exact H2|].
  exact (proj1 (codec_error_bound test_vertices BINS H1 H2)).
Defined.

Lemma roundtrip_exact_witness :
  test_vertices <> [] /\
  roundtrip_minmax (array3 test_vertices) = Ok (array3 test_vertices) /\
  roundtrip_sphere (array3 test_vertices) = Ok (array3 test_vertices).
Proof.
  assert (H : test_vertices <> []) by discriminate.
  split; [exact H|]. exact (roundtrip_exact test_vertices H).
Defined.

Lemma quantize_range_witness :
  (2 <= BINS)%Z /\
  bad_shape (array3 [(1 / 3, 0, 0)]) = false /\
  exists q,
    quantize (array3 [(1 / 3, 0, 0)]) BINS "minmax" = Ok q /\
    (forall z, In z (data q) -> (0 <= z <= BINS - 1)%Z) /\
    lattice_check q BINS <> Raise SystemExit.
Proof.
  assert (H1 : (2 <= BINS)%Z) by (unfold BINS; lia).
  assert (H2 : bad_shape (array3 [(1 / 3, 0, 0)]) = false) by reflexivity.
  split; [exact H1|]. split; [exact H2|].
  destruct (quantize_range (array3 [(1 / 3, 0, 0)]) BINS "minmax" H1 H2
              (or_introl eq_refl))
    as [(q & Hq & _ & _ & Hr & _ & _ & Hc) _].
  exists q. split; [exact Hq|]. split; [exact Hr | exact Hc].
Defined.

Lemma normalized_ranges_witness :
  test_vertices <> [] /\
  (exists N p, norm_minmax (array3 test_vertices) = Ok (array3 N, p) /\
     forall n a, In n N -> 0 <= get a n <= 1) /\
  (exists N p, norm_sphere (array3 test_vertices) = Ok (array3 N, p) /\
     forall n, In n N -> norm3 n <= 1).
Proof.
  assert (H : test_vertices <> []) by discriminate.
  split; [exact H|]. exact (normalized_ranges test_vertices H).
Defined.

Lemma normalize_shape_error_witness :
  well_formed (mk_ndarray [0%nat; 3%nat] (@nil R)) /\
  norm_minmax (mk_ndarray [0%nat; 3%nat] []) = Raise ValueError /\
  norm_sphere (mk_ndarray [0%nat; 3%nat] []) = Raise ValueError.
Proof.
  assert (H : well_formed (mk_ndarray [0%nat; 3%nat] (@nil R)))
    by reflexivity.
  split; [exact H|].
  apply (proj2 (normalize_shape_error _ H)).
  intros (V & HV & E). destruct V; [congruence | discriminate E].
Defined.


(** A single point is a degenerate input of the unit-sphere method. *)
Example single_point_sphere :
  exists N center,
    norm_sphere (array3 [(1, 2, 3)]) =
      Ok (array3 N, [("method", PyStr "sphere"); ("center", PyVec center);
                     ("scale", PyFloat 1)]%string) /\
    nth_error N 0 = Some (0, 0, 0).
Proof.
  assert (H1 : [(1, 2, 3)] <> (@nil vec3)) by discriminate.
  assert (H2 : forall u v : vec3, In u [(1, 2, 3)] -> In v [(1, 2, 3)] -> u = v).
  { intros u v [<-|[]] [<-|[]]; reflexivity. }
  destruct (degenerate_sphere _ H1 H2) as (N & c & E & _ & Hlen & Hrows).
  exists N, c. split; [exact E|].
  destruct N as [|n N]; [discriminate Hlen|].
  destruct (Hrows 0%nat (1, 2, 3) n eq_refl eq_refl) as [_ ->]. reflexivity.
Qed.

Lemma compute_errors_spec_witness :
  test_vertices <> [] /\
  length test_vertices = length test_vertices /\
  exists m,
    compute_errors (array3 test_vertices) (array3 test_vertices) = Ok m /\
    mse_total m = 0 /\ mae_total m = 0 /\
    max_error m = 0 /\ min_error m = 0 /\ std_error m = 0.
Proof.
  assert (H : test_vertices <> []) by discriminate.
  split; [exact H|]. split; [reflexivity|].
  exact (proj2 (compute_errors_spec test_vertices test_vertices H eq_refl)).
Defined.

Lemma method_mismatch_witness :
  getitem "method"
    [("method", PyStr "sphere"); ("center", PyVec (0, 0, 0));
     ("scale", PyFloat 1)]%string = Ok (PyStr "sphere") /\
  PyStr "sphere" <> PyStr "minmax" /\
  denorm_minmax (array3 test_vertices)
    [("method", PyStr "sphere"); ("center", PyVec (0, 0, 0));
     ("scale", PyFloat 1)]%string = Raise ValueError.
Proof.
  assert (H1 : getitem "method"
                 [("method", PyStr "sphere"); ("center", PyVec (0, 0, 0));
                  ("scale", PyFloat 1)]%string = Ok (PyStr "sphere"))
    by reflexivity.
  assert (H2 : PyStr "sphere" <> PyStr "minmax") by discriminate.
  split; [exact H1|]. split; [exact H2|].
  exact (proj1 (method_mismatch (array3 test_vertices) _ _ H1) H2).
Defined.


(** * Further properties *)

(** ** The quantiser: errors, ranges, order *)

Lemma known_method_dec (method : string) :
  {method = "minmax"%string \/ method = "sphere"%string} +
  {method <> "minmax"%string /\ method <> "sphere"%string}.
Proof.
  destruct (string_dec method "minmax") as [E|N1]; [left; now left|].
  destruct (string_dec method "sphere") as [E|N2]; [left; now right|].
  right. now split.
Qed.

Lemma quantize_unknown (n : ndarray R) (bins : Z) (method : string) :
  method <> "minmax"%string -> method <> "sphere"%string ->
  quantize n bins method = Raise ValueError.
Proof.
  intros N1 N2. unfold quantize. destruct (bad_shape n); [reflexivity|].
  apply String.eqb_neq in N1, N2. now rewrite N1, N2.
Qed.

Lemma dequantize_unknown (q : ndarray Z) (bins : Z) (method : string) :
  method <> "minmax"%string -> method <> "sphere"%string ->
  dequantize q bins method = Raise ValueError.
Proof.
  intros N1 N2. unfold dequantize. destruct (bad_shape q); [reflexivity|].
  apply String.eqb_neq in N1, N2. now rewrite N1, N2.
Qed.


Lemma dequantize_component_range (bins z : Z) :
  (2 <= bins)%Z -> (0 <= z <= bins - 1)%Z ->
  0 <= dequantize_component bins "minmax" z <= 1 /\
  -1 <= dequantize_component bins "sphere" z <= 1.
Proof.
  intros Hb Hz. unfold dequantize_component.
  cbn [String.eqb Ascii.eqb Bool.eqb].
  assert (Hn : 1 <= IZR (bins - 1)) by (apply IZR_le; lia).
  assert (H0 : 0 <= IZR z) by (apply IZR_le; lia).
  assert (H1 : IZR z <= IZR (bins - 1)) by (apply IZR_le; lia).
  assert (Hq : 0 <= IZR z / IZR (bins - 1) <= 1).
  { split.
    - apply Rmult_le_pos; [assumption|].
      left. apply Rinv_0_lt_compat. lra.
    - apply (Rmult_le_reg_r (IZR (bins - 1))); [lra|].
      unfold Rdiv. rewrite Rmult_assoc, Rinv_l by lra. lra. }
  lra.
Qed.

(** Dequantising a lattice with components in [0, bins - 1] gives values
    in [0, 1] for "minmax" and in [-1, 1] for "sphere". *)
Theorem dequantize_range (q : ndarray Z) (bins : Z) :
  (2 <= bins)%Z -> bad_shape q = false ->
  (forall z, In z (data q) -> (0 <= z <= bins - 1)%Z) ->
  (exists d, dequantize q bins "minmax" = Ok d /\ shape d = shape q /\
             forall x, In x (data d) -> 0 <= x <= 1) /\
  (exists d, dequantize q bins "sphere" = Ok d /\ shape d = shape q /\
             forall x, In x (data d) -> -1 <= x <= 1).
Proof.
  intros Hb Hsh Hq. split; eexists;
    (split; [apply dequantize_good_shape; [assumption | tauto]|]);
    (split; [reflexivity|]); cbn [data]; intros x Hx;
    apply in_map_iff in Hx as (z & <- & Hz);
    apply (dequantize_component_range bins z Hb (Hq z Hz)).
Qed.

Lemma dequantize_range_witness :
  (2 <= BINS)%Z /\
  bad_shape (mk_ndarray [1%nat; 3%nat] [0; 341; 1023]%Z) = false /\
  (forall z, In z [0; 341; 1023]%Z -> (0 <= z <= BINS - 1)%Z) /\
  exists d, dequantize (mk_ndarray [1%nat; 3%nat] [0; 341; 1023]%Z) BINS
              "sphere" = Ok d /\
            forall x, In x (data d) -> -1 <= x <= 1.
Proof.
  assert (H1 : (2 <= BINS)%Z) by (unfold BINS; lia).
  assert (H2 : bad_shape (mk_ndarray [1%nat; 3%nat] [0; 341; 1023]%Z) = false)
    by reflexivity.
  assert (H3 : forall z, In z [0; 341; 1023]%Z -> (0 <= z <= BINS - 1)%Z).
  { unfold BINS. intros z [<-|[<-|[<-|[]]]]; lia. }
  split; [exact H1|]. split; [exact H2|]. split; [exact H3|].
  destruct (proj2 (dequantize_range _ BINS H1 H2 H3)) as (d & Hd & _ & Hr).
  exists d. split; [exact Hd | exact Hr].
Defined.



Lemma to_unit_monotone (method : string) (x y : R) :
  x <= y -> to_unit method x <= to_unit method y.
Proof. intros H. unfold to_unit. destruct (String.eqb _ _); lra. Qed.

Lemma quantize_component_monotone (bins : Z) (x y : R) :
  (1 <= bins)%Z -> x <= y ->
  (Zfloor (y * IZR (bins - 1)) <= int32_max)%Z ->
  (quantize_component bins x <= quantize_component bins y)%Z.
Proof.
  intros Hb Hxy Hfit.
  assert (Hn : 0 <= IZR (bins - 1)) by (apply IZR_le; lia).
  assert (Hf : (Zfloor (x * IZR (bins - 1)) <= Zfloor (y * IZR (bins - 1)))%Z).
  { apply Zfloor_le. now apply Rmult_le_compat_r. }
  unfold quantize_component, clip, astype_int32.
  destruct (int32_min <=? Zfloor (x * IZR (bins - 1)))%Z eqn:E1;
    destruct (Zfloor (x * IZR (bins - 1)) <=? int32_max)%Z eqn:E2;
    destruct (int32_min <=? Zfloor (y * IZR (bins - 1)))%Z eqn:E3;
    destruct (Zfloor (y * IZR (bins - 1)) <=? int32_max)%Z eqn:E4;
    cbn [andb];
    try apply Z.leb_le in E1; try apply Z.leb_le in E2;
    try apply Z.leb_le in E3; try apply Z.leb_le in E4;
    try apply Z.leb_gt in E1; try apply Z.leb_gt in E2;
    try apply Z.leb_gt in E3; try apply Z.leb_gt in E4;
    unfold int32_min, int32_max in *; lia.
Qed.

(** Quantisation keeps the order of coordinates: a component that is not
    larger gets a bin that is not larger, provided the larger one does not
    overflow int32. *)
Theorem quantize_monotone (n : ndarray R) (bins : Z) (method : string)
    (q : ndarray Z) (i j : nat) (x y : R) (qi qj : Z) :
  (1 <= bins)%Z ->
  quantize n bins method = Ok q ->
  nth_error (data n) i = Some x -> nth_error (data n) j = Some y ->
  nth_error (data q) i = Some qi -> nth_error (data q) j = Some qj ->
  x <= y ->
  (Zfloor (to_unit method y * IZR (bins - 1)) <= int32_max)%Z ->
  (qi <= qj)%Z.
Proof.
  intros Hb Hq Hx Hy Hqi Hqj Hxy Hfit.
  destruct (known_method_dec method) as [Hm|[N1 N2]];
    [|rewrite quantize_unknown in Hq by assumption; discriminate].
  destruct (bad_shape n) eqn:Hsh;
    [unfold quantize in Hq; rewrite Hsh in Hq; discriminate|].
  rewrite quantize_good_shape in Hq by assumption. injection Hq as <-.
  cbn [data] in *. rewrite nth_error_map in Hqi, Hqj.
  rewrite Hx in Hqi. rewrite Hy in Hqj.
  injection Hqi as <-. injection Hqj as <-.
  apply quantize_component_monotone; try assumption.
  now apply to_unit_monotone.
Qed.

Lemma quantize_monotone_witness :
  exists q,
    quantize (array3 [(0, 1 / 3, 1)]) BINS "minmax" = Ok q /\
    forall qi qj,
      nth_error (data q) 1 = Some qi -> nth_error (data q) 2 = Some qj ->
      (qi <= qj)%Z.
Proof.
  pose (q := mk_ndarray [1%nat; 3%nat]
               (map (fun x => quantize_component BINS (to_unit "minmax" x))
                    [0; 1 / 3; 1])).
  assert (Hq : quantize (array3 [(0, 1 / 3, 1)]) BINS "minmax" = Ok q).
  { apply quantize_good_shape; [reflexivity | now left]. }
  exists q. split; [exact Hq|]. intros qi qj Hi Hj.
  assert (H1 : (1 <= BINS)%Z) by (unfold BINS; lia).
  assert (H2 : 1 / 3 <= 1) by lra.
  assert (H3 : (Zfloor (to_unit "minmax" 1 * IZR (BINS - 1)) <= int32_max)%Z).
  { unfold to_unit. cbn [String.eqb Ascii.eqb Bool.eqb].
    rewrite Rmult_1_l, ZfloorZ. unfold BINS, int32_max. lia. }
  exact (quantize_monotone (array3 [(0, 1 / 3, 1)]) BINS "minmax" q
           1 2 (1 / 3) 1 qi qj H1 Hq eq_refl eq_refl Hi Hj H2 H3).
Defined.

(** ** The whole chain: one-sided error, bounding box, second pass *)

Lemma codec_minmax_rows (V : list vec3) (bins : Z) :
  V <> [] ->
  exists v_min v_max,
    min_axis0 V = Ok v_min /\ max_axis0 V = Ok v_max /\
    codec norm_minmax "minmax" bins (array3 V) =
      Ok (array3
            (map (fun v =>
                    (codec_minmax_component bins (get AxisX v_min)
                       (get AxisX v_max) (get AxisX v),
                     codec_minmax_component bins (get AxisY v_min)
                       (get AxisY v_max) (get AxisY v),
                     codec_minmax_component bins (get AxisZ v_min)
                       (get AxisZ v_max) (get AxisZ v))) V)).
Proof.
  intros HV.
  destruct (codec_minmax_array3 V bins HV) as (v_min & v_max & H1 & H2 & E).
  exists v_min, v_max. split; [assumption|]. split; [assumption|].
  rewrite E. do 2 f_equal. apply map_ext. intros [[x y] z].
  destruct v_min as [[lx ly] lz], v_max as [[hx hy] hz]. reflexivity.
Qed.

Lemma codec_sphere_rows (V : list vec3) (bins : Z) :
  V <> [] ->
  exists scale,
    amax (map norm3 (map (fun v => vzip Rminus v (mean_axis0 V)) V))
      = Ok scale /\
    codec norm_sphere "sphere" bins (array3 V) =
      Ok (array3
            (map (fun v =>
                    (codec_sphere_component bins (get AxisX (mean_axis0 V))
                       (zero_to_one scale) (get AxisX v),
                     codec_sphere_component bins (get AxisY (mean_axis0 V))
                       (zero_to_one scale) (get AxisY v),
                     codec_sphere_component bins (get AxisZ (mean_axis0 V))
                       (zero_to_one scale) (get AxisZ v))) V)).
Proof.
  intros HV.
  destruct (codec_sphere_array3 V bins HV) as (scale & Hs & E).
  exists scale. split; [assumption|].
  rewrite E. do 2 f_equal. apply map_ext. intros [[x y] z].
  destruct (mean_axis0 V) as [[cx cy] cz]. reflexivity.
Qed.

Lemma snap_unit_range (bins : Z) (x01 : R) :
  (2 <= bins <= int32_max + 1)%Z -> 0 <= x01 <= 1 ->
  0 <= snap bins "minmax" x01 <= x01.
Proof.
  intros Hb Hx.
  pose proof (snap_error bins "minmax" x01 Hb (or_introl eq_refl)) as Hs.
  unfold to_unit in Hs. cbn [String.eqb Ascii.eqb Bool.eqb] in Hs.
  specialize (Hs Hx). split; [|lra].
  unfold snap.
  apply (dequantize_component_range bins); [lia|].
  apply quantize_component_range. lia.
Qed.

Lemma snap_zero (bins : Z) :
  (2 <= bins <= int32_max + 1)%Z -> snap bins "minmax" 0 = 0.
Proof.
  intros Hb. pose proof (snap_unit_range bins 0 Hb). lra.
Qed.

Lemma snap_one (bins : Z) :
  (2 <= bins <= int32_max + 1)%Z -> snap bins "minmax" 1 = 1.
Proof.
  intros Hb. unfold snap, to_unit. cbn [String.eqb Ascii.eqb Bool.eqb].
  rewrite quantize_component_floor by (assumption || lra).
  rewrite Rmult_1_l, ZfloorZ. unfold dequantize_component.
  cbn [String.eqb Ascii.eqb Bool.eqb]. field.
  apply not_0_IZR. lia.
Qed.


Lemma codec_minmax_component_bounds (bins : Z) (lo hi x : R) :
  (2 <= bins <= int32_max + 1)%Z -> lo <= x <= hi ->
  lo <= codec_minmax_component bins lo hi x <= x.
Proof.
  intros Hb Hx. unfold codec_minmax_component.
  pose proof (minmax_component_range x lo hi Hx) as H01.
  pose proof (minmax_component_roundtrip x lo hi Hx) as Hrt.
  pose proof (snap_unit_range bins _ Hb H01) as Hs.
  set (x01 := (x - lo) / zero_to_one (hi - lo)) in *.
  set (s := snap bins "minmax" x01) in *.
  assert (Hr : 0 <= hi - lo) by lra.
  split.
  - assert (0 <= s * (hi - lo)) by (apply Rmult_le_pos; lra). lra.
  - assert (s * (hi - lo) <= x01 * (hi - lo))
      by (apply Rmult_le_compat_r; lra).
    lra.
Qed.

Lemma codec_minmax_component_lo (bins : Z) (lo hi : R) :
  (2 <= bins <= int32_max + 1)%Z -> lo <= hi ->
  codec_minmax_component bins lo hi lo = lo.
Proof.
  intros Hb H. pose proof (codec_minmax_component_bounds bins lo hi lo Hb).
  lra.
Qed.

Lemma codec_minmax_component_hi (bins : Z) (lo hi : R) :
  (2 <= bins <= int32_max + 1)%Z -> lo <= hi ->
  codec_minmax_component bins lo hi hi = hi.
Proof.
  intros Hb H. unfold codec_minmax_component, zero_to_one.
  destruct (Req_dec_T (hi - lo) 0) as [E|N].
  - rewrite E. lra.
  - replace ((hi - lo) / (hi - lo)) with 1 by (field; exact N).
    rewrite snap_one by assumption. lra.
Qed.



Lemma amin_unique (l : list R) (m : R) :
  In m l -> (forall y, In y l -> m <= y) -> amin l = Ok m.
Proof.
  intros Hin Hle.
  destruct (amin_spec l) as (m' & E & Hin' & Hle').
  { destruct l; [contradiction | discriminate]. }
  rewrite E. f_equal. apply Rle_antisym; auto.
Qed.

Lemma amax_unique (l : list R) (m : R) :
  In m l -> (forall y, In y l -> y <= m) -> amax l = Ok m.
Proof.
  intros Hin Hle.
  destruct (amax_spec l) as (m' & E & Hin' & Hle').
  { destruct l; [contradiction | discriminate]. }
  rewrite E. f_equal. apply Rle_antisym; auto.
Qed.

Lemma min_axis0_unique (V : list vec3) (m : vec3) :
  (forall a, In (get a m) (column a V) /\
             forall v, In v V -> get a m <= get a v) ->
  min_axis0 V = Ok m.
Proof.
  intros H. unfold min_axis0.
  rewrite (amin_unique (column AxisX V) (get AxisX m)),
          (amin_unique (column AxisY V) (get AxisY m)),
          (amin_unique (column AxisZ V) (get AxisZ m));
    try apply H;
    try (intros y Hy; apply in_map_iff in Hy as (v & <- & Hv); now apply H).
  now destruct m as [[x y] z].
Qed.

Lemma max_axis0_unique (V : list vec3) (m : vec3) :
  (forall a, In (get a m) (column a V) /\
             forall v, In v V -> get a v <= get a m) ->
  max_axis0 V = Ok m.
Proof.
  intros H. unfold max_axis0.
  rewrite (amax_unique (column AxisX V) (get AxisX m)),
          (amax_unique (column AxisY V) (get AxisY m)),
          (amax_unique (column AxisZ V) (get AxisZ m));
    try apply H;
    try (intros y Hy; apply in_map_iff in Hy as (v & <- & Hv); now apply H).
  now destruct m as [[x y] z].
Qed.

(** The rows of the min-max chain, with what is known about them. *)
Lemma codec_minmax_facts (V : list vec3) (bins : Z) :
  V <> [] -> (2 <= bins <= int32_max + 1)%Z ->
  exists W v_min v_max,
    min_axis0 V = Ok v_min /\ max_axis0 V = Ok v_max /\
    codec norm_minmax "minmax" bins (array3 V) = Ok (array3 W) /\
    W = map (fun v =>
               (codec_minmax_component bins (get AxisX v_min)
                  (get AxisX v_max) (get AxisX v),
                codec_minmax_component bins (get AxisY v_min)
                  (get AxisY v_max) (get AxisY v),
                codec_minmax_component bins (get AxisZ v_min)
                  (get AxisZ v_max) (get AxisZ v))) V /\
    (forall a v, In v V -> get a v_min <= get a v <= get a v_max) /\
    (forall a, In (get a v_min) (column a V)) /\
    (forall a, In (get a v_max) (column a V)) /\
    (forall a w, In w W -> get a v_min <= get a w <= get a v_max) /\
    min_axis0 W = Ok v_min /\ max_axis0 W = Ok v_max.
Proof.
  intros HV Hb.
  destruct (codec_minmax_rows V bins HV) as (v_min & v_max & Hmin & Hmax & E).
  destruct (min_axis0_spec V HV) as (v_min' & Hmin' & Hlo).
  destruct (max_axis0_spec V HV) as (v_max' & Hmax' & Hhi).
  rewrite Hmin in Hmin'. injection Hmin' as <-.
  rewrite Hmax in Hmax'. injection Hmax' as <-.
  set (row := fun v : vec3 =>
         (codec_minmax_component bins (get AxisX v_min)
            (get AxisX v_max) (get AxisX v),
          codec_minmax_component bins (get AxisY v_min)
            (get AxisY v_max) (get AxisY v),
          codec_minmax_component bins (get AxisZ v_min)
            (get AxisZ v_max) (get AxisZ v))) in *.
  assert (Hbox : forall a v, In v V -> get a v_min <= get a v <= get a v_max).
  { intros a v Hv. split; [now apply Hlo | now apply Hhi]. }
  assert (Hget : forall a v,
             get a (row v)
             = codec_minmax_component bins (get a v_min) (get a v_max)
                 (get a v)).
  { intros [| |] v; reflexivity. }
  assert (HboxW : forall a w, In w (map row V) ->
             get a v_min <= get a w <= get a v_max).
  { intros a w Hw. apply in_map_iff in Hw as (v & <- & Hv). rewrite Hget.
    pose proof (codec_minmax_component_bounds bins _ _ _ Hb (Hbox a v Hv)).
    pose proof (Hbox a v Hv). lra. }
  assert (Hle : forall a, get a v_min <= get a v_max).
  { intros a. destruct V as [|v V]; [congruence|].
    pose proof (Hbox a v (or_introl eq_refl)). lra. }
  exists (map row V), v_min, v_max.
  split; [assumption|]. split; [assumption|]. split; [exact E|].
  split; [reflexivity|]. split; [exact Hbox|].
  split; [intros a; apply Hlo|]. split; [intros a; apply Hhi|].
  split; [exact HboxW|]. split.
  - apply min_axis0_unique. intros a. split.
    + destruct (Hlo a) as [Hin _].
      apply in_map_iff in Hin as (v & Ev & Hv).
      apply in_map_iff. exists (row v). split; [|now apply in_map].
      rewrite Hget, Ev. apply codec_minmax_component_lo; auto.
    + intros w Hw. now apply HboxW.
  - apply max_axis0_unique. intros a. split.
    + destruct (Hhi a) as [Hin _].
      apply in_map_iff in Hin as (v & Ev & Hv).
      apply in_map_iff. exists (row v). split; [|now apply in_map].
      rewrite Hget, Ev. apply codec_minmax_component_hi; auto.
    + intros w Hw. now apply HboxW.
Qed.







(** ** The normalisers: the range is used in full *)

(** Min-max normalisation uses the whole unit interval on every axis that
    is not flat: some row is 0 there and some row is 1. *)
Theorem norm_minmax_attains_bounds (V : list vec3) :
  V <> [] ->
  exists N v_min v_max,
    norm_minmax (array3 V) =
      Ok (array3 N, [("method", PyStr "minmax"); ("v_min", PyVec v_min);
                     ("v_max", PyVec v_max)]%string) /\
    forall a, get a v_min <> get a v_max ->
      (exists n, In n N /\ get a n = 0) /\ (exists n, In n N /\ get a n = 1).
Proof.
  intros HV.
  destruct (norm_minmax_array3 V HV) as (v_min & v_max & Hmin & Hmax & E).
  destruct (min_axis0_spec V HV) as (v_min' & Hmin' & Hlo).
  destruct (max_axis0_spec V HV) as (v_max' & Hmax' & Hhi).
  rewrite Hmin in Hmin'. injection Hmin' as <-.
  rewrite Hmax in Hmax'. injection Hmax' as <-.
  eexists _, v_min, v_max. split; [exact E|].
  intros a Hne.
  assert (Hget : forall v,
            get a (vzip Rdiv (vzip Rminus v v_min)
                     (vmap zero_to_one (vzip Rminus v_max v_min)))
            = (get a v - get a v_min)
              / zero_to_one (get a v_max - get a v_min)).
  { intros [[x y] z].
    destruct v_min as [[lx ly] lz], v_max as [[hx hy] hz].
    now destruct a. }
  rewrite zero_to_one_nonzero in Hget by lra.
  split.
  - destruct (Hlo a) as [Hin _]. apply in_map_iff in Hin as (v & Ev & Hv).
    eexists. split; [apply in_map; exact Hv|].
    rewrite Hget, Ev. field. lra.
  - destruct (Hhi a) as [Hin _]. apply in_map_iff in Hin as (v & Ev & Hv).
    eexists. split; [apply in_map; exact Hv|].
    rewrite Hget, Ev. field. lra.
Qed.

Lemma norm_minmax_attains_bounds_witness :
  test_vertices <> [] /\
  exists N v_min v_max,
    norm_minmax (array3 test_vertices) =
      Ok (array3 N, [("method", PyStr "minmax"); ("v_min", PyVec v_min);
                     ("v_max", PyVec v_max)]%string) /\
    forall a, get a v_min <> get a v_max ->
      (exists n, In n N /\ get a n = 0) /\ (exists n, In n N /\ get a n = 1).
Proof.
  assert (H : test_vertices <> []) by discriminate.
  split; [exact H|]. exact (norm_minmax_attains_bounds test_vertices H).
Defined.






(** ** Per-axis statistics *)

Lemma sum_bounds (lo hi : R) (l : list R) :
  (forall x, In x l -> lo <= x <= hi) ->
  lo * INR (length l) <= sum l <= hi * INR (length l).
Proof.
  induction l as [|x l IH]; intros H.
  - cbn. lra.
  - cbn [length]. rewrite S_INR. unfold sum in *. cbn [fold_right].
    pose proof (H x (or_introl eq_refl)).
    assert (Hl : forall y, In y l -> lo <= y <= hi)
      by (intros y Hy; apply H; now right).
    specialize (IH Hl). lra.
Qed.





(** ** The self-check of normalization.py *)

Lemma outside_unit_range_false (n_min n_max : vec3) :
  (forall a, 0 <= get a n_min) -> (forall a, get a n_max <= 1) ->
  outside_unit_range n_min n_max = false.
Proof.
  intros Hlo Hhi. destruct n_min as [[lx ly] lz], n_max as [[hx hy] hz].
  pose proof (Hlo AxisX). pose proof (Hlo AxisY). pose proof (Hlo AxisZ).
  pose proof (Hhi AxisX). pose proof (Hhi AxisY). pose proof (Hhi AxisZ).
  cbn [get] in *. unfold outside_unit_range, tolerance.
  repeat match goal with
         | |- context [Rlt_dec ?a ?b] => destruct (Rlt_dec a b); [lra|]
         | |- context [Rgt_dec ?a ?b] => destruct (Rgt_dec a b); [lra|]
         end.
  reflexivity.
Qed.

(** The self-check accepts the normalisers' own output: on what
    [norm_minmax] resp. [norm_sphere] return for an (N, 3) array with
    N >= 1 it returns [True] and prints none of the two warnings; on
    arrays of different shapes it returns [False]. *)
Theorem validate_normalization_accepts (V : list vec3) :
  V <> [] ->
  (exists N p msgs,
     norm_minmax (array3 V) = Ok (N, p) /\
     validate_normalization (array3 V) N p "Min-Max" = Ok (true, msgs) /\
     ~ In OutsideUnitRange msgs /\ ~ In OutsideUnitSphere msgs) /\
  (exists N p msgs,
     norm_sphere (array3 V) = Ok (N, p) /\
     validate_normalization (array3 V) N p "Unit Sphere" = Ok (true, msgs) /\
     ~ In OutsideUnitRange msgs /\ ~ In OutsideUnitSphere msgs) /\
  (forall a b p name, shape a <> shape b ->
     validate_normalization a b p name = Ok (false, [Validating; ShapeMismatch])).
Proof.
  intros HV. split; [|split].
  - destruct (norm_minmax_array3 V HV) as (v_min & v_max & Hmin & Hmax & E).
    destruct (min_axis0_spec V HV) as (v_min' & Hmin' & Hlo).
    destruct (max_axis0_spec V HV) as (v_max' & Hmax' & Hhi).
    rewrite Hmin in Hmin'. injection Hmin' as <-.
    rewrite Hmax in Hmax'. injection Hmax' as <-.
    set (N := map (fun v => vzip Rdiv (vzip Rminus v v_min)
                     (vmap zero_to_one (vzip Rminus v_max v_min))) V) in *.
    assert (HN : N <> []) by (subst N; destruct V; [congruence|discriminate]).
    assert (H01 : forall n a, In n N -> 0 <= get a n <= 1).
    { intros n a Hn. apply in_map_iff in Hn as (v & <- & Hv).
      pose proof (proj2 (Hlo a) _ Hv) as L.
      pose proof (proj2 (Hhi a) _ Hv) as U.
      destruct v as [[x y] z], v_min as [[lx ly] lz], v_max as [[hx hy] hz].
      destruct a; cbn [get vzip vmap] in *;
        apply minmax_component_range; lra. }
    destruct (min_axis0_spec N HN) as (n_min & Hnmin & Hnlo).
    destruct (max_axis0_spec N HN) as (n_max & Hnmax & Hnhi).
    assert (Hval : forall p,
              validate_normalization (array3 V) (array3 N) p "Min-Max"
              = Ok (true, [Validating; ShapesMatch;
                           NormalizedRange n_min n_max])).
    { intros p. unfold validate_normalization.
      destruct (list_eq_dec Nat.eq_dec (shape (array3 V)) (shape (array3 N)))
        as [_|Hsh];
        [|exfalso; apply Hsh; unfold array3, N; cbn [shape];
          now rewrite length_map].
      cbn [String.eqb Ascii.eqb Bool.eqb].
      change (data (array3 N)) with (flat3 N).
      rewrite rows3_flat3, Hnmin, Hnmax. cbn [bind].
      rewrite outside_unit_range_false; [reflexivity| |].
      - intros a. destruct (Hnlo a) as [Hin _].
        apply in_map_iff in Hin as (n & <- & Hn). now apply H01.
      - intros a. destruct (Hnhi a) as [Hin _].
        apply in_map_iff in Hin as (n & <- & Hn). now apply H01. }
    eexists _, _, _. split; [exact E|]. split; [apply Hval|].
    split; intros [H|[H|[H|H]]]; try discriminate H; exact H.
  - destruct (norm_sphere_array3 V HV) as (scale & Hs & E).
    set (N := map (vmap (fun x => x / zero_to_one scale))
                (map (fun v => vzip Rminus v (mean_axis0 V)) V)) in *.
    assert (HN : map norm3 N <> [])
      by (subst N; destruct V; [congruence|discriminate]).
    destruct (amax_spec _ HN) as (d & Hd & Hin & _).
    assert (Hd1 : d <= 1).
    { apply in_map_iff in Hin as (n & <- & Hn). subst N.
      apply in_map_iff in Hn as (u & <- & Hu).
      apply in_map_iff in Hu as (v & <- & Hv).
      now apply (sphere_row_bound V scale v Hs Hv). }
    assert (Hval : forall p,
              validate_normalization (array3 V) (array3 N) p "Unit Sphere"
              = Ok (true, [Validating; ShapesMatch; MaxDistance d])).
    { intros p. unfold validate_normalization.
      destruct (list_eq_dec Nat.eq_dec (shape (array3 V)) (shape (array3 N)))
        as [_|Hsh];
        [|exfalso; apply Hsh; unfold array3, N; cbn [shape];
          now rewrite !length_map].
      cbn [String.eqb Ascii.eqb Bool.eqb].
      change (data (array3 N)) with (flat3 N).
      rewrite rows3_flat3, Hd. cbn [bind].
      destruct (Rgt_dec d (1 + tolerance)) as [Hgt|_]; [|reflexivity].
      exfalso. unfold tolerance in Hgt. lra. }
    eexists _, _, _. split; [exact E|]. split; [apply Hval|].
    split; intros [H|[H|[H|H]]]; try discriminate H; exact H.
  - intros a b p name Hsh. unfold validate_normalization.
    destruct (list_eq_dec Nat.eq_dec (shape a) (shape b)); [contradiction|].
    reflexivity.
Qed.

Lemma validate_normalization_accepts_witness :
  test_vertices <> [] /\
  exists N p msgs,
    norm_minmax (array3 test_vertices) = Ok (N, p) /\
    validate_normalization (array3 test_vertices) N p "Min-Max"
      = Ok (true, msgs) /\
    ~ In OutsideUnitRange msgs /\ ~ In OutsideUnitSphere msgs.
Proof.
  assert (H : test_vertices <> []) by discriminate.
  split; [exact H|].
  exact (proj1 (validate_normalization_accepts test_vertices H)).
Defined.

(** ** Inverses and their dispatch *)

Lemma getitem_raises (k : string) (d : dict) (e : exception) :
  getitem k d = Raise e -> e = KeyError.
Proof.
  induction d as [|[k' v] d IH]; cbn [getitem].
  - intros H. now injection H.
  - destruct (String.eqb k' k); [discriminate | exact IH].
Qed.

Lemma as_row_raises (v : pyval) (e : exception) :
  as_row v = Raise e -> e = TypeError.
Proof. destruct v; cbn; intros H; try discriminate H. now injection H. Qed.

Lemma denorm_minmax_outcome (n : ndarray R) (p : dict) :
  (forall r, denorm_minmax n p = Ok r -> shape r = shape n) /\
  (forall e, denorm_minmax n p = Raise e -> e <> SystemExit).
Proof.
  unfold denorm_minmax.
  destruct (getitem "method" p) as [m|e0] eqn:Hm; cbn [bind];
    [|split; [discriminate|];
      intros e H; injection H as <-; rewrite (getitem_raises _ _ _ Hm);
      discriminate].
  destruct (differs_from "minmax" m);
    [split; [discriminate | intros e H; injection H as <-; discriminate]|].
  destruct (bad_shape n);
    [split; [discriminate | intros e H; injection H as <-; discriminate]|].
  destruct (getitem "v_min" p) as [lo|e1] eqn:H1; cbn [bind];
    [|split; [discriminate|];
      intros e H; injection H as <-; rewrite (getitem_raises _ _ _ H1);
      discriminate].
  destruct (getitem "v_max" p) as [hi|e2] eqn:H2; cbn [bind];
    [|split; [discriminate|];
      intros e H; injection H as <-; rewrite (getitem_raises _ _ _ H2);
      discriminate].
  destruct (as_row lo) as [v_min|e3] eqn:H3; cbn [bind];
    [|split; [discriminate|];
      intros e H; injection H as <-; rewrite (as_row_raises _ _ H3);
      discriminate].
  destruct (as_row hi) as [v_max|e4] eqn:H4; cbn [bind];
    [|split; [discriminate|];
      intros e H; injection H as <-; rewrite (as_row_raises _ _ H4);
      discriminate].
  split; [|discriminate]. intros r H. now injection H as <-.
Qed.

Lemma denorm_sphere_outcome (n : ndarray R) (p : dict) :
  (forall r, denorm_sphere n p = Ok r -> shape r = shape n) /\
  (forall e, denorm_sphere n p = Raise e -> e <> SystemExit).
Proof.
  unfold denorm_sphere.
  destruct (getitem "method" p) as [m|e0] eqn:Hm; cbn [bind];
    [|split; [discriminate|];
      intros e H; injection H as <-; rewrite (getitem_raises _ _ _ Hm);
      discriminate].
  destruct (differs_from "sphere" m);
    [split; [discriminate | intros e H; injection H as <-; discriminate]|].
  destruct (bad_shape n);
    [split; [discriminate | intros e H; injection H as <-; discriminate]|].
  destruct (getitem "center" p) as [c|e1] eqn:H1; cbn [bind];
    [|split; [discriminate|];
      intros e H; injection H as <-; rewrite (getitem_raises _ _ _ H1);
      discriminate].
  destruct (getitem "scale" p) as [s|e2] eqn:H2; cbn [bind];
    [|split; [discriminate|];
      intros e H; injection H as <-; rewrite (getitem_raises _ _ _ H2);
      discriminate].
  destruct (as_row c) as [center|e3] eqn:H3; cbn [bind];
    [|split; [discriminate|];
      intros e H; injection H as <-; rewrite (as_row_raises _ _ H3);
      discriminate].
  destruct (as_row s) as [scale|e4] eqn:H4; cbn [bind];
    [|split; [discriminate|];
      intros e H; injection H as <-; rewrite (as_row_raises _ _ H4);
      discriminate].
  split; [|discriminate]. intros r H. now injection H as <-.
Qed.

Lemma denormalize_outcome (n : ndarray R) (p : dict) :
  (forall r, denormalize n p = Ok r -> shape r = shape n) /\
  (forall e, denormalize n p = Raise e -> e <> SystemExit).
Proof.
  unfold denormalize.
  destruct (getitem "method" p) as [m|e0] eqn:Hm; cbn [bind];
    [|split; [discriminate|];
      intros e H; injection H as <-; rewrite (getitem_raises _ _ _ Hm);
      discriminate].
  destruct (negb (differs_from "minmax" m)); [apply denorm_minmax_outcome|].
  destruct (negb (differs_from "sphere" m)); [apply denorm_sphere_outcome|].
  split; [discriminate | intros e H; injection H as <-; discriminate].
Qed.

Lemma denormalize_tagged (n : ndarray R) (p : dict) :
  (getitem "method" p = Ok (PyStr "minmax") ->
     denormalize n p = denorm_minmax n p) /\
  (getitem "method" p = Ok (PyStr "sphere") ->
     denormalize n p = denorm_sphere n p).
Proof. split; intros H; unfold denormalize; rewrite H; reflexivity. Qed.

(** The order of the checks in [denormalize] and the two inverses: a
    record without a 'method' entry raises [KeyError]; a tag that is
    neither 'minmax' nor 'sphere' raises [ValueError]; with a known tag
    the shape is tested next ([ValueError]) and only then a missing field
    of the record raises [KeyError]. *)
Theorem denormalize_errors (n : ndarray R) (p : dict) :
  ((forall m, getitem "method" p <> Ok m) ->
     denormalize n p = Raise KeyError /\
     denorm_minmax n p = Raise KeyError /\
     denorm_sphere n p = Raise KeyError) /\
  (forall m, getitem "method" p = Ok m ->
     m <> PyStr "minmax" -> m <> PyStr "sphere" ->
     denormalize n p = Raise ValueError) /\
  (forall m, getitem "method" p = Ok m ->
     m = PyStr "minmax" \/ m = PyStr "sphere" ->
     bad_shape n = true -> denormalize n p = Raise ValueError) /\
  (getitem "method" p = Ok (PyStr "minmax") -> bad_shape n = false ->
     (forall v, getitem "v_min" p <> Ok v) \/
     (forall v, getitem "v_max" p <> Ok v) ->
     denormalize n p = Raise KeyError) /\
  (getitem "method" p = Ok (PyStr "sphere") -> bad_shape n = false ->
     (forall v, getitem "center" p <> Ok v) \/
     (forall v, getitem "scale" p <> Ok v) ->
     denormalize n p = Raise KeyError).
Proof.
  assert (Hmiss : forall k, (forall v, getitem k p <> Ok v) ->
            getitem k p = Raise KeyError).
  { intros k H. destruct (getitem k p) as [v|e] eqn:E.
    - now destruct (H v).
    - now rewrite (getitem_raises _ _ _ E). }
  split; [|split; [|split; [|split]]].
  - intros H. apply Hmiss in H.
    unfold denormalize, denorm_minmax, denorm_sphere. now rewrite H.
  - intros m Hm N1 N2. unfold denormalize. rewrite Hm. cbn [bind].
    now rewrite !differs_from_neq.
  - intros m Hm [-> | ->] Hsh.
    + rewrite (proj1 (denormalize_tagged n p) Hm).
      unfold denorm_minmax. rewrite Hm. cbn. now rewrite Hsh.
    + rewrite (proj2 (denormalize_tagged n p) Hm).
      unfold denorm_sphere. rewrite Hm. cbn. now rewrite Hsh.
  - intros Hm Hsh H. rewrite (proj1 (denormalize_tagged n p) Hm).
    unfold denorm_minmax. rewrite Hm. cbn [bind differs_from String.eqb
      Ascii.eqb Bool.eqb negb]. rewrite Hsh.
    destruct H as [H|H]; apply Hmiss in H.
    + now rewrite H.
    + rewrite H. now destruct (getitem "v_min" p) as [v|e] eqn:E;
        [|rewrite (getitem_raises _ _ _ E)].
  - intros Hm Hsh H. rewrite (proj2 (denormalize_tagged n p) Hm).
    unfold denorm_sphere. rewrite Hm. cbn [bind differs_from String.eqb
      Ascii.eqb Bool.eqb negb]. rewrite Hsh.
    destruct H as [H|H]; apply Hmiss in H.
    + now rewrite H.
    + rewrite H. now destruct (getitem "center" p) as [v|e] eqn:E;
        [|rewrite (getitem_raises _ _ _ E)].
Qed.

Lemma denormalize_errors_witness :
  (forall m, getitem "method" [] <> Ok m) /\
  denormalize (array3 test_vertices) [] = Raise KeyError.
Proof.
  assert (H : forall m, getitem "method" [] <> Ok m) by (intros m; discriminate).
  split; [exact H|].
  exact (proj1 (proj1 (denormalize_errors (array3 test_vertices) []) H)).
Defined.

Lemma denorm_minmax_norm (V : list vec3) :
  V <> [] ->
  exists N p,
    norm_minmax (array3 V) = Ok (N, p) /\
    getitem "method" p = Ok (PyStr "minmax") /\
    denorm_minmax N p = Ok (array3 V).
Proof.
  intros HV.
  destruct (norm_minmax_array3 V HV) as (v_min & v_max & Hmin & Hmax & E).
  destruct (min_axis0_spec V HV) as (v_min' & Hmin' & Hlo).
  destruct (max_axis0_spec V HV) as (v_max' & Hmax' & Hhi).
  rewrite Hmin in Hmin'. injection Hmin' as <-.
  rewrite Hmax in Hmax'. injection Hmax' as <-.
  eexists _, _. split; [exact E|]. split; [reflexivity|].
  unfold denorm_minmax.
  cbn [getitem String.eqb Ascii.eqb Bool.eqb bind differs_from negb as_row].
  unfold array3. rewrite bad_shape_rows. cbn [shape data].
  rewrite rows3_flat3, map_map, length_map. do 3 f_equal.
  rewrite <- (map_id V) at 2. apply map_ext_in.
  intros [[x y] z] Hv.
  pose proof (proj2 (Hlo AxisX) _ Hv). pose proof (proj2 (Hlo AxisY) _ Hv).
  pose proof (proj2 (Hlo AxisZ) _ Hv). pose proof (proj2 (Hhi AxisX) _ Hv).
  pose proof (proj2 (Hhi AxisY) _ Hv). pose proof (proj2 (Hhi AxisZ) _ Hv).
  destruct v_min as [[lx ly] lz], v_max as [[hx hy] hz]. cbn in *.
  now rewrite !minmax_component_roundtrip by lra.
Qed.

Lemma denorm_sphere_norm (V : list vec3) :
  V <> [] ->
  exists N p,
    norm_sphere (array3 V) = Ok (N, p) /\
    getitem "method" p = Ok (PyStr "sphere") /\
    denorm_sphere N p = Ok (array3 V).
Proof.
  intros HV.
  destruct (norm_sphere_array3 V HV) as (scale & Hs & E).
  eexists _, _. split; [exact E|]. split; [reflexivity|].
  unfold denorm_sphere.
  cbn [getitem String.eqb Ascii.eqb Bool.eqb bind differs_from negb as_row].
  unfold array3. rewrite bad_shape_rows. cbn [shape data].
  rewrite rows3_flat3, !map_map, !length_map. do 3 f_equal.
  rewrite <- (map_id V) at 2. apply map_ext.
  intros [[x y] z]. destruct (mean_axis0 V) as [[cx cy] cz]. cbn.
  pose proof (zero_to_one_neq scale) as Hn.
  f_equal; [f_equal|]; field; exact Hn.
Qed.

(** [denormalize] picks the right inverse from the record alone: applied
    to what either normaliser returned for an (N, 3) array with N >= 1 it
    gives the original array back (exact arithmetic). *)
Theorem denormalize_inverts (V : list vec3) :
  V <> [] ->
  (np <- norm_minmax (array3 V) ;; denormalize (fst np) (snd np))
    = Ok (array3 V) /\
  (np <- norm_sphere (array3 V) ;; denormalize (fst np) (snd np))
    = Ok (array3 V).
Proof.
  intros HV. split.
  - destruct (denorm_minmax_norm V HV) as (N & p & -> & Hm & E).
    cbn [bind fst snd].
    now rewrite (proj1 (denormalize_tagged N p) Hm).
  - destruct (denorm_sphere_norm V HV) as (N & p & -> & Hm & E).
    cbn [bind fst snd].
    now rewrite (proj2 (denormalize_tagged N p) Hm).
Qed.

Lemma denormalize_inverts_witness :
  test_vertices <> [] /\
  (np <- norm_minmax (array3 test_vertices) ;; denormalize (fst np) (snd np))
    = Ok (array3 test_vertices) /\
  (np <- norm_sphere (array3 test_vertices) ;; denormalize (fst np) (snd np))
    = Ok (array3 test_vertices).
Proof.
  assert (H : test_vertices <> []) by discriminate.
  split; [exact H|]. exact (denormalize_inverts test_vertices H).
Defined.

(** ** Reconstruction from saved data (steps 5, 6 and 7) *)

Lemma dequantize_outcome (q : ndarray Z) (bins : Z) (method : string) :
  (forall d, dequantize q bins method = Ok d ->
     shape d = shape q /\ bad_shape q = false /\
     (method = "minmax"%string \/ method = "sphere"%string)) /\
  (forall e, dequantize q bins method = Raise e -> e = ValueError).
Proof.
  destruct (known_method_dec method) as [Hm|[N1 N2]].
  - destruct (bad_shape q) eqn:Hsh.
    + unfold dequantize. rewrite Hsh.
      split; [discriminate | intros e H; now injection H].
    + rewrite dequantize_good_shape by assumption.
      split; [|discriminate]. intros d H. injection H as <-. auto.
  - rewrite dequantize_unknown by assumption.
    split; [discriminate | intros e H; now injection H].
Qed.




Lemma saved_then_reconstructed (V N : list vec3) (method : string)
    (norm_func : ndarray R -> result (ndarray R * dict)) (p : dict) :
  N <> [] -> length N = length V ->
  method = "minmax"%string \/ method = "sphere"%string ->
  norm_func (array3 V) = Ok (array3 N, p) ->
  getitem "method" p = Ok (PyStr method) ->
  exists q,
    process_mesh_file_saved (array3 V) method norm_func = Ok (q, p) /\
    shape q = shape (array3 V) /\
    (forall z, In z (data q) -> (0 <= z <= BINS - 1)%Z) /\
    process_mesh_reconstruction (array3 V) q p method
      = codec norm_func method BINS (array3 V) /\
    load_reconstructed_mesh q p method
      = codec norm_func method BINS (array3 V).
Proof.
  intros HN Hlen Hm Hnorm Htag.
  assert (HB : (2 <= BINS)%Z) by (unfold BINS; lia).
  destruct (quantize_lattice (array3 N) BINS method HB eq_refl Hm)
    as (q & Hq & Hshape & Hqlen & Hrange & _ & _ & _).
  assert (Hqsh : bad_shape q = false).
  { unfold bad_shape, ndim. now rewrite Hshape. }
  assert (Hqne : data q <> []).
  { intros E. rewrite E in Hqlen. cbn [length data array3] in Hqlen.
    rewrite flat3_length in Hqlen.
    destruct N; [congruence | cbn in Hqlen; lia]. }
  destruct (proj2 (lattice_check_passes q BINS Hrange) Hqne)
    as (lo & hi & Hchk).
  pose proof (dequantize_good_shape q BINS method Hqsh Hm) as Hd.
  set (n := mk_ndarray (shape q)
              (map (dequantize_component BINS method) (data q))) in *.
  assert (Hcodec : codec norm_func method BINS (array3 V) = denormalize n p).
  { unfold codec. rewrite Hnorm. cbn [bind fst snd]. rewrite Hq. cbn [bind].
    now rewrite Hd. }
  assert (HshV : shape q = shape (array3 V)).
  { rewrite Hshape. unfold array3. cbn [shape]. now rewrite Hlen. }
  exists q. split; [|split; [exact HshV|split; [exact Hrange|split]]].
  - unfold process_mesh_file_saved. rewrite Hnorm. cbn [bind fst snd].
    rewrite Hq. cbn [bind]. rewrite Hchk. cbn [bind]. now rewrite Hd.
  - rewrite Hcodec. unfold process_mesh_reconstruction.
    destruct (list_eq_dec Nat.eq_dec (shape q) (shape (array3 V)))
      as [_|Hbad]; [|contradiction].
    rewrite Htag. cbn [bind]. rewrite Hd. cbn [bind].
    assert (Hdata : data n <> []).
    { subst n. cbn [data]. destruct (data q); [congruence | discriminate]. }
    destruct (amin_spec _ Hdata) as (a1 & -> & _).
    destruct (amax_spec _ Hdata) as (a2 & -> & _). cbn [bind].
    assert (Hrows : exists d,
              (if String.eqb method "minmax" then Ok 0
               else amax (map norm3 (rows3 (data n)))) = Ok d).
    { destruct (String.eqb method "minmax"); [now exists 0|].
      destruct (amax_spec (map norm3 (rows3 (data n)))) as (d & -> & _);
        [|now exists d].
      subst n. cbn [data].
      destruct (data q) as [|z1 [|z2 [|z3 t]]] eqn:Eq;
        try discriminate.
      all: exfalso; cbn [length data array3] in Hqlen;
        rewrite flat3_length in Hqlen; cbn [length] in Hqlen;
        destruct N; [congruence | cbn [length] in Hqlen; lia]. }
    destruct Hrows as (d & ->). cbn [bind].
    destruct (denormalize n p) as [r|e] eqn:Hr; cbn [bind]; [|reflexivity].
    apply (proj1 (denormalize_outcome _ _)) in Hr.
    destruct (list_eq_dec Nat.eq_dec (shape r) (shape (array3 V)))
      as [_|Hbad]; [reflexivity|].
    exfalso. apply Hbad. rewrite Hr. exact HshV.
  - rewrite Hcodec. unfold load_reconstructed_mesh.
    change 1024%Z with BINS. rewrite Hd. cbn [bind].
    destruct Hm as [-> | ->]; cbn [String.eqb Ascii.eqb Bool.eqb].
    + now rewrite (proj1 (denormalize_tagged n p) Htag).
    + now rewrite (proj2 (denormalize_tagged n p) Htag).
Qed.

(** What step 4 saves is what steps 5, 6 and 7 need: for every (N, 3)
    array with N >= 1 and both methods, [process_mesh_file] reaches its
    save statements with a lattice of the shape of the input and bins in
    [0, 1023], and both [process_mesh_reconstruction] and
    [load_reconstructed_mesh], given that lattice and record, return the
    array of the whole chain with 1024 bins; no exit branch is taken. *)
Theorem pipeline_reconstructs (V : list vec3) :
  V <> [] ->
  (exists q p W,
     process_mesh_file_saved (array3 V) "minmax" norm_minmax = Ok (q, p) /\
     shape q = shape (array3 V) /\
     (forall z, In z (data q) -> (0 <= z <= 1023)%Z) /\
     codec norm_minmax "minmax" BINS (array3 V) = Ok (array3 W) /\
     process_mesh_reconstruction (array3 V) q p "minmax" = Ok (array3 W) /\
     load_reconstructed_mesh q p "minmax" = Ok (array3 W)) /\
  (exists q p W,
     process_mesh_file_saved (array3 V) "sphere" norm_sphere = Ok (q, p) /\
     shape q = shape (array3 V) /\
     (forall z, In z (data q) -> (0 <= z <= 1023)%Z) /\
     codec norm_sphere "sphere" BINS (array3 V) = Ok (array3 W) /\
     process_mesh_reconstruction (array3 V) q p "sphere" = Ok (array3 W) /\
     load_reconstructed_mesh q p "sphere" = Ok (array3 W)).
Proof.
  intros HV. split.
  - destruct (norm_minmax_array3 V HV) as (v_min & v_max & _ & _ & E).
    destruct (codec_minmax_array3 V BINS HV) as (? & ? & _ & _ & Ec).
    match type of E with _ = Ok (array3 ?N', ?p') =>
      destruct (saved_then_reconstructed V N' "minmax" norm_minmax p')
        as (q & Hs & Hsh & Hr & H5 & H6)
    end; try (now left); try exact E; try reflexivity.
    { destruct V; [congruence | discriminate]. }
    { now rewrite length_map. }
    eexists q, _, _. split; [exact Hs|]. split; [exact Hsh|].
    split; [exact Hr|]. split; [exact Ec|].
    split; [now rewrite H5 | now rewrite H6].
  - destruct (norm_sphere_array3 V HV) as (scale & _ & E).
    destruct (codec_sphere_array3 V BINS HV) as (? & _ & Ec).
    match type of E with _ = Ok (array3 ?N', ?p') =>
      destruct (saved_then_reconstructed V N' "sphere" norm_sphere p')
        as (q & Hs & Hsh & Hr & H5 & H6)
    end; try (now right); try exact E; try reflexivity.
    { destruct V; [congruence | discriminate]. }
    { now rewrite !length_map. }
    eexists q, _, _. split; [exact Hs|]. split; [exact Hsh|].
    split; [exact Hr|]. split; [exact Ec|].
    split; [now rewrite H5 | now rewrite H6].
Qed.

Lemma pipeline_reconstructs_witness :
  test_vertices <> [] /\
  exists q p W,
    process_mesh_file_saved (array3 test_vertices) "minmax" norm_minmax
      = Ok (q, p) /\
    shape q = shape (array3 test_vertices) /\
    (forall z, In z (data q) -> (0 <= z <= 1023)%Z) /\
    codec norm_minmax "minmax" BINS (array3 test_vertices) = Ok (array3 W) /\
    process_mesh_reconstruction (array3 test_vertices) q p "minmax"
      = Ok (array3 W) /\
    load_reconstructed_mesh q p "minmax" = Ok (array3 W).
Proof.
  assert (H : test_vertices <> []) by discriminate.
  split; [exact H|]. exact (proj1 (pipeline_reconstructs test_vertices H)).
Defined.

(** [load_reconstructed_mesh] trusts its method argument, not the record:
    when the record is tagged with the other method the call raises
    [ValueError] (after a successful dequantisation), and an unknown method
    argument raises [ValueError] already in [dequantize]. *)
Theorem load_reconstructed_mismatch (q : ndarray Z) (params : dict)
    (method : string) (m : pyval) :
  getitem "method" params = Ok m ->
  m <> PyStr method ->
  load_reconstructed_mesh q params method = Raise ValueError.
Proof.
  intros Hm Hne. unfold load_reconstructed_mesh.
  destruct (dequantize q 1024 method) as [n|e] eqn:Hd; cbn [bind].
  - destruct (proj1 (dequantize_outcome _ _ _) _ Hd) as (_ & _ & [-> | ->]);
      cbn [String.eqb Ascii.eqb Bool.eqb].
    + unfold denorm_minmax. rewrite Hm. cbn [bind].
      now rewrite differs_from_neq.
    + unfold denorm_sphere. rewrite Hm. cbn [bind].
      now rewrite differs_from_neq.
  - now rewrite (proj2 (dequantize_outcome _ _ _) _ Hd).
Qed.

Lemma load_reconstructed_mismatch_witness :
  getitem "method"
    [("method", PyStr "sphere"); ("center", PyVec (0, 0, 0));
     ("scale", PyFloat 1)]%string = Ok (PyStr "sphere") /\
  PyStr "sphere" <> PyStr "minmax" /\
  load_reconstructed_mesh (mk_ndarray [1%nat; 3%nat] [0; 341; 1023]%Z)
    [("method", PyStr "sphere"); ("center", PyVec (0, 0, 0));
     ("scale", PyFloat 1)]%string "minmax" = Raise ValueError.
Proof.
  assert (H1 : getitem "method"
                 [("method", PyStr "sphere"); ("center", PyVec (0, 0, 0));
                  ("scale", PyFloat 1)]%string = Ok (PyStr "sphere"))
    by reflexivity.
  assert (H2 : PyStr "sphere" <> PyStr "minmax") by discriminate.
  split; [exact H1|]. split; [exact H2|].
  exact (load_reconstructed_mismatch _ _ "minmax" _ H1 H2).
Defined.

(** ** Error metrics: failures, relations between the figures *)

Lemma compute_errors_array3_full (O W : list vec3) :
  O <> [] -> length O = length W ->
  exists mx mn,
    amax (map norm3 (spec_diff O W)) = Ok mx /\
    amin (map norm3 (spec_diff O W)) = Ok mn /\
    compute_errors (array3 O) (array3 W) =
      Ok (mk_metrics
            (mean (map Rsqr (flat3 (spec_diff O W))))
            (mean (map Rabs (flat3 (spec_diff O W))))
            (mean_axis0 (map (vmap Rsqr) (spec_diff O W)))
            (mean_axis0 (map (vmap Rabs) (spec_diff O W)))
            mx mn (std (map norm3 (spec_diff O W)))
            (map norm3 (spec_diff O W))
            (map Rabs (flat3 (spec_diff O W)))).
Proof.
  intros HO Hlen.
  assert (Hne : map norm3 (spec_diff O W) <> []).
  { destruct O as [|o O]; [congruence|]. destruct W as [|w W];
      discriminate. }
  destruct (amax_spec _ Hne) as (mx & Hmx & _).
  destruct (amin_spec _ Hne) as (mn & Hmn & _).
  exists mx, mn. split; [assumption|]. split; [assumption|].
  unfold compute_errors.
  destruct (list_eq_dec Nat.eq_dec (shape (array3 O)) (shape (array3 W)))
    as [_|Hsh]; [|exfalso; apply Hsh; unfold array3; cbn [shape]; congruence].
  cbn [data array3]. rewrite zip_with_flat3, !rows3_map_flat3, rows3_flat3.
  fold (spec_diff O W). rewrite Hmx, Hmn. reflexivity.
Qed.

Lemma spec_diff_length (O W : list vec3) :
  length O = length W -> length (spec_diff O W) = length O.
Proof.
  revert W. induction O as [|o O IH]; intros [|w W] H; try discriminate;
    [reflexivity|].
  cbn [spec_diff zip_with length]. f_equal. apply IH. now injection H.
Qed.

Lemma column_vmap (f : R -> R) (a : axis) (D : list vec3) :
  column a (map (vmap f) D) = map (fun d => f (get a d)) D.
Proof.
  unfold column. rewrite map_map. apply map_ext.
  intros [[x y] z]. now destruct a.
Qed.

Lemma sum_plus3 (f g h : vec3 -> R) (D : list vec3) :
  sum (map (fun d => f d + g d + h d) D)
  = sum (map f D) + sum (map g D) + sum (map h D).
Proof.
  induction D as [|d D IH]; [cbn; lra|].
  cbn [map]. unfold sum in *. cbn [fold_right]. rewrite IH. lra.
Qed.

Lemma INR_3 : INR 3 = 3.
Proof. cbn. lra. Qed.

Lemma mean_total_per_axis (f : R -> R) (D : list vec3) :
  D <> [] ->
  mean (map f (flat3 D))
  = (get AxisX (mean_axis0 (map (vmap f) D))
     + get AxisY (mean_axis0 (map (vmap f) D))
     + get AxisZ (mean_axis0 (map (vmap f) D))) / 3.
Proof.
  intros HD. rewrite mean_flat3. unfold mean_axis0. cbn [get].
  rewrite !column_vmap. unfold mean. rewrite !length_map, sum_plus3.
  assert (Hn : INR (length D) <> 0).
  { apply not_0_INR. destruct D; [congruence | discriminate]. }
  rewrite mult_INR, INR_3. field. exact Hn.
Qed.

Lemma sum_nonneg (l : list R) : (forall x, In x l -> 0 <= x) -> 0 <= sum l.
Proof.
  induction l as [|x l IH]; intros H; [cbn; lra|].
  unfold sum in *. cbn [fold_right].
  pose proof (H x (or_introl eq_refl)).
  assert (0 <= fold_right Rplus 0 l) by (apply IH; intros y Hy; apply H; now right).
  lra.
Qed.

Lemma mean_nonneg (l : list R) : (forall x, In x l -> 0 <= x) -> 0 <= mean l.
Proof.
  intros H. unfold mean. destruct l as [|x l].
  - cbn. unfold Rdiv. rewrite Rmult_0_l. lra.
  - apply Rmult_le_pos; [now apply sum_nonneg|].
    left. apply Rinv_0_lt_compat, lt_0_INR. cbn. lia.
Qed.

(** The figures [compute_errors] returns for two (N, 3) arrays of the same
    shape, N >= 1, fit together: the total MSE and MAE are the averages of
    their three per-axis values, the total MSE is a third of the mean
    squared per-vertex error, every per-vertex error lies between
    [min_error] and [max_error], and nothing is negative. *)
Theorem compute_errors_relations (O W : list vec3) :
  O <> [] -> length O = length W ->
  exists m,
    compute_errors (array3 O) (array3 W) = Ok m /\
    mse_total m = (get AxisX (mse_per_axis m) + get AxisY (mse_per_axis m)
                   + get AxisZ (mse_per_axis m)) / 3 /\
    mae_total m = (get AxisX (mae_per_axis m) + get AxisY (mae_per_axis m)
                   + get AxisZ (mae_per_axis m)) / 3 /\
    mse_total m = mean (map Rsqr (per_vertex_error m)) / 3 /\
    length (per_vertex_error m) = length O /\
    (forall e, In e (per_vertex_error m) ->
       0 <= min_error m <= e /\ e <= max_error m) /\
    0 <= mse_total m /\ 0 <= mae_total m /\ 0 <= std_error m.
Proof.
  intros HO Hlen.
  destruct (compute_errors_array3_full O W HO Hlen)
    as (mx & mn & Hmx & Hmn & E).
  pose proof (spec_diff_length O W Hlen) as HDlen.
  set (D := spec_diff O W) in *.
  assert (HD : D <> []).
  { intros E0. rewrite E0 in HDlen. destruct O; [congruence | discriminate]. }
  eexists. split; [exact E|].
  cbn [mse_total mae_total mse_per_axis mae_per_axis per_vertex_error
       max_error min_error std_error].
  split; [now apply mean_total_per_axis|].
  split; [now apply mean_total_per_axis|].
  split.
  { rewrite mean_flat3. unfold mean. rewrite !length_map, map_map.
    rewrite (map_ext (fun d => Rsqr (norm3 d))
               (fun d => Rsqr (get AxisX d) + Rsqr (get AxisY d)
                         + Rsqr (get AxisZ d)) norm3_sqr).
    assert (Hn : INR (length D) <> 0).
    { apply not_0_INR. destruct D; [congruence | discriminate]. }
    rewrite mult_INR, INR_3. field. exact Hn. }
  split; [now rewrite length_map|].
  assert (Hne : map norm3 D <> []) by (destruct D; [congruence|discriminate]).
  destruct (amax_spec _ Hne) as (mx' & Hmx' & _ & Hmx_le).
  destruct (amin_spec _ Hne) as (mn' & Hmn' & Hmn_in & Hmn_le).
  rewrite Hmx in Hmx'. injection Hmx' as <-.
  rewrite Hmn in Hmn'. injection Hmn' as <-.
  split.
  { intros e He. split; [split|].
    - apply in_map_iff in Hmn_in as (d & <- & _). apply norm3_nonneg.
    - now apply Hmn_le.
    - now apply Hmx_le. }
  split; [|split].
  - apply mean_nonneg. intros x Hx. apply in_map_iff in Hx as (y & <- & _).
    apply Rle_0_sqr.
  - apply mean_nonneg. intros x Hx. apply in_map_iff in Hx as (y & <- & _).
    apply Rabs_pos.
  - apply sqrt_pos.
Qed.

Lemma compute_errors_relations_witness :
  test_vertices <> [] /\
  length test_vertices = length (map (vmap (fun x => x + 1)) test_vertices) /\
  exists m,
    compute_errors (array3 test_vertices)
      (array3 (map (vmap (fun x => x + 1)) test_vertices)) = Ok m /\
    mse_total m = mean (map Rsqr (per_vertex_error m)) / 3.
Proof.
  assert (H1 : test_vertices <> []) by discriminate.
  assert (H2 : length test_vertices
               = length (map (vmap (fun x => x + 1)) test_vertices))
    by reflexivity.
  split; [exact H1|]. split; [exact H2|].
  destruct (compute_errors_relations _ _ H1 H2) as (m & E & _ & _ & H & _).
  exists m. split; [exact E | exact H].
Defined.



Lemma sum_zero_inv (l : list R) :
  (forall x, In x l -> 0 <= x) -> sum l = 0 -> forall x, In x l -> x = 0.
Proof.
  induction l as [|y l IH]; intros Hpos Hs x Hx; [contradiction|].
  unfold sum in *. cbn [fold_right] in Hs.
  pose proof (Hpos y (or_introl eq_refl)).
  assert (Hl : forall z, In z l -> 0 <= z) by (intros z Hz; apply Hpos; now right).
  pose proof (sum_nonneg l Hl) as Hn. unfold sum in Hn.
  destruct Hx as [<-|Hx]; [lra|].
  apply IH; [assumption | lra | assumption].
Qed.

Lemma spec_diff_zero (O W : list vec3) :
  length O = length W ->
  (forall d, In d (spec_diff O W) -> d = (0, 0, 0)) -> O = W.
Proof.
  revert W. induction O as [|[[x y] z] O IH]; intros [|[[x' y'] z'] W] Hlen H;
    try discriminate; [reflexivity|].
  cbn [spec_diff zip_with vzip] in H.
  pose proof (H _ (or_introl eq_refl)) as H0. injection H0 as Hx Hy Hz.
  f_equal.
  - f_equal; [f_equal|]; lra.
  - apply IH; [now injection Hlen|]. intros d Hd. apply H. now right.
Qed.

Lemma norm3_zero_inv (d : vec3) : norm3 d = 0 -> d = (0, 0, 0).
Proof.
  intros H.
  pose proof (component_le_norm3 AxisX d) as Hx.
  pose proof (component_le_norm3 AxisY d) as Hy.
  pose proof (component_le_norm3 AxisZ d) as Hz.
  rewrite H in Hx, Hy, Hz. destruct d as [[x y] z]. cbn [get] in *.
  pose proof (Rabs_pos x). pose proof (Rabs_pos y). pose proof (Rabs_pos z).
  assert (Rabs x = 0) by lra. assert (Rabs y = 0) by lra.
  assert (Rabs z = 0) by lra.
  f_equal; [f_equal|];
    match goal with |- ?t = 0 =>
      destruct (Req_dec t 0) as [E|N]; [exact E|];
      apply Rabs_no_R0 in N; contradiction
    end.
Qed.

(** The reported error is zero only for an exact reconstruction: for two
    (N, 3) arrays of the same shape, N >= 1, the total MSE is 0 exactly
    when the arrays are equal, and so is the maximal per-vertex error. *)
Theorem compute_errors_zero_iff (O W : list vec3) :
  O <> [] -> length O = length W ->
  exists m,
    compute_errors (array3 O) (array3 W) = Ok m /\
    (mse_total m = 0 <-> O = W) /\
    (max_error m = 0 <-> O = W).
Proof.
  intros HO Hlen.
  destruct (compute_errors_array3_full O W HO Hlen)
    as (mx & mn & Hmx & Hmn & E).
  pose proof (spec_diff_length O W Hlen) as HDlen.
  assert (Hn : INR (3 * length (spec_diff O W)) <> 0).
  { apply not_0_INR. rewrite HDlen. destruct O; [congruence | cbn; lia]. }
  assert (Hne : map norm3 (spec_diff O W) <> []).
  { destruct O as [|o O]; [congruence|]. destruct W; discriminate. }
  destruct (amax_spec _ Hne) as (mx' & Hmx' & Hmx_in & Hmx_le).
  rewrite Hmx in Hmx'. injection Hmx' as <-.
  assert (Hself : O = W -> forall d, In d (spec_diff O W) -> d = (0, 0, 0)).
  { intros <-. apply spec_diff_self. }
  eexists. split; [exact E|]. cbn [mse_total max_error]. split; split.
  - intros H0. apply spec_diff_zero; [assumption|]. intros d Hd.
    rewrite mean_flat3 in H0.
    assert (Hs : sum (map (fun d => Rsqr (get AxisX d) + Rsqr (get AxisY d)
                                    + Rsqr (get AxisZ d)) (spec_diff O W)) = 0).
    { apply (Rmult_eq_reg_r (/ INR (3 * length (spec_diff O W))));
        [|now apply Rinv_neq_0_compat].
      rewrite Rmult_0_l. exact H0. }
    assert (Hd0 : Rsqr (get AxisX d) + Rsqr (get AxisY d) + Rsqr (get AxisZ d)
                  = 0).
    { refine (sum_zero_inv _ _ Hs _ _).
      - intros x Hx. apply in_map_iff in Hx as (d' & <- & _).
        pose proof (Rle_0_sqr (get AxisX d')).
        pose proof (Rle_0_sqr (get AxisY d')).
        pose proof (Rle_0_sqr (get AxisZ d')). lra.
      - apply in_map_iff. now exists d. }
    apply norm3_zero_inv. destruct d as [[x y] z]. cbn [get] in Hd0.
    cbn [norm3]. rewrite Hd0. apply sqrt_0.
  - intros Heq. rewrite mean_flat3, sum_zero;
      [unfold Rdiv; now rewrite Rmult_0_l|].
    intros x Hx. apply in_map_iff in Hx as (d & <- & Hd).
    rewrite (Hself Heq d Hd). cbn [get]. rewrite Rsqr_0. lra.
  - intros H0. apply spec_diff_zero; [assumption|]. intros d Hd.
    apply norm3_zero_inv.
    pose proof (Hmx_le (norm3 d) (in_map norm3 _ _ Hd)).
    pose proof (norm3_nonneg d). lra.
  - intros Heq. apply in_map_iff in Hmx_in as (d & <- & Hd).
    rewrite (Hself Heq d Hd). apply norm3_zero.
Qed.

Lemma compute_errors_zero_iff_witness :
  test_vertices <> [] /\
  length test_vertices = length test_vertices /\
  exists m,
    compute_errors (array3 test_vertices) (array3 test_vertices) = Ok m /\
    (mse_total m = 0 <-> test_vertices = test_vertices) /\
    (max_error m = 0 <-> test_vertices = test_vertices).
Proof.
  assert (H : test_vertices <> []) by discriminate.
  split; [exact H|]. split; [reflexivity|].
  exact (compute_errors_zero_iff test_vertices test_vertices H eq_refl).
Defined.

(** ** The comparison figures of step 7 *)

Lemma norm3_abs (d : vec3) : norm3 (vmap Rabs d) = norm3 d.
Proof.
  destruct d as [[x y] z]. cbn [vmap norm3]. now rewrite <- !Rsqr_abs.
Qed.

(** The text panel of [create_comparison_plot] shows the figures of
    [compute_errors]: for two (N, 3) arrays of the same shape, N >= 1, its
    MSE, MAE, largest error magnitude and per-axis MAE are the
    [mse_total], [mae_total], [max_error] and [mae_per_axis] of step 6; on
    arrays of different shapes [visualize_mesh] skips the plot. *)
Theorem comparison_agrees (O W : list vec3) :
  O <> [] -> length O = length W ->
  (exists m c,
     compute_errors (array3 O) (array3 W) = Ok m /\
     visualize_method (array3 O) (array3 W) = Some (Ok c) /\
     cmp_mse c = mse_total m /\ cmp_mae c = mae_total m /\
     cmp_max_error c = max_error m /\
     cmp_mae_per_axis c = mae_per_axis m) /\
  (forall a b, shape b <> shape a -> visualize_method a b = None).
Proof.
  intros HO Hlen. split.
  - destruct (compute_errors_array3_full O W HO Hlen)
      as (mx & mn & Hmx & Hmn & E).
    eexists _, _. split; [exact E|].
    unfold visualize_method.
    destruct (list_eq_dec Nat.eq_dec (shape (array3 W)) (shape (array3 O)))
      as [_|Hsh];
      [|exfalso; apply Hsh; unfold array3; cbn [shape]; congruence].
    unfold create_comparison_plot. cbn [data array3].
    rewrite zip_with_flat3. fold (spec_diff O W).
    rewrite !rows3_map_flat3, map_map.
    rewrite (map_ext _ _ norm3_abs), Hmx. cbn [bind].
    split; [reflexivity|].
    cbn [cmp_mse cmp_mae cmp_max_error cmp_mae_per_axis mse_total mae_total
         max_error mae_per_axis].
    rewrite !map_map.
    rewrite (map_ext (fun x => Rsqr (Rabs x)) Rsqr
               (fun x => eq_sym (Rsqr_abs x))).
    rewrite (map_ext (fun x => Rabs (Rabs x)) Rabs Rabs_Rabsolu).
    rewrite rows3_map_flat3. repeat split; reflexivity.
  - intros a b Hsh. unfold visualize_method.
    destruct (list_eq_dec Nat.eq_dec (shape b) (shape a)); [contradiction|].
    reflexivity.
Qed.

Lemma comparison_agrees_witness :
  test_vertices <> [] /\
  length test_vertices = length (map (vmap (fun x => x + 1)) test_vertices) /\
  exists m c,
    compute_errors (array3 test_vertices)
      (array3 (map (vmap (fun x => x + 1)) test_vertices)) = Ok m /\
    visualize_method (array3 test_vertices)
      (array3 (map (vmap (fun x => x + 1)) test_vertices)) = Some (Ok c) /\
    cmp_mse c = mse_total m /\ cmp_mae c = mae_total m /\
    cmp_max_error c = max_error m /\
    cmp_mae_per_axis c = mae_per_axis m.
Proof.
  assert (H1 : test_vertices <> []) by discriminate.
  assert (H2 : length test_vertices
               = length (map (vmap (fun x => x + 1)) test_vertices))
    by reflexivity.
  split; [exact H1|]. split; [exact H2|].
  exact (proj1 (comparison_agrees _ _ H1 H2)).
Defined.

(** ** Error metrics of the whole chain *)

Lemma zip_with_map_r {A B C : Type} (f : A -> B -> C) (g : A -> B)
    (l : list A) :
  zip_with f l (map g l) = map (fun a => f a (g a)) l.
Proof. induction l as [|a l IH]; [reflexivity|]. cbn. now rewrite IH. Qed.

Lemma codec_minmax_component_sqr (bins : Z) (lo hi x : R) :
  (2 <= bins <= int32_max + 1)%Z -> lo <= x <= hi ->
  Rsqr (x - codec_minmax_component bins lo hi x)
  <= Rsqr ((hi - lo) / IZR (bins - 1)).
Proof.
  intros Hb Hx. apply Rsqr_le_abs_1.
  pose proof (minmax_component_error bins x lo hi Hb Hx) as H.
  fold (codec_minmax_component bins lo hi x) in H.
  rewrite Rabs_minus_sym.
  assert (Hn : 1 <= IZR (bins - 1)) by (apply IZR_le; lia).
  rewrite (Rabs_pos_eq ((hi - lo) / IZR (bins - 1))); [exact H|].
  apply Rmult_le_pos; [lra|]. left. apply Rinv_0_lt_compat. lra.
Qed.

Lemma codec_metrics_bound_minmax (V : list vec3) (bins : Z) :
  V <> [] -> (2 <= bins <= int32_max + 1)%Z ->
  exists W v_min v_max m,
    min_axis0 V = Ok v_min /\ max_axis0 V = Ok v_max /\
    codec norm_minmax "minmax" bins (array3 V) = Ok (array3 W) /\
    compute_errors (array3 V) (array3 W) = Ok m /\
    max_error m
    <= sqrt (Rsqr (get AxisX v_max - get AxisX v_min)
             + Rsqr (get AxisY v_max - get AxisY v_min)
             + Rsqr (get AxisZ v_max - get AxisZ v_min))
       / IZR (bins - 1) /\
    mse_total m
    <= (Rsqr (get AxisX v_max - get AxisX v_min)
        + Rsqr (get AxisY v_max - get AxisY v_min)
        + Rsqr (get AxisZ v_max - get AxisZ v_min))
       / (3 * Rsqr (IZR (bins - 1))).
Proof.
  intros HV Hb.
  destruct (codec_minmax_facts V bins HV Hb)
    as (W & v_min & v_max & Hmin & Hmax & E & HW & Hbox & _).
  assert (Hlen : length V = length W) by (subst W; now rewrite length_map).
  destruct (compute_errors_array3_full V W HV Hlen)
    as (mx & mn & Hmx & Hmn & Em).
  exists W, v_min, v_max. eexists.
  split; [assumption|]. split; [assumption|]. split; [exact E|].
  split; [exact Em|]. cbn [max_error mse_total].
  set (S := Rsqr (get AxisX v_max - get AxisX v_min)
            + Rsqr (get AxisY v_max - get AxisY v_min)
            + Rsqr (get AxisZ v_max - get AxisZ v_min)).
  assert (Hn : 1 <= IZR (bins - 1)) by (apply IZR_le; lia).
  set (n := IZR (bins - 1)) in *.
  assert (Hn2 : 0 < Rsqr n) by (apply Rlt_0_sqr; lra).
  assert (HS : 0 <= S) by (unfold S; apply sum_sqr_nonneg).
  assert (Hrow : forall d, In d (spec_diff V W) ->
            Rsqr (get AxisX d) + Rsqr (get AxisY d) + Rsqr (get AxisZ d)
            <= S / Rsqr n).
  { intros d Hd. unfold spec_diff in Hd. rewrite HW, zip_with_map_r in Hd.
    apply in_map_iff in Hd as (v & <- & Hv).
    pose proof (codec_minmax_component_sqr bins _ _ _ Hb (Hbox AxisX v Hv)).
    pose proof (codec_minmax_component_sqr bins _ _ _ Hb (Hbox AxisY v Hv)).
    pose proof (codec_minmax_component_sqr bins _ _ _ Hb (Hbox AxisZ v Hv)).
    fold n in H, H0, H1. rewrite Rsqr_div' in H, H0, H1.
    destruct v as [[x y] z]. cbn [get vzip] in *.
    replace (S / Rsqr n)
      with (Rsqr (get AxisX v_max - get AxisX v_min) / Rsqr n
            + Rsqr (get AxisY v_max - get AxisY v_min) / Rsqr n
            + Rsqr (get AxisZ v_max - get AxisZ v_min) / Rsqr n)
      by (unfold S; field; lra).
    lra. }
  split.
  - destruct (amax_spec (map norm3 (spec_diff V W))) as (mx' & Hmx' & Hin & _).
    { destruct V; [congruence|]. destruct W; discriminate. }
    rewrite Hmx in Hmx'. injection Hmx' as <-.
    apply in_map_iff in Hin as (d & <- & Hd).
    replace (sqrt S / n) with (sqrt (S / Rsqr n)).
    + specialize (Hrow d Hd). destruct d as [[x y] z]. cbn [get] in Hrow.
      now apply sqrt_le_1_alt.
    + rewrite sqrt_div_alt by assumption. now rewrite sqrt_Rsqr by lra.
  - rewrite mean_flat3.
    pose proof (spec_diff_length V W Hlen) as HDlen.
    assert (HN : 0 < INR (length (spec_diff V W))).
    { apply lt_0_INR. rewrite HDlen. destruct V; [congruence | cbn; lia]. }
    pose proof (sum_bounds 0 (S / Rsqr n)
                  (map (fun d => Rsqr (get AxisX d) + Rsqr (get AxisY d)
                                 + Rsqr (get AxisZ d)) (spec_diff V W)))
      as Hsum.
    rewrite length_map in Hsum. destruct Hsum as [_ Hsum].
    { intros x Hx. apply in_map_iff in Hx as (d & <- & Hd).
      split; [apply sum_sqr_nonneg | now apply Hrow]. }
    rewrite mult_INR, INR_3.
    apply (Rmult_le_reg_r (3 * INR (length (spec_diff V W)))); [lra|].
    unfold Rdiv at 1. rewrite Rmult_assoc, Rinv_l by lra.
    replace (S / (3 * Rsqr n) * (3 * INR (length (spec_diff V W))))
      with (S / Rsqr n * INR (length (spec_diff V W))) by (field; lra).
    lra.
Qed.

(** With min-max and at most [2^31] bins, the metrics of the
    reconstruction are bounded by the bounding box: the largest per-vertex
    error is at most the diagonal of the box divided by [bins - 1], and
    the total MSE at most a third of the squared diagonal divided by
    [(bins - 1)^2]. *)
Theorem codec_metrics_bound (V : list vec3) (bins : Z) :
  V <> [] -> (2 <= bins <= int32_max + 1)%Z ->
  exists W v_min v_max m,
    min_axis0 V = Ok v_min /\ max_axis0 V = Ok v_max /\
    codec norm_minmax "minmax" bins (array3 V) = Ok (array3 W) /\
    compute_errors (array3 V) (array3 W) = Ok m /\
    max_error m
    <= sqrt (Rsqr (get AxisX v_max - get AxisX v_min)
             + Rsqr (get AxisY v_max - get AxisY v_min)
             + Rsqr (get AxisZ v_max - get AxisZ v_min))
       / IZR (bins - 1) /\
    mse_total m
    <= (Rsqr (get AxisX v_max - get AxisX v_min)
        + Rsqr (get AxisY v_max - get AxisY v_min)
        + Rsqr (get AxisZ v_max - get AxisZ v_min))
       / (3 * Rsqr (IZR (bins - 1))).
Proof. exact (codec_metrics_bound_minmax V bins). Qed.

Lemma codec_metrics_bound_witness :
  test_vertices <> [] /\ (2 <= BINS <= int32_max + 1)%Z /\
  exists W v_min v_max m,
    min_axis0 test_vertices = Ok v_min /\
    max_axis0 test_vertices = Ok v_max /\
    codec norm_minmax "minmax" BINS (array3 test_vertices) = Ok (array3 W) /\
    compute_errors (array3 test_vertices) (array3 W) = Ok m /\
    max_error m
    <= sqrt (Rsqr (get AxisX v_max - get AxisX v_min)
             + Rsqr (get AxisY v_max - get AxisY v_min)
             + Rsqr (get AxisZ v_max - get AxisZ v_min))
       / IZR (BINS - 1) /\
    mse_total m
    <= (Rsqr (get AxisX v_max - get AxisX v_min)
        + Rsqr (get AxisY v_max - get AxisY v_min)
        + Rsqr (get AxisZ v_max - get AxisZ v_min))
       / (3 * Rsqr (IZR (BINS - 1))).
Proof.
  assert (H1 : test_vertices <> []) by discriminate.
  assert (H2 : (2 <= BINS <= int32_max + 1)%Z)
    by (unfold BINS, int32_max; lia).
  split; [exact H1|]. split; [exact H2|].
  exact (codec_metrics_bound test_vertices BINS H1 H2).
Defined.

(** With the 1024 bins of the scripts, min-max and a bounding box whose
    sides are at most 32 units long, the MSE stays below
    [ERROR_THRESHOLD]: [print_metrics] prints the confirmation line, never
    the warning. *)
Theorem print_metrics_no_warning (V : list vec3) (v_min v_max : vec3) :
  V <> [] ->
  min_axis0 V = Ok v_min -> max_axis0 V = Ok v_max ->
  (forall a, get a v_max - get a v_min <= 32) ->
  exists W m,
    codec norm_minmax "minmax" BINS (array3 V) = Ok (array3 W) /\
    compute_errors (array3 V) (array3 W) = Ok m /\
    exceeds_threshold m = false.
Proof.
  intros HV Hmin Hmax Hside.
  assert (Hb : (2 <= BINS <= int32_max + 1)%Z)
    by (unfold BINS, int32_max; lia).
  destruct (codec_metrics_bound_minmax V BINS HV Hb)
    as (W & lo & hi & m & Hlo & Hhi & E & Em & _ & Hmse).
  rewrite Hmin in Hlo. injection Hlo as <-.
  rewrite Hmax in Hhi. injection Hhi as <-.
  exists W, m. split; [exact E|]. split; [exact Em|].
  unfold exceeds_threshold, ERROR_THRESHOLD.
  destruct (Rgt_dec (mse_total m) (1 / 1000)) as [Hgt|_]; [|reflexivity].
  exfalso.
  destruct (min_axis0_spec V HV) as (lo' & Hlo' & Hmn).
  destruct (max_axis0_spec V HV) as (hi' & Hhi' & Hmx).
  rewrite Hmin in Hlo'. injection Hlo' as <-.
  rewrite Hmax in Hhi'. injection Hhi' as <-.
  assert (Hsq : forall a, Rsqr (get a v_max - get a v_min) <= 1024).
  { intros a. destruct V as [|v V]; [congruence|].
    pose proof (proj2 (Hmn a) v (or_introl eq_refl)).
    pose proof (proj2 (Hmx a) v (or_introl eq_refl)).
    pose proof (Hside a). unfold Rsqr. nra. }
  pose proof (Hsq AxisX). pose proof (Hsq AxisY). pose proof (Hsq AxisZ).
  change (BINS - 1)%Z with 1023%Z in Hmse.
  assert (Hd : 3 * Rsqr 1023 = 3139587) by (unfold Rsqr; lra).
  rewrite Hd in Hmse.
  assert (Hle : (Rsqr (get AxisX v_max - get AxisX v_min)
                 + Rsqr (get AxisY v_max - get AxisY v_min)
                 + Rsqr (get AxisZ v_max - get AxisZ v_min)) / 3139587
                <= 3072 / 3139587).
  { unfold Rdiv. apply Rmult_le_compat_r; lra. }
  lra.
Qed.

Lemma print_metrics_no_warning_witness :
  test_vertices <> [] /\
  min_axis0 test_vertices = Ok (-1, 0, 0) /\
  max_axis0 test_vertices = Ok (2, 2, 3 / 2) /\
  (forall a, get a (2, 2, 3 / 2) - get a (-1, 0, 0) <= 32) /\
  exists W m,
    codec norm_minmax "minmax" BINS (array3 test_vertices) = Ok (array3 W) /\
    compute_errors (array3 test_vertices) (array3 W) = Ok m /\
    exceeds_threshold m = false.
Proof.
  assert (H1 : test_vertices <> []) by discriminate.
  assert (H4 : forall a, get a (2, 2, 3 / 2) - get a (-1, 0, 0) <= 32).
  { intros [| |]; cbn [get]; lra. }
  split; [exact H1|]. split; [exact test_vertices_min|].
  split; [exact test_vertices_max|]. split; [exact H4|].
  exact (print_metrics_no_warning test_vertices _ _ H1 test_vertices_min
           test_vertices_max H4).
Defined.

(** ** The lattice that step 4 saves *)

Lemma fold_Zmin_spec (l : list Z) (x : Z) :
  In (fold_left Z.min l x) (x :: l) /\
  forall y, In y (x :: l) -> (fold_left Z.min l x <= y)%Z.
Proof.
  revert x. induction l as [|a l IH]; intros x; cbn [fold_left].
  - split; [now left|]. intros y [<-|[]]. lia.
  - destruct (IH (Z.min x a)) as [Hin Hle]. split.
    + destruct Hin as [E|Hin]; [|now right; right].
      rewrite <- E. destruct (Z.min_spec x a) as [[_ ->]|[_ ->]];
        [now left | now right; left].
    + intros y [<-|[<-|Hy]].
      * specialize (Hle _ (or_introl eq_refl)). lia.
      * specialize (Hle _ (or_introl eq_refl)). lia.
      * apply Hle. now right.
Qed.

Lemma fold_Zmax_spec (l : list Z) (x : Z) :
  In (fold_left Z.max l x) (x :: l) /\
  forall y, In y (x :: l) -> (y <= fold_left Z.max l x)%Z.
Proof.
  revert x. induction l as [|a l IH]; intros x; cbn [fold_left].
  - split; [now left|]. intros y [<-|[]]. lia.
  - destruct (IH (Z.max x a)) as [Hin Hle]. split.
    + destruct Hin as [E|Hin]; [|now right; right].
      rewrite <- E. destruct (Z.max_spec x a) as [[_ ->]|[_ ->]];
        [now right; left | now left].
    + intros y [<-|[<-|Hy]].
      * specialize (Hle _ (or_introl eq_refl)). lia.
      * specialize (Hle _ (or_introl eq_refl)). lia.
      * apply Hle. now right.
Qed.

Lemma amin_Z_unique (l : list Z) (m : Z) :
  In m l -> (forall y, In y l -> (m <= y)%Z) -> amin_Z l = Ok m.
Proof.
  intros Hin Hle. destruct l as [|x l]; [contradiction|]. cbn [amin_Z].
  destruct (fold_Zmin_spec l x) as [Hin' Hle']. f_equal.
  specialize (Hle _ Hin'). specialize (Hle' _ Hin). lia.
Qed.

Lemma amax_Z_unique (l : list Z) (m : Z) :
  In m l -> (forall y, In y l -> (y <= m)%Z) -> amax_Z l = Ok m.
Proof.
  intros Hin Hle. destruct l as [|x l]; [contradiction|]. cbn [amax_Z].
  destruct (fold_Zmax_spec l x) as [Hin' Hle']. f_equal.
  specialize (Hle _ Hin'). specialize (Hle' _ Hin). lia.
Qed.

Lemma in_flat3 (x : R) (V : list vec3) :
  In x (flat3 V) <-> exists v a, In v V /\ x = get a v.
Proof.
  induction V as [|[[a b] c] V IH]; cbn [flat3].
  - split; [contradiction | intros (v & _ & [] & _)].
  - split.
    + intros [<-|[<-|[<-|H]]].
      * exists (a, b, c), AxisX. split; [now left | reflexivity].
      * exists (a, b, c), AxisY. split; [now left | reflexivity].
      * exists (a, b, c), AxisZ. split; [now left | reflexivity].
      * apply IH in H as (v & ax & Hv & E). exists v, ax. split; [now right | exact E].
    + intros (v & ax & [<-|Hv] & ->).
      * destruct ax; cbn; tauto.
      * do 3 right. apply IH. now exists v, ax.
Qed.

Lemma saved_lattice (V N : list vec3) (method : string)
    (norm_func : ndarray R -> result (ndarray R * dict)) (p : dict)
    (lo hi : Z) :
  norm_func (array3 V) = Ok (array3 N, p) ->
  method = "minmax"%string \/ method = "sphere"%string ->
  let Q := map (fun x => quantize_component BINS (to_unit method x))
             (flat3 N) in
  amin_Z Q = Ok lo -> amax_Z Q = Ok hi ->
  process_mesh_file_saved (array3 V) method norm_func
    = Ok (mk_ndarray [length N; 3%nat] Q, p) /\
  process_method (array3 V) method norm_func = Ok (lo, hi, p).
Proof.
  intros Hnorm Hm Q Hlo Hhi.
  assert (Hq : quantize (array3 N) BINS method
               = Ok (mk_ndarray [length N; 3%nat] Q)).
  { now rewrite quantize_good_shape by (reflexivity || assumption). }
  assert (Hrange : forall z, In z Q -> (0 <= z <= BINS - 1)%Z).
  { intros z Hz. apply in_map_iff in Hz as (x & <- & _).
    apply quantize_component_range. unfold BINS. lia. }
  assert (Hchk : lattice_check (mk_ndarray [length N; 3%nat] Q) BINS
                 = Ok (lo, hi)).
  { unfold lattice_check. cbn [data]. rewrite Hlo, Hhi. cbn [bind].
    assert (Hl : In lo Q).
    { destruct Q as [|x Q']; [discriminate|]. cbn [amin_Z] in Hlo.
      injection Hlo as <-. apply fold_Zmin_spec. }
    assert (Hh : In hi Q).
    { destruct Q as [|x Q']; [discriminate|]. cbn [amax_Z] in Hhi.
      injection Hhi as <-. apply fold_Zmax_spec. }
    pose proof (Hrange _ Hl). pose proof (Hrange _ Hh).
    assert (E : ((lo <? 0) || (hi >=? BINS))%Z = false).
    { apply orb_false_intro; [apply Z.ltb_ge; lia|].
      rewrite Z.geb_leb. apply Z.leb_gt. lia. }
    now rewrite E. }
  split.
  - unfold process_mesh_file_saved. rewrite Hnorm. cbn [bind fst snd].
    rewrite Hq. cbn [bind]. rewrite Hchk. cbn [bind].
    now rewrite dequantize_good_shape by (reflexivity || assumption).
  - unfold process_method. rewrite Hnorm. cbn [bind fst snd].
    rewrite Hq. cbn [bind]. rewrite Hchk. cbn [bind].
    now rewrite dequantize_good_shape by (reflexivity || assumption).
Qed.

Lemma quantize_component_zero : quantize_component BINS 0 = 0%Z.
Proof. exact quantize_zero. Qed.

Lemma quantize_component_one : quantize_component BINS 1 = 1023%Z.
Proof.
  rewrite quantize_component_floor
    by (unfold BINS, int32_max; (lia || lra)).
  rewrite Rmult_1_l. apply ZfloorZ.
Qed.

(** The range that step 4 logs for min-max: for every (N, 3) array with
    N >= 1 the smallest bin is 0; the largest is 1023 as soon as one axis
    is not flat, and 0 when all points coincide. *)
Theorem process_method_minmax_range (V : list vec3) :
  V <> [] ->
  exists q_min q_max v_min v_max,
    min_axis0 V = Ok v_min /\ max_axis0 V = Ok v_max /\
    process_method (array3 V) "minmax" norm_minmax
      = Ok (q_min, q_max,
            [("method", PyStr "minmax"); ("v_min", PyVec v_min);
             ("v_max", PyVec v_max)]%string) /\
    q_min = 0%Z /\
    ((exists a, get a v_min <> get a v_max) -> q_max = 1023%Z) /\
    ((forall a, get a v_min = get a v_max) -> q_max = 0%Z).
Proof.
  intros HV.
  destruct (norm_minmax_array3 V HV) as (v_min & v_max & Hmin & Hmax & E).
  destruct (min_axis0_spec V HV) as (v_min' & Hmin' & Hlo).
  destruct (max_axis0_spec V HV) as (v_max' & Hmax' & Hhi).
  rewrite Hmin in Hmin'. injection Hmin' as <-.
  rewrite Hmax in Hmax'. injection Hmax' as <-.
  set (f := fun v => vzip Rdiv (vzip Rminus v v_min)
                       (vmap zero_to_one (vzip Rminus v_max v_min))) in *.
  set (Q := map (fun x => quantize_component BINS (to_unit "minmax" x))
              (flat3 (map f V))).
  assert (Hget : forall a v,
            get a (f v)
            = (get a v - get a v_min)
              / zero_to_one (get a v_max - get a v_min)).
  { intros a [[x y] z]. unfold f.
    destruct v_min as [[lx ly] lz], v_max as [[hx hy] hz]. now destruct a. }
  assert (Hrange : forall z, In z Q -> (0 <= z <= 1023)%Z).
  { intros z Hz. apply in_map_iff in Hz as (x & <- & _).
    apply (quantize_component_range BINS). unfold BINS. lia. }
  assert (Hin : forall v a, In v V ->
            In (quantize_component BINS (get a (f v))) Q).
  { intros v a Hv. unfold Q.
    apply (in_map (fun x => quantize_component BINS (to_unit "minmax" x))).
    apply in_flat3. exists (f v), a. split; [now apply in_map | reflexivity]. }
  assert (Hzero : In 0%Z Q).
  { destruct (Hlo AxisX) as [Hi _]. apply in_map_iff in Hi as (v & Ev & Hv).
    rewrite <- quantize_component_zero.
    replace 0 with (get AxisX (f v)); [now apply Hin|].
    rewrite Hget, Ev. unfold Rdiv. now rewrite Rminus_diag, Rmult_0_l. }
  assert (Hqmin : amin_Z Q = Ok 0%Z).
  { apply amin_Z_unique; [exact Hzero|]. intros y Hy. now apply Hrange. }
  assert (Hne : Q <> []) by (intros E0; rewrite E0 in Hzero; contradiction).
  destruct (amax_Z Q) as [hi|e] eqn:Hqmax;
    [|destruct Q; [congruence | discriminate]].
  destruct (saved_lattice V (map f V) "minmax" norm_minmax _ 0%Z hi E
              (or_introl eq_refl) Hqmin Hqmax) as [_ Hpm].
  exists 0%Z, hi, v_min, v_max.
  split; [assumption|]. split; [assumption|]. split; [exact Hpm|].
  split; [reflexivity|]. split.
  - intros (a & Hne_a).
    destruct (Hhi a) as [Hi _]. apply in_map_iff in Hi as (v & Ev & Hv).
    assert (H1 : In 1023%Z Q).
    { rewrite <- quantize_component_one.
      replace 1 with (get a (f v)); [now apply Hin|].
      rewrite Hget, Ev, zero_to_one_nonzero by lra. field. lra. }
    rewrite (amax_Z_unique Q 1023%Z H1) in Hqmax.
    + now injection Hqmax.
    + intros y Hy. now apply Hrange.
  - intros Hflat.
    rewrite (amax_Z_unique Q 0%Z Hzero) in Hqmax; [now injection Hqmax|].
    intros y Hy. apply in_map_iff in Hy as (x & <- & Hx).
    apply in_flat3 in Hx as (n & a & Hn & ->).
    apply in_map_iff in Hn as (v & <- & Hv).
    rewrite Hget.
    replace (get a v) with (get a v_min).
    + unfold Rdiv, to_unit. cbn [String.eqb Ascii.eqb Bool.eqb].
      rewrite Rminus_diag, Rmult_0_l, quantize_component_zero. lia.
    + pose proof (proj2 (Hlo a) v Hv). pose proof (proj2 (Hhi a) v Hv).
      rewrite <- (Hflat a) in *. lra.
Qed.

Lemma process_method_minmax_range_witness :
  test_vertices <> [] /\
  exists q_min q_max v_min v_max,
    min_axis0 test_vertices = Ok v_min /\
    max_axis0 test_vertices = Ok v_max /\
    process_method (array3 test_vertices) "minmax" norm_minmax
      = Ok (q_min, q_max,
            [("method", PyStr "minmax"); ("v_min", PyVec v_min);
             ("v_max", PyVec v_max)]%string) /\
    q_min = 0%Z /\
    ((exists a, get a v_min <> get a v_max) -> q_max = 1023%Z) /\
    ((forall a, get a v_min = get a v_max) -> q_max = 0%Z).
Proof.
  assert (H : test_vertices <> []) by discriminate.
  split; [exact H|]. exact (process_method_minmax_range test_vertices H).
Defined.

Lemma saved_lattice_explicit (V N : list vec3) (method : string)
    (norm_func : ndarray R -> result (ndarray R * dict)) (p : dict) :
  N <> [] ->
  norm_func (array3 V) = Ok (array3 N, p) ->
  method = "minmax"%string \/ method = "sphere"%string ->
  process_mesh_file_saved (array3 V) method norm_func
    = Ok (mk_ndarray [length N; 3%nat]
            (map (fun x => quantize_component BINS (to_unit method x))
                 (flat3 N)), p).
Proof.
  intros HN Hnorm Hm.
  set (Q := map (fun x => quantize_component BINS (to_unit method x))
              (flat3 N)).
  assert (HQ : Q <> []).
  { unfold Q. destruct N as [|[[x y] z] N]; [congruence | discriminate]. }
  destruct (amin_Z Q) as [lo|e] eqn:Hlo;
    [|destruct Q; [congruence | discriminate]].
  destruct (amax_Z Q) as [hi|e] eqn:Hhi;
    [|destruct Q; [congruence | discriminate]].
  exact (proj1 (saved_lattice V N method norm_func p lo hi Hnorm Hm Hlo Hhi)).
Qed.

Lemma lattice_row (g : R -> Z) (N : list vec3) (i : nat) (a : axis)
    (n : vec3) (t : Z * Z * Z) (sh : list nat) :
  nth_error N i = Some n ->
  row rows3_Z (mk_ndarray sh (map g (flat3 N))) i = Some t ->
  get_Z a t = g (get a n).
Proof.
  intros Hn Ht. unfold row in Ht. cbn [data] in Ht.
  rewrite rows3_Z_map_flat3, nth_error_map, Hn in Ht.
  injection Ht as <-. now destruct a.
Qed.

Lemma quantize_unit_monotone (method : string) (x y : R) :
  method = "minmax"%string \/ method = "sphere"%string ->
  x <= y -> 0 <= to_unit method y <= 1 ->
  (quantize_component BINS (to_unit method x)
   <= quantize_component BINS (to_unit method y))%Z.
Proof.
  intros Hm Hxy Hy.
  apply quantize_component_monotone.
  - unfold BINS. lia.
  - now apply to_unit_monotone.
  - assert (HB : (2 <= BINS)%Z) by (unfold BINS; lia).
    pose proof (floor_bin BINS (to_unit method y) HB Hy) as H.
    unfold BINS, int32_max in *. lia.
Qed.

(** The saved lattice keeps the order of the vertices on every axis, for
    both methods: if vertex [i] is not beyond vertex [j] on an axis, its
    bin on that axis is not beyond the bin of [j]. *)
Theorem saved_lattice_order (V : list vec3) :
  V <> [] ->
  (exists q p,
     process_mesh_file_saved (array3 V) "minmax" norm_minmax = Ok (q, p) /\
     forall i j vi vj qi qj a,
       nth_error V i = Some vi -> nth_error V j = Some vj ->
       row rows3_Z q i = Some qi -> row rows3_Z q j = Some qj ->
       get a vi <= get a vj -> (get_Z a qi <= get_Z a qj)%Z) /\
  (exists q p,
     process_mesh_file_saved (array3 V) "sphere" norm_sphere = Ok (q, p) /\
     forall i j vi vj qi qj a,
       nth_error V i = Some vi -> nth_error V j = Some vj ->
       row rows3_Z q i = Some qi -> row rows3_Z q j = Some qj ->
       get a vi <= get a vj -> (get_Z a qi <= get_Z a qj)%Z).
Proof.
  intros HV. split.
  - destruct (norm_minmax_array3 V HV) as (v_min & v_max & Hmin & Hmax & E).
    destruct (min_axis0_spec V HV) as (v_min' & Hmin' & Hlo).
    destruct (max_axis0_spec V HV) as (v_max' & Hmax' & Hhi).
    rewrite Hmin in Hmin'. injection Hmin' as <-.
    rewrite Hmax in Hmax'. injection Hmax' as <-.
    set (f := fun v => vzip Rdiv (vzip Rminus v v_min)
                         (vmap zero_to_one (vzip Rminus v_max v_min))) in *.
    assert (Hget : forall a v,
              get a (f v)
              = (get a v - get a v_min)
                / zero_to_one (get a v_max - get a v_min)).
    { intros a [[x y] z]. unfold f.
      destruct v_min as [[lx ly] lz], v_max as [[hx hy] hz]. now destruct a. }
    eexists _, _. split.
    { apply (saved_lattice_explicit V (map f V));
        [destruct V; [congruence | discriminate] | exact E | now left]. }
    intros i j vi vj qi qj a Hvi Hvj Hqi Hqj Hle.
    rewrite (lattice_row _ (map f V) i a (f vi) qi _
               (map_nth_error f _ _ Hvi) Hqi).
    rewrite (lattice_row _ (map f V) j a (f vj) qj _
               (map_nth_error f _ _ Hvj) Hqj).
    pose proof (nth_error_In _ _ Hvj) as Hin.
    assert (Hbox : get a v_min <= get a vj <= get a v_max).
    { split; [now apply Hlo | now apply Hhi]. }
    apply quantize_unit_monotone; [now left | |].
    + rewrite !Hget. unfold Rdiv. apply Rmult_le_compat_r; [|lra].
      left. apply Rinv_0_lt_compat.
      unfold zero_to_one. destruct (Req_dec_T _ 0); lra.
    + unfold to_unit. cbn [String.eqb Ascii.eqb Bool.eqb]. rewrite Hget.
      now apply minmax_component_range.
  - destruct (norm_sphere_array3 V HV) as (scale & Hs & E).
    set (f := fun v => vmap (fun x => x / zero_to_one scale)
                         (vzip Rminus v (mean_axis0 V))) in *.
    assert (Hget : forall a v,
              get a (f v)
              = (get a v - get a (mean_axis0 V)) / zero_to_one scale).
    { intros a [[x y] z]. unfold f.
      destruct (mean_axis0 V) as [[cx cy] cz]. now destruct a. }
    rewrite map_map in E. fold f in E.
    eexists _, _. split.
    { apply (saved_lattice_explicit V (map f V));
        [destruct V; [congruence | discriminate] | exact E | now right]. }
    intros i j vi vj qi qj a Hvi Hvj Hqi Hqj Hle.
    rewrite (lattice_row _ (map f V) i a (f vi) qi _
               (map_nth_error f _ _ Hvi) Hqi).
    rewrite (lattice_row _ (map f V) j a (f vj) qj _
               (map_nth_error f _ _ Hvj) Hqj).
    pose proof (nth_error_In _ _ Hvj) as Hin.
    destruct (sphere_row_bound V scale vj Hs Hin) as [Hpos Hball].
    fold (f vj) in Hball.
    pose proof (component_le_norm3 a (f vj)) as Hc.
    apply quantize_unit_monotone; [now right | |].
    + rewrite !Hget. unfold Rdiv. apply Rmult_le_compat_r; [|lra].
      left. now apply Rinv_0_lt_compat.
    + unfold to_unit. cbn [String.eqb Ascii.eqb Bool.eqb].
      unfold Rabs in Hc. destruct (Rcase_abs (get a (f vj))); lra.
Qed.

Lemma saved_lattice_order_witness :
  test_vertices <> [] /\
  exists q p,
    process_mesh_file_saved (array3 test_vertices) "sphere" norm_sphere
      = Ok (q, p) /\
    forall i j vi vj qi qj a,
      nth_error test_vertices i = Some vi ->
      nth_error test_vertices j = Some vj ->
      row rows3_Z q i = Some qi -> row rows3_Z q j = Some qj ->
      get a vi <= get a vj -> (get_Z a qi <= get_Z a qj)%Z.
Proof.
  assert (H : test_vertices <> []) by discriminate.
  split; [exact H|]. exact (proj2 (saved_lattice_order test_vertices H)).
Defined.

(** With the unit sphere and at most [2^31] bins, the largest per-vertex
    error of the reconstruction is at most [sqrt 3] times
    [2 * scale / (bins - 1)], and the total MSE at most the square of
    [2 * scale / (bins - 1)], [scale] being the scale of the record. *)
Theorem codec_metrics_bound_sphere (V : list vec3) (bins : Z) :
  V <> [] -> (2 <= bins <= int32_max + 1)%Z ->
  exists W N p scale m,
    norm_sphere (array3 V) = Ok (N, p) /\
    getitem "scale" p = Ok (PyFloat scale) /\
    codec norm_sphere "sphere" bins (array3 V) = Ok (array3 W) /\
    compute_errors (array3 V) (array3 W) = Ok m /\
    max_error m <= sqrt 3 * (2 * scale / IZR (bins - 1)) /\
    mse_total m <= Rsqr (2 * scale / IZR (bins - 1)).
Proof.
  intros HV Hb.
  destruct (codec_sphere_rows V bins HV) as (scale & Hs & E).
  destruct (norm_sphere_array3 V HV) as (scale' & Hs' & En).
  rewrite Hs in Hs'. injection Hs' as <-.
  set (s := zero_to_one scale) in *.
  set (c := mean_axis0 V) in *.
  set (rowf := fun v : vec3 =>
         (codec_sphere_component bins (get AxisX c) s (get AxisX v),
          codec_sphere_component bins (get AxisY c) s (get AxisY v),
          codec_sphere_component bins (get AxisZ c) s (get AxisZ v))) in *.
  assert (Hlen : length V = length (map rowf V)) by now rewrite length_map.
  destruct (compute_errors_array3_full V (map rowf V) HV Hlen)
    as (mx & mn & Hmx & Hmn & Em).
  eexists (map rowf V), _, _, s. eexists.
  split; [exact En|]. split; [reflexivity|]. split; [exact E|].
  split; [exact Em|]. cbn [max_error mse_total].
  assert (Hn : 1 <= IZR (bins - 1)) by (apply IZR_le; lia).
  set (B := 2 * s / IZR (bins - 1)).
  assert (Hcomp : forall a v, In v V ->
            Rsqr (get a v - codec_sphere_component bins (get a c) s (get a v))
            <= Rsqr B).
  { intros a v Hv.
    destruct (sphere_row_bound V scale v Hs Hv) as [Hpos Hball].
    fold s c in Hpos, Hball.
    pose proof (component_le_norm3 a
                  (vmap (fun x => x / s) (vzip Rminus v c))) as Hc.
    assert (Habs : Rabs ((get a v - get a c) / s) <= 1).
    { destruct v as [[x y] z], c as [[cx cy] cz].
      destruct a; cbn [get vzip vmap] in *; lra. }
    pose proof (sphere_component_error bins (get a v) (get a c) s Hb Hpos Habs)
      as He.
    fold (codec_sphere_component bins (get a c) s (get a v)) in He.
    apply Rsqr_le_abs_1. rewrite Rabs_minus_sym.
    assert (HB : 0 <= B).
    { unfold B. apply Rmult_le_pos; [lra|].
      left. apply Rinv_0_lt_compat. lra. }
    rewrite (Rabs_pos_eq B) by assumption. exact He. }
  assert (Hpos : 0 < s).
  { destruct V as [|v V']; [congruence|].
    now destruct (sphere_row_bound (v :: V') scale v Hs (or_introl eq_refl)). }
  assert (HB : 0 <= B).
  { unfold B. apply Rmult_le_pos; [lra|].
    left. apply Rinv_0_lt_compat. lra. }
  assert (Hrow : forall d, In d (spec_diff V (map rowf V)) ->
            Rsqr (get AxisX d) + Rsqr (get AxisY d) + Rsqr (get AxisZ d)
            <= 3 * Rsqr B).
  { intros d Hd. unfold spec_diff in Hd. rewrite zip_with_map_r in Hd.
    apply in_map_iff in Hd as (v & <- & Hv).
    pose proof (Hcomp AxisX v Hv). pose proof (Hcomp AxisY v Hv).
    pose proof (Hcomp AxisZ v Hv).
    destruct v as [[x y] z]. cbn [get vzip rowf] in *. lra. }
  split.
  - destruct (amax_spec (map norm3 (spec_diff V (map rowf V))))
      as (mx' & Hmx' & Hin & _).
    { destruct V; [congruence | discriminate]. }
    rewrite Hmx in Hmx'. injection Hmx' as <-.
    apply in_map_iff in Hin as (d & <- & Hd).
    replace (sqrt 3 * B) with (sqrt (3 * Rsqr B)).
    + specialize (Hrow d Hd). destruct d as [[x y] z]. cbn [get] in Hrow.
      now apply sqrt_le_1_alt.
    + rewrite sqrt_mult_alt by lra. now rewrite sqrt_Rsqr.
  - rewrite mean_flat3.
    pose proof (spec_diff_length V (map rowf V) Hlen) as HDlen.
    assert (HN : 0 < INR (length (spec_diff V (map rowf V)))).
    { apply lt_0_INR. rewrite HDlen. destruct V; [congruence | cbn; lia]. }
    pose proof (sum_bounds 0 (3 * Rsqr B)
                  (map (fun d => Rsqr (get AxisX d) + Rsqr (get AxisY d)
                                 + Rsqr (get AxisZ d))
                       (spec_diff V (map rowf V)))) as Hsum.
    rewrite length_map in Hsum. destruct Hsum as [_ Hsum].
    { intros x Hx. apply in_map_iff in Hx as (d & <- & Hd).
      split; [apply sum_sqr_nonneg | now apply Hrow]. }
    rewrite mult_INR, INR_3.
    apply (Rmult_le_reg_r (3 * INR (length (spec_diff V (map rowf V)))));
      [lra|].
    unfold Rdiv at 1. rewrite Rmult_assoc, Rinv_l by lra. lra.
Qed.

Lemma codec_metrics_bound_sphere_witness :
  test_vertices <> [] /\ (2 <= BINS <= int32_max + 1)%Z /\
  exists W N p scale m,
    norm_sphere (array3 test_vertices) = Ok (N, p) /\
    getitem "scale" p = Ok (PyFloat scale) /\
    codec norm_sphere "sphere" BINS (array3 test_vertices) = Ok (array3 W) /\
    compute_errors (array3 test_vertices) (array3 W) = Ok m /\
    max_error m <= sqrt 3 * (2 * scale / IZR (BINS - 1)) /\
    mse_total m <= Rsqr (2 * scale / IZR (BINS - 1)).
Proof.
  assert (H1 : test_vertices <> []) by discriminate.
  assert (H2 : (2 <= BINS <= int32_max + 1)%Z)
    by (unfold BINS, int32_max; lia).
  split; [exact H1|]. split; [exact H2|].
  exact (codec_metrics_bound_sphere test_vertices BINS H1 H2).
Defined.
